(** * ZedStore page inspection functions (zedstore_inspect.c)

    A shallow embedding of the SQL-callable debugging functions
    [pg_zs_page_type], [pg_zs_undo_pages], [pg_zs_toast_pages],
    [pg_zs_dump_attstreams], [pg_zs_btree_pages] and [pg_zs_meta_page].
    ([pg_zs_decode_chunk], which touches no page, is left out.)

    The functions are imperative: they raise errors, pin and lock buffers,
    poll for interrupts and append rows to a tuplestore.  They are embedded
    in a small state-and-error monad whose state records the chronological
    trace of those effects, so that statements such as "the error is raised
    before any page is read" are statements about the trace. *)

From Stdlib Require Import ZArith String Ascii List Bool Lia.
From stdpp Require Import base tactics option list strings pretty.
Import ListNotations.

Local Open Scope string_scope.
Local Open Scope Z_scope.

(** ** Machine integers

    C integers are modelled as [Z] with the wrap-around written out where
    the source converts between widths. *)

Definition wrap_unsigned (bits : Z) (x : Z) : Z := x mod 2 ^ bits.

Definition wrap_signed (bits : Z) (x : Z) : Z :=
  (x + 2 ^ (bits - 1)) mod 2 ^ bits - 2 ^ (bits - 1).

Definition to_uint16 := wrap_unsigned 16.
Definition to_uint32 := wrap_unsigned 32.
Definition to_size_t := wrap_unsigned 64.
Definition to_int16 := wrap_signed 16.
Definition to_int32 := wrap_signed 32.
Definition to_int64 := wrap_signed 64.

(** ** Datums and tuples *)

Inductive Datum :=
| DInt (z : Z)               (* a pass-by-value datum *)
| DBytea (b : list Z).       (* PointerGetDatum of a bytea *)

Definition BoolGetDatum (b : bool) : Datum := DInt (if b then 1 else 0).
Definition Int16GetDatum (x : Z) : Datum := DInt (to_int16 x).
Definition Int32GetDatum (x : Z) : Datum := DInt (to_int32 x).
Definition Int64GetDatum (x : Z) : Datum := DInt (to_int64 x).
Definition ZSTidGetDatum (x : Z) : Datum := Int64GetDatum x.
Definition PointerGetDatum (b : list Z) : Datum := DBytea b.

(** The [values]/[nulls] array pair handed to [tuplestore_putvalues] and
    [heap_form_tuple]. *)
Record HeapTuple := mkTuple { t_values : list Datum; t_nulls : list bool }.

(** [memset(values, 0, sizeof(values)); memset(nulls, 0, sizeof(nulls))] *)
Definition zeroed (natts : nat) : HeapTuple :=
  mkTuple (replicate natts (DInt 0)) (replicate natts false).

Definition set_value (i : nat) (d : Datum) (t : HeapTuple) : HeapTuple :=
  mkTuple (<[i := d]> (t_values t)) (t_nulls t).

Definition set_null (i : nat) (t : HeapTuple) : HeapTuple :=
  mkTuple (t_values t) (<[i := true]> (t_nulls t)).

(** A column of a tuple as SQL sees it: [None] is SQL NULL. *)
Definition column (t : HeapTuple) (i : nat) : option Datum :=
  match t_nulls t !! i with
  | Some false => t_values t !! i
  | _ => None
  end.

(** What a SQL-callable function hands back. *)
Inductive FnResult :=
| RetNull                       (* PG_RETURN_NULL() *)
| RetText (s : string)          (* PG_RETURN_TEXT_P(cstring_to_text(s)) *)
| RetTuple (t : HeapTuple)      (* PG_RETURN_DATUM(HeapTupleGetDatum(t)) *)
| RetSet.                       (* return (Datum) 0; rows are in the tuplestore *)

(** ** On-disk structures

    The structs are declared in zedstore_internal.h and zedstore_undorec.h,
    which are not among the sources.  Each is kept with the members that
    zedstore_inspect.c reads, under the names it reads them by. *)

(** Modelled from the spec: [ZSUndoRecPtr] of zedstore_undorec.h, the undo
    record pointer: "a composite key (page number, in-page byte offset,
    monotonic counter)". *)
Module ZSUndoRecPtr.
Record t := mk { counter : Z; blkno : Z; offset : Z }.
Definition zero : t := mk 0 0 0.
End ZSUndoRecPtr.

(** Modelled from the spec: [ZSUndoRec] of zedstore_undorec.h, the header
    of a variable-size undo record, which "carries its own pointer"; [size]
    is the length by which the record loop steps to the next record. *)
Module ZSUndoRec.
Record t := mk { size : Z; undorecptr : ZSUndoRecPtr.t }.
End ZSUndoRec.

(** Modelled from the spec: [ZSMetaPageOpaque] of zedstore_internal.h, the
    special area of the metapage: "undo log head page, undo log tail page,
    counter of the first record on the tail page, oldest-retained
    UndoRecordPointer, free-page-list head, and engine flag bits", and the
    page id. *)
Module ZSMetaPageOpaque.
Record t := mk {
  zs_undo_head : Z;
  zs_undo_tail : Z;
  zs_undo_tail_first_counter : Z;
  zs_undo_oldestptr : ZSUndoRecPtr.t;
  zs_fpm_head : Z;
  zs_flags : Z;
  zs_page_id : Z
}.
End ZSMetaPageOpaque.

(** Modelled from the spec: [ZSUndoPageOpaque] of zedstore_internal.h, the
    special area of an undo page: "a successor page pointer", and the page
    id. *)
Module ZSUndoPageOpaque.
Record t := mk { next : Z; zs_page_id : Z }.
End ZSUndoPageOpaque.

(** Modelled from the spec: [ZSBtreePageOpaque] of zedstore_internal.h, the
    special area of a B-tree page: "attribute number, tree level (0 = leaf),
    successor page pointer (right-link), and the low/high row-id key
    bounds", and the page id. *)
Module ZSBtreePageOpaque.
Record t := mk {
  zs_attno : Z;
  zs_level : Z;
  zs_next : Z;
  zs_lokey : Z;
  zs_hikey : Z;
  zs_page_id : Z
}.
End ZSBtreePageOpaque.

(** Modelled from the spec: [ZSToastPageOpaque] of zedstore_internal.h, the
    special area of a toast page: "owning row id, total logical size of the
    complete value, this slice's byte offset within the logical value,
    predecessor/successor page pointers, and per-slice compressed /
    decompressed size plus a compressed flag", and the page id. *)
Module ZSToastPageOpaque.
Record t := mk {
  zs_tid : Z;
  zs_total_size : Z;
  zs_slice_offset : Z;
  zs_prev : Z;
  zs_next : Z;
  zs_decompressed_size : Z;
  zs_is_compressed : bool;
  zs_page_id : Z
}.
End ZSToastPageOpaque.

(** Modelled from the spec: [ZSAttStream] of zedstore_internal.h, the
    header of an attribute stream (encoded size, flags with the compression
    bit, decompressed size) and its payload bytes. *)
Module ZSAttStream.
Record t := mk {
  t_size : Z;
  t_flags : Z;
  t_decompressed_size : Z;
  t_payload : list Z
}.
End ZSAttStream.

(** Modelled from the spec: [ZSTidArrayItem] of zedstore_internal.h, a
    row-existence item of a meta leaf page; only its size is read. *)
Module ZSTidArrayItem.
Record t := mk { t_size : Z }.
End ZSTidArrayItem.

(** Modelled from the spec: [Page] of bufpage.h, "a generic header
    (free-space pointers: low/high watermark of the item area, and the start
    offset of the trailer), zero or more items, and a kind-specific
    trailer", as the inspection code looks at it.  The header members are
    read directly ([phdr->pd_lower] ...).  Every other member is the
    result of one of the pointer casts the code performs on the page: the
    bytes of the special area overlaid by each of the four opaque structs,
    the bytes at an offset overlaid by an undo record or an attribute
    stream header, and the item a line pointer leads to.  A cast never
    fails in C, so each view is total; which of them is meaningful is what
    the code decides by looking at the special size and the page id. *)
Record Page := mkPage {
  pd_lower : Z;
  pd_upper : Z;
  pd_special : Z;
  pd_pagesize_version : Z;
  (* *((uint16 * ) ((char * ) page + BLCKSZ - sizeof(uint16))) *)
  page_id_at_end : Z;
  (* (T * ) PageGetSpecialPointer(page) *)
  as_ZSMetaPageOpaque : ZSMetaPageOpaque.t;
  as_ZSUndoPageOpaque : ZSUndoPageOpaque.t;
  as_ZSBtreePageOpaque : ZSBtreePageOpaque.t;
  as_ZSToastPageOpaque : ZSToastPageOpaque.t;
  (* (ZSUndoRec * ) ((char * ) page + off) *)
  undorec_at : Z -> ZSUndoRec.t;
  (* (ZSAttStream * ) ((char * ) page + off) *)
  attstream_at : Z -> ZSAttStream.t;
  (* (ZSTidArrayItem * ) PageGetItem(page, PageGetItemId(page, off)) *)
  item_at : Z -> ZSTidArrayItem.t
}.

(** Modelled from the spec: the attribute descriptor
    [rel->rd_att->attrs[i]], "the attribute's by-value/fixed-length
    descriptor". *)
Record FormData_pg_attribute := mkAttr { attbyval : bool; attlen : Z }.

(** Modelled from the spec: [Relation] of rel.h, as far as the inspection
    functions look into it: the blocks of the block store ("addressed by a
    0-based integer page number"), the attribute descriptors, and whether
    it is a temporary relation of another session. *)
Record Relation := mkRel {
  rd_id : Z;
  (* RELATION_IS_OTHER_TEMP(rel) *)
  is_other_temp : bool;
  (* the blocks of the main fork; block n is [rd_blocks !! n] *)
  rd_blocks : list Page;
  rd_att : Z -> FormData_pg_attribute
}.

(** Modelled from the spec: a pinned [Buffer] of bufmgr.h, which gives
    access to the page of one block. *)
Record Buffer := mkBuffer { buf_blkno : Z; BufferGetPage : Page }.

(** ** Constants and macros of headers outside this file

    zedstore_inspect.c uses the page-kind constants, struct sizes and page
    macros of zedstore_internal.h, bufpage.h, block.h and execnodes.h.
    They are parameters of the development.  The five page ids are the
    [case] labels of one [switch], which C requires to be pairwise
    distinct. *)
Class Headers := {
  BLCKSZ : Z;
  InvalidBlockNumber : Z;
  SizeOfPageHeaderData : Z;
  FirstOffsetNumber : Z;
  SFRM_Materialize : Z;
  ZS_META_BLK : Z;
  ZS_META_ATTRIBUTE_NUM : Z;
  ZS_META_PAGE_ID : Z;
  ZS_BTREE_PAGE_ID : Z;
  ZS_UNDO_PAGE_ID : Z;
  ZS_TOAST_PAGE_ID : Z;
  ZS_FREE_PAGE_ID : Z;
  ATTSTREAM_COMPRESSED : Z;
  SizeOfZSAttStreamHeader : Z;
  (* MAXALIGN(sizeof(T)) for the opaque structs *)
  MAXALIGN_sizeof_ZSMetaPageOpaque : Z;
  MAXALIGN_sizeof_ZSBtreePageOpaque : Z;
  MAXALIGN_sizeof_ZSToastPageOpaque : Z;
  (* page macros *)
  PageGetSpecialSize : Page -> Z;
  PageGetExactFreeSpace : Page -> Z;
  PageGetMaxOffsetNumber : Page -> Z;
  ZSBtreeInternalPageGetNumItems : Page -> Z;
  page_ids_distinct :
    NoDup [ZS_META_PAGE_ID; ZS_BTREE_PAGE_ID; ZS_UNDO_PAGE_ID;
           ZS_TOAST_PAGE_ID; ZS_FREE_PAGE_ID]
}.

(** ** The backend around a call *)

Inductive LockMode := BUFFER_LOCK_SHARE | BUFFER_LOCK_EXCLUSIVE.

(** [rsinfo]: [None] is a NULL [fcinfo->resultinfo]. *)
Record ReturnSetInfo := mkRsinfo {
  IsA_ReturnSetInfo : bool;
  allowedModes : Z
}.

Record FunctionCallInfo := mkFcinfo {
  resultinfo : option ReturnSetInfo;
  (* get_call_result_type(fcinfo, NULL, &tupdesc) == TYPEFUNC_COMPOSITE *)
  result_type_is_composite : bool
}.

(** What the function cannot see into: who is calling, which relations
    exist, whether the n-th poll of [CHECK_FOR_INTERRUPTS] (counted from 0)
    finds a cancel request, whether [Assert] is compiled in, and the value an
    uninitialised [bool] on the stack happens to have. *)
Record Backend := mkBackend {
  superuser : bool;
  catalog : Z -> option Relation;
  QueryCancelPending : nat -> bool;
  USE_ASSERT_CHECKING : bool;
  uninitialized_bool : bool
}.

Inductive ErrCode :=
| ERRCODE_INSUFFICIENT_PRIVILEGE
| ERRCODE_FEATURE_NOT_SUPPORTED
| ERRCODE_INTERNAL_ERROR
| ERRCODE_UNDEFINED_TABLE
| ERRCODE_DATA_CORRUPTED
| ERRCODE_QUERY_CANCELED.

(** The effects a call has on the rest of the system, in the order they
    happen. *)
Inductive Event :=
| EvTableOpen (relid : Z)
| EvTableClose (relid : Z)
| EvReadBuffer (blkno : Z)
| EvLockBuffer (blkno : Z) (mode : LockMode)
| EvUnlockReleaseBuffer (blkno : Z)
| EvCheckForInterrupts
| EvWarning (msg : string).

Record World := mkWorld {
  trace : list Event;            (* oldest event first *)
  tupstore : list HeapTuple;     (* rsinfo->setResult, oldest row first *)
  polls : nat                    (* CHECK_FOR_INTERRUPTS calls so far *)
}.

Definition initial_world : World := mkWorld [] [] 0.

(** How a call ends: it returns, it raises an ERROR (a non-local exit
    through [ereport]/[elog]), a compiled-in [Assert] fails, or the model
    runs out of fuel in a loop the source does not bound. *)
Inductive Outcome (A : Type) :=
| Returned (a : A)
| Raised (code : ErrCode) (msg : string)
| Trapped
| Diverged.
Arguments Returned {A} a.
Arguments Raised {A} code msg.
Arguments Trapped {A}.
Arguments Diverged {A}.

Definition M (A : Type) : Type := World -> Outcome A * World.

#[global] Instance M_ret : MRet M := fun A a w => (Returned a, w).

#[global] Instance M_bind : MBind M := fun A B f m w =>
  match m w with
  | (Returned a, w') => f a w'
  | (Raised c msg, w') => (Raised c msg, w')
  | (Trapped, w') => (Trapped, w')
  | (Diverged, w') => (Diverged, w')
  end.

Definition ereport_ERROR {A} (code : ErrCode) (msg : string) : M A :=
  fun w => (Raised code msg, w).

Definition elog_ERROR {A} (msg : string) : M A :=
  ereport_ERROR ERRCODE_INTERNAL_ERROR msg.

Definition emit (e : Event) : M unit :=
  fun w => (Returned tt, mkWorld (trace w ++ [e]) (tupstore w) (polls w)).

Definition elog_WARNING (msg : string) : M unit := emit (EvWarning msg).

Definition out_of_fuel {A} : M A := fun w => (Diverged, w).

(** Modelled from the spec: what a call into the attribute stream codec
    comes back with.  "compress ... decompress ..., both fallible", and a
    malformed chunk "is invalid and must be rejected by the decoder as a
    corruption signal ... always fatal to the current operation": the call
    either hands back its result or leaves through [ereport(ERROR, ...)]
    with an error code and a message. *)
Inductive Decoded (A : Type) :=
| DecOk (a : A)
| DecError (code : ErrCode) (msg : string).
Arguments DecOk {A} a.
Arguments DecError {A} code msg.

(** Modelled from the spec: the attribute stream decoder of
    zedstore_attstream.c, which [pg_zs_dump_attstreams] drives:
    "decode_begin(stream_bytes) -> decoder_state; decode_next_chunk
    (decoder_state) -> (prev_row_id, first_row_id, last_row_id,
    raw_chunk_bytes) | end".  [decode_attstream_begin] decompresses a
    compressed stream, which can fail.  [get_attstream_chunk_cont] answers
    [None] where the C function returns false, and otherwise the advanced
    decoder with [prevtid], [firsttid], [lasttid] and the chunk; it fails on
    a chunk it has to reject. *)
Class AttstreamDecoder := {
  attstream_decoder : Type;
  init_attstream_decoder : bool -> Z -> attstream_decoder;
  decode_attstream_begin :
    attstream_decoder -> ZSAttStream.t -> Decoded attstream_decoder;
  decoder_pos : attstream_decoder -> Z;
  get_attstream_chunk_cont :
    attstream_decoder
    -> Decoded (option (attstream_decoder * (Z * Z * Z * list Z)))
}.

Section Inspect.

Context {hdr : Headers} {dec : AttstreamDecoder}.
Variable be : Backend.

(** *** Primitives of the backend *)

(** [if (!superuser()) ereport(ERROR, ...)], the check that opens every
    function of the file. *)
Definition require_superuser : M unit :=
  if negb (superuser be) then
    ereport_ERROR ERRCODE_INSUFFICIENT_PRIVILEGE
      "must be superuser to use zedstore inspection functions"
  else mret tt.

(** Modelled from the spec: [table_open] of table.c.  It raises when the
    relation does not exist. *)
Definition table_open (relid : Z) : M Relation :=
  match catalog be relid with
  | None => ereport_ERROR ERRCODE_UNDEFINED_TABLE "could not open relation"
  | Some rel => emit (EvTableOpen relid) ;; mret rel
  end.

(** Modelled from the spec: [table_close] of table.c. *)
Definition table_close (rel : Relation) : M unit :=
  emit (EvTableClose (rd_id rel)).

(** [if (RELATION_IS_OTHER_TEMP(rel)) ereport(ERROR, ...)] *)
Definition reject_other_temp (rel : Relation) : M unit :=
  if is_other_temp rel then
    ereport_ERROR ERRCODE_FEATURE_NOT_SUPPORTED
      "cannot access temporary tables of other sessions"
  else mret tt.

(** Modelled from the spec: [RelationGetNumberOfBlocks] of bufmgr.h, the
    number of pages of the block store. *)
Definition RelationGetNumberOfBlocks (rel : Relation) : Z :=
  Z.of_nat (length (rd_blocks rel)).

(** Modelled from the spec: [ReadBuffer] of bufmgr.c, the block store's
    "read_page(page_no) -> page_bytes".  Reading a block of the relation
    pins it; a block past the end of the relation cannot be read. *)
Definition ReadBuffer (rel : Relation) (blkno : Z) : M Buffer :=
  if (0 <=? blkno) && (blkno <? RelationGetNumberOfBlocks rel) then
    match rd_blocks rel !! Z.to_nat blkno with
    | Some page => emit (EvReadBuffer blkno) ;; mret (mkBuffer blkno page)
    | None => ereport_ERROR ERRCODE_DATA_CORRUPTED "could not read block"
    end
  else ereport_ERROR ERRCODE_DATA_CORRUPTED "could not read block".

(** Modelled from the spec: [LockBuffer] and [UnlockReleaseBuffer] of
    bufmgr.c, the block store's "lock acquire/release (shared/exclusive)
    per page_no". *)
Definition LockBuffer (buf : Buffer) (mode : LockMode) : M unit :=
  emit (EvLockBuffer (buf_blkno buf) mode).

Definition UnlockReleaseBuffer (buf : Buffer) : M unit :=
  emit (EvUnlockReleaseBuffer (buf_blkno buf)).

(** Modelled from the spec: [CHECK_FOR_INTERRUPTS()] of miscadmin.h, the
    "poll for external cancellation".  The poll is recorded, and a pending
    cancel request turns into an ERROR. *)
Definition CHECK_FOR_INTERRUPTS : M unit :=
  fun w =>
    let w' := mkWorld (trace w ++ [EvCheckForInterrupts]) (tupstore w)
                      (S (polls w)) in
    if QueryCancelPending be (polls w) then
      (Raised ERRCODE_QUERY_CANCELED
              "canceling statement due to user request", w')
    else (Returned tt, w').

(** [Assert(cond)]: nothing in a production build. *)
Definition Assert (cond : bool) : M unit :=
  if USE_ASSERT_CHECKING be && negb cond then fun w => (Trapped, w)
  else mret tt.

(** Modelled from the spec: [tuplestore_begin_heap] and
    [tuplestore_putvalues] of tuplestore.c, which collect the rows of a
    set-returning function. *)
Definition tuplestore_begin_heap : M unit :=
  fun w => (Returned tt, mkWorld (trace w) [] (polls w)).

Definition tuplestore_putvalues (t : HeapTuple) : M unit :=
  fun w => (Returned tt, mkWorld (trace w) (tupstore w ++ [t]) (polls w)).

(** The two checks every set-returning function makes on [rsinfo]. *)
Definition check_rsinfo (fcinfo : FunctionCallInfo) : M unit :=
  match resultinfo fcinfo with
  | None =>
      ereport_ERROR ERRCODE_FEATURE_NOT_SUPPORTED
        "set-valued function called in context that cannot accept a set"
  | Some rsinfo =>
      if negb (IsA_ReturnSetInfo rsinfo) then
        ereport_ERROR ERRCODE_FEATURE_NOT_SUPPORTED
          "set-valued function called in context that cannot accept a set"
      else if Z.land (allowedModes rsinfo) SFRM_Materialize =? 0 then
        ereport_ERROR ERRCODE_FEATURE_NOT_SUPPORTED
          "materialize mode required, but it is not allowed in this context"
      else mret tt
  end.

(** [if (get_call_result_type(...) != TYPEFUNC_COMPOSITE) elog(ERROR, ...)] *)
Definition require_composite_result (fcinfo : FunctionCallInfo) : M unit :=
  if negb (result_type_is_composite fcinfo) then
    elog_ERROR "return type must be a row type"
  else mret tt.

(** *** pg_zs_page_type *)

Definition hex_digit (d : Z) : ascii :=
  match String.get (Z.to_nat d) "0123456789abcdef" with
  | Some c => c
  | None => "?"%char
  end.

(** [%04x] of a 16-bit value: four lower-case hexadecimal digits. *)
Definition format_04x (x : Z) : string :=
  String (hex_digit (x / 4096 mod 16))
    (String (hex_digit (x / 256 mod 16))
       (String (hex_digit (x / 16 mod 16))
          (String (hex_digit (x mod 16)) EmptyString))).

(** The [switch (zs_page_id)] at the end of the function. *)
Definition page_type_name (zs_page_id : Z) : string :=
  if zs_page_id =? ZS_META_PAGE_ID then "META"
  else if zs_page_id =? ZS_BTREE_PAGE_ID then "BTREE"
  else if zs_page_id =? ZS_UNDO_PAGE_ID then "UNDO"
  else if zs_page_id =? ZS_TOAST_PAGE_ID then "TOAST"
  else if zs_page_id =? ZS_FREE_PAGE_ID then "FREE"
  else "UNKNOWN 0x" +:+ format_04x zs_page_id.

Definition pg_zs_page_type (relid : Z) (pageno_arg : Z) : M FnResult :=
  let pageno := wrap_unsigned 64 pageno_arg in
  require_superuser ;;
  rel ← table_open relid;
  reject_other_temp rel ;;
  buf ← ReadBuffer rel (to_uint32 pageno);
  LockBuffer buf BUFFER_LOCK_SHARE ;;
  let page := BufferGetPage buf in
  let zs_page_id := page_id_at_end page in
  UnlockReleaseBuffer buf ;;
  table_close rel ;;
  mret (RetText (page_type_name zs_page_id)).

(** *** pg_zs_undo_pages *)

(** The inner loop over the records of one undo page.  [ptr] and [endptr]
    are offsets from the start of the page.  The source bounds the loop
    only by [ptr < endptr], and [ptr] advances by whatever [size] the
    record states, so the model needs fuel. *)
Fixpoint undo_page_records (fuel : nat) (page : Page) (blkno : Z)
    (endptr ptr : Z) (nrecords : Z) (firstptr lastptr : ZSUndoRecPtr.t)
    : M (Z * ZSUndoRecPtr.t * ZSUndoRecPtr.t) :=
  if ptr <? endptr then
    match fuel with
    | O => out_of_fuel
    | S fuel' =>
        let undorec := undorec_at page ptr in
        Assert (ZSUndoRecPtr.blkno (ZSUndoRec.undorecptr undorec) =? blkno) ;;
        let lastptr := ZSUndoRec.undorecptr undorec in
        let firstptr := if nrecords =? 0 then lastptr else firstptr in
        let nrecords := to_int32 (nrecords + 1) in
        undo_page_records fuel' page blkno endptr
          (ptr + ZSUndoRec.size undorec) nrecords firstptr lastptr
    end
  else mret (nrecords, firstptr, lastptr).

(** [while (blkno != InvalidBlockNumber) { ... }].  The [break] on an
    unexpected page id leaves the loop with the buffer still locked. *)
Fixpoint undo_walk (fuel rec_fuel : nat) (rel : Relation) (blkno : Z)
    : M unit :=
  if blkno =? InvalidBlockNumber then mret tt
  else
    match fuel with
    | O => out_of_fuel
    | S fuel' =>
        let values := zeroed 5 in
        CHECK_FOR_INTERRUPTS ;;
        buf ← ReadBuffer rel blkno;
        let page := BufferGetPage buf in
        LockBuffer buf BUFFER_LOCK_EXCLUSIVE ;;
        let opaque := as_ZSUndoPageOpaque page in
        if negb (ZSUndoPageOpaque.zs_page_id opaque =? ZS_UNDO_PAGE_ID) then
          elog_WARNING ("unexpected page id on UNDO page " +:+ pretty blkno)
        else
          let endptr := pd_lower page in
          let ptr := SizeOfPageHeaderData in
          '(nrecords, firstptr, lastptr) ←
            undo_page_records rec_fuel page blkno endptr ptr 0
              ZSUndoRecPtr.zero ZSUndoRecPtr.zero;
          let values := set_value 0 (Int64GetDatum blkno) values in
          let values := set_value 1 (Int32GetDatum nrecords) values in
          let values :=
            set_value 2 (Int32GetDatum (PageGetExactFreeSpace page)) values in
          let values :=
            set_value 3 (Int64GetDatum (ZSUndoRecPtr.counter firstptr)) values in
          let values :=
            set_value 4 (Int64GetDatum (ZSUndoRecPtr.counter lastptr)) values in
          let blkno := ZSUndoPageOpaque.next opaque in
          UnlockReleaseBuffer buf ;;
          tuplestore_putvalues values ;;
          undo_walk fuel' rec_fuel rel blkno
    end.

Definition pg_zs_undo_pages (fuel : nat) (fcinfo : FunctionCallInfo)
    (relid : Z) : M FnResult :=
  require_superuser ;;
  check_rsinfo fcinfo ;;
  require_composite_result fcinfo ;;
  tuplestore_begin_heap ;;
  rel ← table_open relid;
  reject_other_temp rel ;;
  metabuf ← ReadBuffer rel ZS_META_BLK;
  let metapage := BufferGetPage metabuf in
  LockBuffer metabuf BUFFER_LOCK_SHARE ;;
  let metaopaque := as_ZSMetaPageOpaque metapage in
  let firstblk := ZSMetaPageOpaque.zs_undo_head metaopaque in
  UnlockReleaseBuffer metabuf ;;
  undo_walk fuel fuel rel firstblk ;;
  table_close rel ;;
  mret RetSet.

(** *** Scans of all blocks in physical order *)

(** [for (blkno = start; blkno < start + count; blkno++) body] *)
Fixpoint for_blocks (body : Z -> M unit) (blkno : Z) (count : nat) : M unit :=
  match count with
  | O => mret tt
  | S count' => body blkno ;; for_blocks body (blkno + 1) count'
  end.

(** *** pg_zs_toast_pages *)

(** One iteration of the loop; [continue] is the early [mret tt]. *)
Definition toast_pages_iteration (rel : Relation) (blkno : Z) : M unit :=
  let values := zeroed 8 in
  CHECK_FOR_INTERRUPTS ;;
  buf ← ReadBuffer rel blkno;
  let page := BufferGetPage buf in
  LockBuffer buf BUFFER_LOCK_EXCLUSIVE ;;
  if negb (PageGetSpecialSize page =? MAXALIGN_sizeof_ZSToastPageOpaque) then
    UnlockReleaseBuffer buf
  else
    let opaque := as_ZSToastPageOpaque page in
    if negb (ZSToastPageOpaque.zs_page_id opaque =? ZS_TOAST_PAGE_ID) then
      UnlockReleaseBuffer buf
    else
      let values := set_value 0 (Int64GetDatum blkno) values in
      let values :=
        if negb (ZSToastPageOpaque.zs_tid opaque =? 0) then
          let values :=
            set_value 1 (Int64GetDatum (ZSToastPageOpaque.zs_tid opaque))
              values in
          set_value 2 (Int64GetDatum (ZSToastPageOpaque.zs_total_size opaque))
            values
        else values in
      let values :=
        set_value 3 (Int64GetDatum (ZSToastPageOpaque.zs_slice_offset opaque))
          values in
      let values :=
        set_value 4 (Int64GetDatum (ZSToastPageOpaque.zs_prev opaque)) values in
      let values :=
        set_value 5 (Int64GetDatum (ZSToastPageOpaque.zs_next opaque)) values in
      let values :=
        set_value 6
          (Int32GetDatum (ZSToastPageOpaque.zs_decompressed_size opaque))
          values in
      let values :=
        set_value 7 (BoolGetDatum (ZSToastPageOpaque.zs_is_compressed opaque))
          values in
      UnlockReleaseBuffer buf ;;
      tuplestore_putvalues values.

Definition pg_zs_toast_pages (fcinfo : FunctionCallInfo) (relid : Z)
    : M FnResult :=
  require_superuser ;;
  check_rsinfo fcinfo ;;
  require_composite_result fcinfo ;;
  tuplestore_begin_heap ;;
  rel ← table_open relid;
  reject_other_temp rel ;;
  let nblocks := RelationGetNumberOfBlocks rel in
  for_blocks (toast_pages_iteration rel) 1 (Z.to_nat (nblocks - 1)) ;;
  table_close rel ;;
  mret RetSet.

(** *** pg_zs_btree_pages *)

(** The loop over the items of a meta leaf page,
    [for (off = FirstOffsetNumber; off <= maxoff; off++)], on the three
    [int] accumulators it updates. *)
Fixpoint meta_leaf_items (page : Page) (off : Z) (count : nat)
    (nitems totalsz uncompressedsz : Z) : Z * Z * Z :=
  match count with
  | O => (nitems, totalsz, uncompressedsz)
  | S count' =>
      let item := item_at page off in
      let nitems := to_int32 (nitems + 1) in
      let totalsz := to_int32 (totalsz + ZSTidArrayItem.t_size item) in
      let uncompressedsz :=
        to_int32 (uncompressedsz + ZSTidArrayItem.t_size item) in
      meta_leaf_items page (off + 1) count' nitems totalsz uncompressedsz
  end.

(** The [streams] array of an attribute leaf page, [nstreams] long: the
    lower stream when the space after the page header holds more than a
    stream header, then the upper stream when the space between [pd_upper]
    and [pd_special] does.  Both differences are compared as [size_t]. *)
Definition leaf_streams (page : Page) : list ZSAttStream.t :=
  let streams : list ZSAttStream.t := [] in
  let streams :=
    if to_size_t (pd_lower page - SizeOfPageHeaderData)
         >? SizeOfZSAttStreamHeader
    then (streams ++ [attstream_at page SizeOfPageHeaderData])%list
    else streams in
  let streams :=
    if to_size_t (pd_special page - pd_upper page) >? SizeOfZSAttStreamHeader
    then (streams ++ [attstream_at page (pd_upper page)])%list
    else streams in
  streams.

(** [for (int i = 0; i < nstreams; i++)] on the four accumulators. *)
Fixpoint attribute_leaf_streams (streams : list ZSAttStream.t)
    (nitems ncompressed totalsz uncompressedsz : Z) : Z * Z * Z * Z :=
  match streams with
  | [] => (nitems, ncompressed, totalsz, uncompressedsz)
  | stream :: streams' =>
      let totalsz := to_int32 (totalsz + ZSAttStream.t_size stream) in
      let nitems := to_int32 (nitems + 1) in
      if negb (Z.land (ZSAttStream.t_flags stream) ATTSTREAM_COMPRESSED =? 0)
      then
        let ncompressed := to_int32 (ncompressed + 1) in
        let uncompressedsz :=
          to_int32 (uncompressedsz + ZSAttStream.t_decompressed_size stream) in
        attribute_leaf_streams streams' nitems ncompressed totalsz
          uncompressedsz
      else
        let uncompressedsz :=
          to_int32 (uncompressedsz + ZSAttStream.t_size stream) in
        attribute_leaf_streams streams' nitems ncompressed totalsz
          uncompressedsz
  end.

(** [nitems], [ncompressed], [totalsz] and [uncompressedsz] of a B-tree
    page, as the [if (opaque->zs_level == 0) ... else ...] computes them. *)
Definition btree_page_stats (page : Page) : Z * Z * Z * Z :=
  let opaque := as_ZSBtreePageOpaque page in
  let nitems := 0 in
  let ncompressed := 0 in
  let totalsz := 0 in
  let uncompressedsz := 0 in
  if ZSBtreePageOpaque.zs_level opaque =? 0 then
    if ZSBtreePageOpaque.zs_attno opaque =? ZS_META_ATTRIBUTE_NUM then
      let maxoff := PageGetMaxOffsetNumber page in
      let '(nitems, totalsz, uncompressedsz) :=
        meta_leaf_items page FirstOffsetNumber
          (Z.to_nat (maxoff - FirstOffsetNumber + 1))
          nitems totalsz uncompressedsz in
      (nitems, ncompressed, totalsz, uncompressedsz)
    else
      attribute_leaf_streams (leaf_streams page)
        nitems ncompressed totalsz uncompressedsz
  else
    let nitems := to_int32 (ZSBtreeInternalPageGetNumItems page) in
    (nitems, ncompressed, totalsz, uncompressedsz).

(** The row built for a B-tree page at [blkno]. *)
Definition btree_page_row (blkno : Z) (page : Page) : HeapTuple :=
  let values := zeroed 11 in
  let opaque := as_ZSBtreePageOpaque page in
  let '(nitems, ncompressed, totalsz, uncompressedsz) :=
    btree_page_stats page in
  let values := set_value 0 (Int64GetDatum blkno) values in
  let values :=
    set_value 1 (Int64GetDatum (ZSBtreePageOpaque.zs_next opaque)) values in
  let values :=
    set_value 2 (Int32GetDatum (ZSBtreePageOpaque.zs_attno opaque)) values in
  let values :=
    set_value 3 (Int32GetDatum (ZSBtreePageOpaque.zs_level opaque)) values in
  let values :=
    set_value 4 (Int64GetDatum (ZSBtreePageOpaque.zs_lokey opaque)) values in
  let values :=
    set_value 5 (Int64GetDatum (ZSBtreePageOpaque.zs_hikey opaque)) values in
  let values := set_value 6 (Int32GetDatum nitems) values in
  let values :=
    if ZSBtreePageOpaque.zs_level opaque =? 0 then
      let values := set_value 7 (Int32GetDatum ncompressed) values in
      let values := set_value 8 (Int32GetDatum totalsz) values in
      set_value 9 (Int32GetDatum uncompressedsz) values
    else
      set_null 9 (set_null 8 (set_null 7 values)) in
  set_value 10 (Int32GetDatum (PageGetExactFreeSpace page)) values.

(** One iteration of the loop; [continue] is the early [mret tt]. *)
Definition btree_pages_iteration (rel : Relation) (blkno : Z) : M unit :=
  CHECK_FOR_INTERRUPTS ;;
  buf ← ReadBuffer rel blkno;
  let page := BufferGetPage buf in
  LockBuffer buf BUFFER_LOCK_EXCLUSIVE ;;
  if negb (PageGetSpecialSize page =? MAXALIGN_sizeof_ZSBtreePageOpaque) then
    UnlockReleaseBuffer buf
  else
    let opaque := as_ZSBtreePageOpaque page in
    if negb (ZSBtreePageOpaque.zs_page_id opaque =? ZS_BTREE_PAGE_ID) then
      UnlockReleaseBuffer buf
    else
      let values := btree_page_row blkno page in
      UnlockReleaseBuffer buf ;;
      tuplestore_putvalues values.

Definition pg_zs_btree_pages (fcinfo : FunctionCallInfo) (relid : Z)
    : M FnResult :=
  require_superuser ;;
  check_rsinfo fcinfo ;;
  require_composite_result fcinfo ;;
  tuplestore_begin_heap ;;
  rel ← table_open relid;
  reject_other_temp rel ;;
  let nblocks := RelationGetNumberOfBlocks rel in
  for_blocks (btree_pages_iteration rel) 1 (Z.to_nat (nblocks - 1)) ;;
  table_close rel ;;
  mret RetSet.

(** *** pg_zs_meta_page *)

Definition pg_zs_meta_page (fcinfo : FunctionCallInfo) (relid : Z)
    : M FnResult :=
  require_superuser ;;
  check_rsinfo fcinfo ;;
  require_composite_result fcinfo ;;
  CHECK_FOR_INTERRUPTS ;;
  rel ← table_open relid;
  reject_other_temp rel ;;
  buf ← ReadBuffer rel ZS_META_BLK;
  let page := BufferGetPage buf in
  LockBuffer buf BUFFER_LOCK_EXCLUSIVE ;;
  if negb (PageGetSpecialSize page =? MAXALIGN_sizeof_ZSMetaPageOpaque) then
    UnlockReleaseBuffer buf ;;
    elog_ERROR "Bad page special size"
  else
    let opaque := as_ZSMetaPageOpaque page in
    if negb (ZSMetaPageOpaque.zs_page_id opaque =? ZS_META_PAGE_ID) then
      UnlockReleaseBuffer buf ;;
      elog_ERROR ("The zs_page_id does not match ZS_META_PAGE_ID. Got: "
                  +:+ pretty (ZSMetaPageOpaque.zs_page_id opaque))
    else
      let values := zeroed 9 in
      let oldestptr := ZSMetaPageOpaque.zs_undo_oldestptr opaque in
      let values := set_value 0 (Int64GetDatum ZS_META_BLK) values in
      let values :=
        set_value 1 (Int64GetDatum (ZSMetaPageOpaque.zs_undo_head opaque))
          values in
      let values :=
        set_value 2 (Int64GetDatum (ZSMetaPageOpaque.zs_undo_tail opaque))
          values in
      let values :=
        set_value 3
          (Int64GetDatum (ZSMetaPageOpaque.zs_undo_tail_first_counter opaque))
          values in
      let values :=
        set_value 4 (Int64GetDatum (ZSUndoRecPtr.counter oldestptr)) values in
      let values :=
        set_value 5 (Int64GetDatum (ZSUndoRecPtr.blkno oldestptr)) values in
      let values :=
        set_value 6 (Int32GetDatum (ZSUndoRecPtr.offset oldestptr)) values in
      let values :=
        set_value 7 (Int64GetDatum (ZSMetaPageOpaque.zs_fpm_head opaque))
          values in
      let values :=
        set_value 8 (Int32GetDatum (ZSMetaPageOpaque.zs_flags opaque))
          values in
      UnlockReleaseBuffer buf ;;
      table_close rel ;;
      mret (RetTuple values).

(** *** pg_zs_dump_attstreams *)

(** A call into the decoder: its result, or the ERROR it leaves with.  The
    function has no [PG_TRY], so the ERROR goes straight through it. *)
Definition decoded {A} (r : Decoded A) : M A :=
  match r with
  | DecOk a => mret a
  | DecError code msg => ereport_ERROR code msg
  end.

(** [while (get_attstream_chunk_cont(&decoder, ...)) { ... }] for one
    stream.  [values], [chunkno] and [chunk_start] live outside the loop
    and are threaded through it.  Whether the decoder ever answers false
    is the decoder's business, hence the fuel. *)
Fixpoint dump_stream_chunks (fuel : nat) (decoder : attstream_decoder)
    (stream : ZSAttStream.t) (i : Z) (upperstream : bool) (attno : Z)
    (attbyval : bool) (attlen : Z) (chunkno chunk_start : Z)
    (values : HeapTuple) : M HeapTuple :=
  more ← decoded (get_attstream_chunk_cont decoder);
  match more with
  | None => mret values
  | Some (decoder, (prevtid, firsttid, lasttid, chunk)) =>
      match fuel with
      | O => out_of_fuel
      | S fuel' =>
          let values := set_value 0 (Int16GetDatum attno) values in
          let values := set_value 1 (Int32GetDatum chunkno) values in
          let chunkno := to_int32 (chunkno + 1) in
          let values :=
            set_value 2 (BoolGetDatum ((if upperstream then 1 else 0) =? i))
              values in
          let values :=
            set_value 3
              (BoolGetDatum
                 (negb (Z.land (ZSAttStream.t_flags stream)
                               ATTSTREAM_COMPRESSED =? 0)))
              values in
          let values := set_value 4 (BoolGetDatum attbyval) values in
          let values := set_value 5 (Int16GetDatum attlen) values in
          let values := set_value 6 (Int32GetDatum chunk_start) values in
          let values :=
            set_value 7 (Int32GetDatum (decoder_pos decoder - chunk_start))
              values in
          let chunk_start := to_int32 (decoder_pos decoder) in
          let values := set_value 8 (ZSTidGetDatum prevtid) values in
          let values := set_value 9 (ZSTidGetDatum firsttid) values in
          let values := set_value 10 (ZSTidGetDatum lasttid) values in
          let values := set_value 11 (PointerGetDatum chunk) values in
          tuplestore_putvalues values ;;
          dump_stream_chunks fuel' decoder stream i upperstream attno
            attbyval attlen chunkno chunk_start values
      end
  end.

(** [for (int i = 0; i < nstreams; i++)] *)
Fixpoint dump_streams (fuel : nat) (streams : list ZSAttStream.t) (i : Z)
    (upperstream : bool) (attno : Z) (attbyval : bool) (attlen : Z)
    (values : HeapTuple) : M unit :=
  match streams with
  | [] => mret tt
  | stream :: streams' =>
      let decoder := init_attstream_decoder attbyval attlen in
      decoder ← decoded (decode_attstream_begin decoder stream);
      let chunkno := 0 in
      let chunk_start := to_int32 (decoder_pos decoder) in
      values ← dump_stream_chunks fuel decoder stream i upperstream attno
                 attbyval attlen chunkno chunk_start values;
      dump_streams fuel streams' (i + 1) upperstream attno attbyval attlen
        values
  end.

Definition pg_zs_dump_attstreams (fuel : nat) (fcinfo : FunctionCallInfo)
    (relid : Z) (blkno_arg : Z) : M FnResult :=
  let blkno := to_uint32 blkno_arg in
  require_superuser ;;
  check_rsinfo fcinfo ;;
  require_composite_result fcinfo ;;
  tuplestore_begin_heap ;;
  rel ← table_open relid;
  reject_other_temp rel ;;
  let values := zeroed 14 in
  CHECK_FOR_INTERRUPTS ;;
  buf ← ReadBuffer rel blkno;
  let page := BufferGetPage buf in
  LockBuffer buf BUFFER_LOCK_EXCLUSIVE ;;
  if negb (PageGetSpecialSize page =? MAXALIGN_sizeof_ZSBtreePageOpaque) then
    UnlockReleaseBuffer buf ;;
    table_close rel ;;
    mret RetNull
  else
    let opaque := as_ZSBtreePageOpaque page in
    if negb (ZSBtreePageOpaque.zs_page_id opaque =? ZS_BTREE_PAGE_ID)
       || (ZSBtreePageOpaque.zs_attno opaque =? ZS_META_ATTRIBUTE_NUM)
       || negb (ZSBtreePageOpaque.zs_level opaque =? 0)
    then
      UnlockReleaseBuffer buf ;;
      table_close rel ;;
      mret RetNull
    else
      let attno := ZSBtreePageOpaque.zs_attno opaque in
      let attbyval := attbyval (rd_att rel (attno - 1)) in
      let attlen := attlen (rd_att rel (attno - 1)) in
      let upperstream := uninitialized_bool be in
      let streams : list ZSAttStream.t := [] in
      let nstreams := 0 in
      let '(streams, nstreams) :=
        if to_size_t (pd_lower page - SizeOfPageHeaderData)
             >? SizeOfZSAttStreamHeader
        then ((streams ++ [attstream_at page SizeOfPageHeaderData])%list,
              nstreams + 1)
        else (streams, nstreams) in
      let '(upperstream, streams, nstreams) :=
        if to_size_t (pd_special page - pd_upper page)
             >? SizeOfZSAttStreamHeader
        then (negb (nstreams =? 0),
              (streams ++ [attstream_at page (pd_upper page)])%list,
              nstreams + 1)
        else (upperstream, streams, nstreams) in
      dump_streams fuel streams 0 upperstream attno attbyval attlen values ;;
      UnlockReleaseBuffer buf ;;
      table_close rel ;;
      mret RetSet.

End Inspect.

(** ** Observations on traces *)

(** The blocks a trace reads, in order. *)
Definition pages_read (t : list Event) : list Z :=
  omap (fun e => match e with EvReadBuffer b => Some b | _ => None end) t.

Definition warnings (t : list Event) : list string :=
  omap (fun e => match e with EvWarning m => Some m | _ => None end) t.

(** A call was rejected: it raised an ERROR. *)
Definition raised {A} (o : Outcome A) : Prop :=
  exists code msg, o = Raised code msg.

(** A call that was rejected without reading: it raised an ERROR and its
    trace reads no page beyond those [w] had read. *)
Definition rejected_unread {A} (w : World) (r : Outcome A * World) : Prop :=
  raised (fst r) /\ pages_read (trace (snd r)) = pages_read (trace w).

(** The locking and polling discipline of a page-by-page scan, as an
    automaton over the trace.  In [Prelude] (before the loop) a page may be
    read without a poll; once a buffer has been released the scan is in
    [Unlocked], where a page may only be read right after a poll, and a
    poll is only accepted while no buffer is pinned or locked. *)
Inductive ScanState :=
| Prelude
| Unlocked (just_polled : bool)
| Pinned (blkno : Z)
| Locked (blkno : Z).

Definition scan_step (s : ScanState) (e : Event) : option ScanState :=
  match e with
  | EvCheckForInterrupts =>
      match s with
      | Prelude | Unlocked _ => Some (Unlocked true)
      | _ => None
      end
  | EvReadBuffer b =>
      match s with
      | Prelude | Unlocked true => Some (Pinned b)
      | _ => None
      end
  | EvLockBuffer b _ =>
      match s with
      | Pinned b' => if b =? b' then Some (Locked b) else None
      | _ => None
      end
  | EvUnlockReleaseBuffer b =>
      match s with
      | Locked b' => if b =? b' then Some (Unlocked false) else None
      | _ => None
      end
  | EvTableOpen _ | EvTableClose _ | EvWarning _ => Some s
  end.

Definition scan_run (s : ScanState) (t : list Event) : option ScanState :=
  foldl (fun os e => os ≫= fun s => scan_step s e) (Some s) t.

(** The scan is between two pages: nothing is pinned or locked. *)
Definition between_pages (s0 : ScanState) (w : World) : Prop :=
  exists p, scan_run s0 (trace w) = Some (Unlocked p).


(** The events of one visit of a scan to block [blkno], and of a scan
    over [count] consecutive blocks. *)
Definition page_visit (blkno : Z) : list Event :=
  [ EvCheckForInterrupts; EvReadBuffer blkno;
    EvLockBuffer blkno BUFFER_LOCK_EXCLUSIVE; EvUnlockReleaseBuffer blkno ].

Fixpoint scan_events (blkno : Z) (count : nat) : list Event :=
  match count with
  | O => []
  | S count' => page_visit blkno ++ scan_events (blkno + 1) count'
  end.

(** ** Rows, chains and scans as the specification describes them

    These definitions follow the words of the specification; the theorems
    below compare them with what the code stores. *)

(** The records packed on an undo page from offset [ptr] up to the
    low-water mark [pd_lower]: each begins where the previous one ends. *)
Inductive packed_records (page : Page) : Z -> list ZSUndoRec.t -> Prop :=
| packed_end ptr :
    pd_lower page <= ptr ->
    packed_records page ptr []
| packed_next ptr recs :
    ptr < pd_lower page ->
    0 < ZSUndoRec.size (undorec_at page ptr) ->
    packed_records page (ptr + ZSUndoRec.size (undorec_at page ptr)) recs ->
    packed_records page ptr (undorec_at page ptr :: recs).

Definition record_counter (r : ZSUndoRec.t) : Z :=
  ZSUndoRecPtr.counter (ZSUndoRec.undorecptr r).

(** (page number, record count, free space, first record pointer, last
    record pointer); the two pointers are 0 on a page without records. *)
Definition undo_page_row {hdr : Headers} (blkno : Z) (page : Page)
    (recs : list ZSUndoRec.t) : HeapTuple :=
  mkTuple
    [ Int64GetDatum blkno;
      Int32GetDatum (Z.of_nat (length recs));
      Int32GetDatum (PageGetExactFreeSpace page);
      Int64GetDatum (from_option record_counter 0 (head recs));
      Int64GetDatum (from_option record_counter 0 (last recs)) ]
    [false; false; false; false; false].

(** Every record's own pointer names the page it is on: what the [Assert]
    in the record loop checks. *)
Definition records_on_block (blkno : Z) (recs : list ZSUndoRec.t) : Prop :=
  Forall (fun r => ZSUndoRecPtr.blkno (ZSUndoRec.undorecptr r) = blkno) recs.

(** The undo chain from [blkno]: the pages reached by following
    [opaque->next], each with the records packed on it.  The chain ends at
    [InvalidBlockNumber] ([stop = None]) or at the first page whose page id
    is not [ZS_UNDO_PAGE_ID] ([stop = Some] of its block number). *)
Inductive undo_chain {hdr : Headers} (be : Backend) (rel : Relation)
    : Z -> list (Z * Page * list ZSUndoRec.t) -> option Z -> Prop :=
| chain_end :
    undo_chain be rel InvalidBlockNumber [] None
| chain_stop blkno page :
    blkno <> InvalidBlockNumber ->
    0 <= blkno ->
    rd_blocks rel !! Z.to_nat blkno = Some page ->
    ZSUndoPageOpaque.zs_page_id (as_ZSUndoPageOpaque page) <> ZS_UNDO_PAGE_ID ->
    undo_chain be rel blkno [] (Some blkno)
| chain_page blkno page recs rest stop :
    blkno <> InvalidBlockNumber ->
    0 <= blkno ->
    rd_blocks rel !! Z.to_nat blkno = Some page ->
    ZSUndoPageOpaque.zs_page_id (as_ZSUndoPageOpaque page) = ZS_UNDO_PAGE_ID ->
    pd_lower page < 2 ^ 16 ->
    0 <= SizeOfPageHeaderData ->
    packed_records page SizeOfPageHeaderData recs ->
    (USE_ASSERT_CHECKING be = true -> records_on_block blkno recs) ->
    undo_chain be rel (ZSUndoPageOpaque.next (as_ZSUndoPageOpaque page))
      rest stop ->
    undo_chain be rel blkno ((blkno, page, recs) :: rest) stop.

Definition undo_chain_rows {hdr : Headers}
    (chain : list (Z * Page * list ZSUndoRec.t)) : list HeapTuple :=
  map (fun '(blkno, page, recs) => undo_page_row blkno page recs) chain.

(** The events of a walk over [chain] that ends by [stop]: a visit per
    page of the chain, and for a page with an unexpected id the poll, the
    read, the lock and the WARNING. *)
Definition undo_walk_events (chain : list (Z * Page * list ZSUndoRec.t))
    (stop : option Z) : list Event :=
  flat_map (fun '(blkno, _, _) => page_visit blkno) chain
  ++ match stop with
     | None => []
     | Some blkno =>
         [ EvCheckForInterrupts; EvReadBuffer blkno;
           EvLockBuffer blkno BUFFER_LOCK_EXCLUSIVE;
           EvWarning ("unexpected page id on UNDO page " +:+ pretty blkno) ]
     end.

Definition chain_blocks (chain : list (Z * Page * list ZSUndoRec.t))
    : list Z :=
  map (fun '(blkno, _, _) => blkno) chain.

(** Fuel that suffices for a walk over [chain]: one unit per page and one
    more, and as many units as the fullest page has records. *)
Definition chain_fuel (chain : list (Z * Page * list ZSUndoRec.t)) : nat :=
  S (length chain + list_sum (map (fun '(_, _, recs) => length recs) chain)).

(** The rows of a physical scan that starts at block [blkno] with the
    pages [pages]: one row for each page of the wanted kind, none for the
    others. *)
Fixpoint scan_rows (wanted : Page -> bool) (row : Z -> Page -> HeapTuple)
    (blkno : Z) (pages : list Page) : list HeapTuple :=
  match pages with
  | [] => []
  | page :: pages' =>
      (if wanted page then [row blkno page] else [])
        ++ scan_rows wanted row (blkno + 1) pages'
  end.

Definition is_btree_page {hdr : Headers} (page : Page) : bool :=
  (PageGetSpecialSize page =? MAXALIGN_sizeof_ZSBtreePageOpaque)
  && (ZSBtreePageOpaque.zs_page_id (as_ZSBtreePageOpaque page)
      =? ZS_BTREE_PAGE_ID).

Definition is_toast_page {hdr : Headers} (page : Page) : bool :=
  (PageGetSpecialSize page =? MAXALIGN_sizeof_ZSToastPageOpaque)
  && (ZSToastPageOpaque.zs_page_id (as_ZSToastPageOpaque page)
      =? ZS_TOAST_PAGE_ID).

(** (page number, owning row id, total size, slice offset, predecessor,
    successor, decoded size, compressed flag); the row id and total size
    stay 0 on a page that has no owning row id. *)
Definition toast_page_row (blkno : Z) (page : Page) : HeapTuple :=
  let opaque := as_ZSToastPageOpaque page in
  let has_tid := negb (ZSToastPageOpaque.zs_tid opaque =? 0) in
  mkTuple
    [ Int64GetDatum blkno;
      if has_tid then Int64GetDatum (ZSToastPageOpaque.zs_tid opaque)
      else DInt 0;
      if has_tid then Int64GetDatum (ZSToastPageOpaque.zs_total_size opaque)
      else DInt 0;
      Int64GetDatum (ZSToastPageOpaque.zs_slice_offset opaque);
      Int64GetDatum (ZSToastPageOpaque.zs_prev opaque);
      Int64GetDatum (ZSToastPageOpaque.zs_next opaque);
      Int32GetDatum (ZSToastPageOpaque.zs_decompressed_size opaque);
      BoolGetDatum (ZSToastPageOpaque.zs_is_compressed opaque) ]
    (replicate 8 false).

(** (block number, undo head, undo tail, first counter on the undo tail
    page, oldest retained undo pointer as counter, block and offset,
    free-page-list head, flags), from the metapage's special area. *)
Definition meta_page_row {hdr : Headers} (opaque : ZSMetaPageOpaque.t)
    : HeapTuple :=
  let oldestptr := ZSMetaPageOpaque.zs_undo_oldestptr opaque in
  mkTuple
    [ Int64GetDatum ZS_META_BLK;
      Int64GetDatum (ZSMetaPageOpaque.zs_undo_head opaque);
      Int64GetDatum (ZSMetaPageOpaque.zs_undo_tail opaque);
      Int64GetDatum (ZSMetaPageOpaque.zs_undo_tail_first_counter opaque);
      Int64GetDatum (ZSUndoRecPtr.counter oldestptr);
      Int64GetDatum (ZSUndoRecPtr.blkno oldestptr);
      Int32GetDatum (ZSUndoRecPtr.offset oldestptr);
      Int64GetDatum (ZSMetaPageOpaque.zs_fpm_head opaque);
      Int32GetDatum (ZSMetaPageOpaque.zs_flags opaque) ]
    (replicate 9 false).

(** An error message reports a value when the value's decimal digits
    occur in it. *)
Fixpoint occurs_in (needle s : string) : bool :=
  String.prefix needle s
  || match s with
     | EmptyString => false
     | String _ s' => occurs_in needle s'
     end.

Definition reports_tag (msg : string) (tag : Z) : Prop :=
  occurs_in (pretty tag) msg = true.

(** The call context of a set-returning function that passes the checks
    on [rsinfo] and on the result type. *)
Definition srf_context_ok {hdr : Headers} (fcinfo : FunctionCallInfo) : Prop :=
  exists rsinfo,
    resultinfo fcinfo = Some rsinfo
    /\ IsA_ReturnSetInfo rsinfo = true
    /\ Z.land (allowedModes rsinfo) SFRM_Materialize <> 0
    /\ result_type_is_composite fcinfo = true.

(** A superuser calling on an existing relation that is not another
    session's temporary relation, with no cancel request ever pending. *)
Definition call_accepted (be : Backend) (relid : Z) (rel : Relation) : Prop :=
  superuser be = true
  /\ catalog be relid = Some rel
  /\ is_other_temp rel = false
  /\ forall n, QueryCancelPending be n = false.

(** *** The contents of a B-tree page, from the page itself

    What the page enumeration reports about a page, "item_count ... and
    for leaves: compressed-chunk count, encoded size, decoded size", is
    defined here from the page header and the items and streams on the
    page, without the loops of [pg_zs_btree_pages]. *)

(** A page header as every initialised page has it: the line pointers
    begin after the header, the free space does not run into the special
    area, and the offsets are 16-bit. *)
Definition page_header_sane {hdr : Headers} (page : Page) : Prop :=
  0 <= SizeOfPageHeaderData <= pd_lower page
  /\ pd_lower page < 2 ^ 16
  /\ 0 <= pd_upper page <= pd_special page
  /\ pd_special page < 2 ^ 16.

(** "A leaf holds up to two streams": one right after the page header when
    the bytes up to [pd_lower] are more than a stream header, one at
    [pd_upper] when the bytes up to [pd_special] are. *)
Definition lower_stream_present {hdr : Headers} (page : Page) : bool :=
  SizeOfPageHeaderData + SizeOfZSAttStreamHeader <? pd_lower page.

Definition upper_stream_present {hdr : Headers} (page : Page) : bool :=
  pd_upper page + SizeOfZSAttStreamHeader <? pd_special page.

Definition streams_present {hdr : Headers} (page : Page)
    : list ZSAttStream.t :=
  (if lower_stream_present page
   then [attstream_at page SizeOfPageHeaderData] else [])
  ++ (if upper_stream_present page
      then [attstream_at page (pd_upper page)] else []).

(** The row-existence items of a meta leaf: those of the line pointers
    [FirstOffsetNumber] to the page's maximum offset number. *)
Definition items_present {hdr : Headers} (page : Page)
    : list ZSTidArrayItem.t :=
  map (item_at page)
    (seqZ FirstOffsetNumber
       (PageGetMaxOffsetNumber page - FirstOffsetNumber + 1)).

Definition stream_is_compressed {hdr : Headers} (stream : ZSAttStream.t)
    : bool :=
  negb (Z.land (ZSAttStream.t_flags stream) ATTSTREAM_COMPRESSED =? 0).

Definition sumZ (l : list Z) : Z := foldr Z.add 0 l.

Definition is_meta_tree {hdr : Headers} (page : Page) : bool :=
  ZSBtreePageOpaque.zs_attno (as_ZSBtreePageOpaque page)
  =? ZS_META_ATTRIBUTE_NUM.

(** The item count of a B-tree page: the entries of an internal page, the
    items of a meta leaf, the streams of an attribute leaf. *)
Definition page_item_count {hdr : Headers} (page : Page) : Z :=
  if ZSBtreePageOpaque.zs_level (as_ZSBtreePageOpaque page) =? 0 then
    if is_meta_tree page then Z.of_nat (length (items_present page))
    else Z.of_nat (length (streams_present page))
  else ZSBtreeInternalPageGetNumItems page.

(** The three statistics of a leaf: how many of its streams are
    compressed, the bytes its items or streams take as they are stored,
    and the bytes they take once decompressed. *)
Definition leaf_compressed_count {hdr : Headers} (page : Page) : Z :=
  if is_meta_tree page then 0
  else Z.of_nat (length (List.filter stream_is_compressed
                           (streams_present page))).

Definition leaf_encoded_size {hdr : Headers} (page : Page) : Z :=
  if is_meta_tree page
  then sumZ (map ZSTidArrayItem.t_size (items_present page))
  else sumZ (map ZSAttStream.t_size (streams_present page)).

Definition leaf_decoded_size {hdr : Headers} (page : Page) : Z :=
  if is_meta_tree page
  then sumZ (map ZSTidArrayItem.t_size (items_present page))
  else sumZ (map (fun stream =>
                    if stream_is_compressed stream
                    then ZSAttStream.t_decompressed_size stream
                    else ZSAttStream.t_size stream)
               (streams_present page)).

(** ** A concrete configuration

    The values of a stock 64-bit build with 8 kB blocks, and the page
    macros as bufpage.h and zedstore_internal.h define them. *)

Definition stock_PageGetSpecialSize (page : Page) : Z :=
  to_uint16 (Z.land (pd_pagesize_version page) 65280 - pd_special page).

Definition stock_PageGetExactFreeSpace (page : Page) : Z :=
  let space := pd_upper page - pd_lower page in
  if space <? 0 then 0 else space.

Definition stock_PageGetMaxOffsetNumber (page : Page) : Z :=
  if pd_lower page <=? 24 then 0 else (pd_lower page - 24) / 4.

Definition stock_ZSBtreeInternalPageGetNumItems (page : Page) : Z :=
  to_size_t (pd_lower page - 24) / 16.

Definition stock_page_ids_distinct
    : NoDup [61571; 61572; 61573; 61574; 61575] :=
  ltac:(compute_done).

Definition stock_headers : Headers := {|
  BLCKSZ := 8192;
  InvalidBlockNumber := 4294967295;
  SizeOfPageHeaderData := 24;
  FirstOffsetNumber := 1;
  SFRM_Materialize := 2;
  ZS_META_BLK := 0;
  ZS_META_ATTRIBUTE_NUM := 0;
  ZS_META_PAGE_ID := 61571;
  ZS_BTREE_PAGE_ID := 61572;
  ZS_UNDO_PAGE_ID := 61573;
  ZS_TOAST_PAGE_ID := 61574;
  ZS_FREE_PAGE_ID := 61575;
  ATTSTREAM_COMPRESSED := 1;
  SizeOfZSAttStreamHeader := 24;
  MAXALIGN_sizeof_ZSMetaPageOpaque := 40;
  MAXALIGN_sizeof_ZSBtreePageOpaque := 32;
  MAXALIGN_sizeof_ZSToastPageOpaque := 40;
  PageGetSpecialSize := stock_PageGetSpecialSize;
  PageGetExactFreeSpace := stock_PageGetExactFreeSpace;
  PageGetMaxOffsetNumber := stock_PageGetMaxOffsetNumber;
  ZSBtreeInternalPageGetNumItems := stock_ZSBtreeInternalPageGetNumItems;
  page_ids_distinct := stock_page_ids_distinct
|}.

(** A decoder that hands out the payload one byte per chunk.  It gives up
    on a compressed stream whose payload is longer than the decompressed
    size its header declares, and on a byte 0, its chunk without
    elements. *)
Definition bytewise_decoder : AttstreamDecoder := {|
  attstream_decoder := Z * list Z;
  init_attstream_decoder := fun _ _ => (0, []);
  decode_attstream_begin := fun _ stream =>
    if negb (Z.land (ZSAttStream.t_flags stream) 1 =? 0)
       && (ZSAttStream.t_decompressed_size stream
           <? Z.of_nat (length (ZSAttStream.t_payload stream)))
    then DecError ERRCODE_DATA_CORRUPTED "decompression failed"
    else DecOk (0, ZSAttStream.t_payload stream);
  decoder_pos := fst;
  get_attstream_chunk_cont := fun d =>
    match snd d with
    | [] => DecOk None
    | b :: rest =>
        if b =? 0 then DecError ERRCODE_DATA_CORRUPTED "zero-length chunk"
        else
          DecOk (Some ((fst d + 1, rest), (fst d, fst d + 1, fst d + 1, [b])))
    end
|}.

(** *** Sample pages *)

Definition no_undorec : ZSUndoRec.t := ZSUndoRec.mk 0 ZSUndoRecPtr.zero.
Definition no_attstream : ZSAttStream.t := ZSAttStream.mk 0 0 0 [].
Definition no_item : ZSTidArrayItem.t := ZSTidArrayItem.mk 0.

(** A page of which only the header and the page id are of interest: every
    view of the special area shows [page_id] and zeroes. *)
Definition plain_page (lower upper special page_id : Z) : Page :=
  mkPage lower upper special (8192 + 4) page_id
    (ZSMetaPageOpaque.mk 0 0 0 ZSUndoRecPtr.zero 0 0 page_id)
    (ZSUndoPageOpaque.mk 0 page_id)
    (ZSBtreePageOpaque.mk 0 0 0 0 0 page_id)
    (ZSToastPageOpaque.mk 0 0 0 0 0 0 false page_id)
    (fun _ => no_undorec) (fun _ => no_attstream) (fun _ => no_item).

(** The metapage of a relation whose undo log starts at block [undo_head]. *)
Definition sample_metapage (undo_head undo_tail : Z) : Page :=
  mkPage 24 8152 8152 (8192 + 4) 61571
    (ZSMetaPageOpaque.mk undo_head undo_tail 7
       (ZSUndoRecPtr.mk 5 undo_head 24) 4294967295 0 61571)
    (ZSUndoPageOpaque.mk 0 61571)
    (ZSBtreePageOpaque.mk 0 0 0 0 0 61571)
    (ZSToastPageOpaque.mk 0 0 0 0 0 0 false 61571)
    (fun _ => no_undorec) (fun _ => no_attstream) (fun _ => no_item).

(** An undo page at [blkno] holding two records of 40 bytes with the
    counters [c] and [c + 1], followed by the page [next]. *)
Definition sample_undo_page (blkno next c : Z) : Page :=
  mkPage 104 8184 8184 (8192 + 4) 61573
    (ZSMetaPageOpaque.mk 0 0 0 ZSUndoRecPtr.zero 0 0 61573)
    (ZSUndoPageOpaque.mk next 61573)
    (ZSBtreePageOpaque.mk 0 0 0 0 0 61573)
    (ZSToastPageOpaque.mk 0 0 0 0 0 0 false 61573)
    (fun off =>
       if off =? 24 then ZSUndoRec.mk 40 (ZSUndoRecPtr.mk c blkno 24)
       else if off =? 64 then ZSUndoRec.mk 40 (ZSUndoRecPtr.mk (c + 1) blkno 64)
       else no_undorec)
    (fun _ => no_attstream) (fun _ => no_item).

(** A B-tree page of attribute [attno] at [level].  As a leaf of a real
    attribute it carries a compressed lower stream of 100 bytes (400
    decompressed) and an uncompressed upper stream of 60 bytes. *)
Definition sample_btree_page (attno level next : Z) : Page :=
  mkPage 124 8100 8160 (8192 + 4) 61572
    (ZSMetaPageOpaque.mk 0 0 0 ZSUndoRecPtr.zero 0 0 61572)
    (ZSUndoPageOpaque.mk 0 61572)
    (ZSBtreePageOpaque.mk attno level next 1 1000 61572)
    (ZSToastPageOpaque.mk 0 0 0 0 0 0 false 61572)
    (fun _ => no_undorec)
    (fun off =>
       if off =? 24 then ZSAttStream.mk 100 1 400 [1; 2; 3]
       else if off =? 8100 then ZSAttStream.mk 60 0 0 [4; 5]
       else no_attstream)
    (fun off => ZSTidArrayItem.mk (10 * off)).

Definition sample_toast_page (tid next : Z) : Page :=
  mkPage 24 24 8152 (8192 + 4) 61574
    (ZSMetaPageOpaque.mk 0 0 0 ZSUndoRecPtr.zero 0 0 61574)
    (ZSUndoPageOpaque.mk 0 61574)
    (ZSBtreePageOpaque.mk 0 0 0 0 0 61574)
    (ZSToastPageOpaque.mk tid 20000 0 4294967295 next 8128 false 61574)
    (fun _ => no_undorec) (fun _ => no_attstream) (fun _ => no_item).

(** A page returned to the free page map: undo-sized special area, page
    id [ZS_FREE_PAGE_ID]. *)
Definition sample_free_page : Page := plain_page 24 8184 8184 61575.

(** A page of zeroes, as a freshly extended relation has them. *)
Definition zero_page : Page :=
  mkPage 0 0 0 0 0
    (ZSMetaPageOpaque.mk 0 0 0 ZSUndoRecPtr.zero 0 0 0)
    (ZSUndoPageOpaque.mk 0 0)
    (ZSBtreePageOpaque.mk 0 0 0 0 0 0)
    (ZSToastPageOpaque.mk 0 0 0 0 0 0 false 0)
    (fun _ => no_undorec) (fun _ => no_attstream) (fun _ => no_item).

(** *** Sample relations and backends *)

Definition sample_attrs (i : Z) : FormData_pg_attribute := mkAttr true 4.

(** Relation 16384: metapage, two undo pages chained 1 -> 2, a B-tree
    leaf of attribute 1, a B-tree internal page, a toast page, a meta-tree
    leaf. *)
Definition sample_rel : Relation :=
  mkRel 16384 false
    [ sample_metapage 1 2;
      sample_undo_page 1 2 5;
      sample_undo_page 2 4294967295 7;
      sample_btree_page 1 0 4294967295;
      sample_btree_page 1 1 4294967295;
      sample_toast_page 42 4294967295;
      sample_btree_page 0 0 4294967295 ]
    sample_attrs.

(** Relation 16385: the second page of the undo chain has been recycled
    into a free page. *)
Definition recycled_rel : Relation :=
  mkRel 16385 false
    [sample_metapage 1 2; sample_undo_page 1 2 5; sample_free_page]
    sample_attrs.

(** Relation 16386: block 0 was never initialised. *)
Definition blank_rel : Relation :=
  mkRel 16386 false [zero_page; sample_btree_page 1 0 4294967295] sample_attrs.

(** Relation 16387: a temporary relation of another session. *)
Definition other_temp_rel : Relation :=
  mkRel 16387 true [sample_metapage 4294967295 4294967295] sample_attrs.

Definition sample_catalog (relid : Z) : option Relation :=
  if relid =? 16384 then Some sample_rel
  else if relid =? 16385 then Some recycled_rel
  else if relid =? 16386 then Some blank_rel
  else if relid =? 16387 then Some other_temp_rel
  else None.

Definition superuser_backend : Backend :=
  mkBackend true sample_catalog (fun _ => false) true false.

Definition plain_user_backend : Backend :=
  mkBackend false sample_catalog (fun _ => false) true false.

Definition sample_fcinfo : FunctionCallInfo :=
  mkFcinfo (Some (mkRsinfo true 3)) true.

(** The pages of an undo chain that starts at block 1 with [page1] and
    goes on at block 2 with the pages [more]; every page holds the two
    records of [sample_undo_page]. *)
Definition two_records (page : Page) : list ZSUndoRec.t :=
  [undorec_at page 24; undorec_at page 64].

Definition sample_chain : list (Z * Page * list ZSUndoRec.t) :=
  [ (1, sample_undo_page 1 2 5, two_records (sample_undo_page 1 2 5));
    (2, sample_undo_page 2 4294967295 7,
     two_records (sample_undo_page 2 4294967295 7)) ].

Definition recycled_chain : list (Z * Page * list ZSUndoRec.t) :=
  [ (1, sample_undo_page 1 2 5, two_records (sample_undo_page 1 2 5)) ].

(** ** Further observations *)

(** The call has let go of every buffer: the scan automaton, started
    before any loop, is back in a state where nothing is pinned or
    locked. *)
Definition ends_unlocked (w : World) : Prop :=
  scan_run Prelude (trace w) = Some Prelude \/ between_pages Prelude w.

(** *** More sample relations *)

(** Relation 16388: an undo chain that runs in a circle, 1 -> 2 -> 1. *)
Definition cyclic_rel : Relation :=
  mkRel 16388 false
    [sample_metapage 1 2; sample_undo_page 1 2 5; sample_undo_page 2 1 7]
    sample_attrs.

(** An undo page whose first record states the size 0. *)
Definition stuck_undo_page : Page :=
  mkPage 104 8184 8184 (8192 + 4) 61573
    (ZSMetaPageOpaque.mk 0 0 0 ZSUndoRecPtr.zero 0 0 61573)
    (ZSUndoPageOpaque.mk 4294967295 61573)
    (ZSBtreePageOpaque.mk 0 0 0 0 0 61573)
    (ZSToastPageOpaque.mk 0 0 0 0 0 0 false 61573)
    (fun _ => ZSUndoRec.mk 0 (ZSUndoRecPtr.mk 5 1 24))
    (fun _ => no_attstream) (fun _ => no_item).

(** Relation 16389: the undo log is the one page [stuck_undo_page]. *)
Definition stuck_rel : Relation :=
  mkRel 16389 false [sample_metapage 1 1; stuck_undo_page] sample_attrs.

(** Relation 16390: the undo page at block 1 holds records that say they
    are on block 9. *)
Definition misfiled_rel : Relation :=
  mkRel 16390 false [sample_metapage 1 1; sample_undo_page 9 4294967295 5]
    sample_attrs.

Definition extended_catalog (relid : Z) : option Relation :=
  if relid =? 16388 then Some cyclic_rel
  else if relid =? 16389 then Some stuck_rel
  else if relid =? 16390 then Some misfiled_rel
  else sample_catalog relid.

(** A superuser in a build with assertions, never interrupted. *)
Definition debug_backend : Backend :=
  mkBackend true extended_catalog (fun _ => false) true false.

(** A superuser in a build without assertions, never interrupted. *)
Definition production_backend : Backend :=
  mkBackend true extended_catalog (fun _ => false) false false.

(** A superuser whose cancel request arrives after the first poll: every
    poll from the second on would find it. *)
Definition impatient_backend : Backend :=
  mkBackend true extended_catalog (fun n => (1 <=? n)%nat) true false.

(** The blocks of the circle of [cyclic_rel]. *)
Definition on_circle (blkno : Z) : Prop := blkno = 1 \/ blkno = 2.

(** A set of blocks that the walk cannot leave: each is a well-formed undo
    page whose successor is in the set again. *)
Definition undo_closed {hdr : Headers} (be : Backend) (rel : Relation)
    (P : Z -> Prop) : Prop :=
  forall blkno,
    P blkno ->
    blkno <> InvalidBlockNumber
    /\ 0 <= blkno
    /\ exists page recs,
         rd_blocks rel !! Z.to_nat blkno = Some page
         /\ ZSUndoPageOpaque.zs_page_id (as_ZSUndoPageOpaque page)
            = ZS_UNDO_PAGE_ID
         /\ packed_records page SizeOfPageHeaderData recs
         /\ (USE_ASSERT_CHECKING be = true -> records_on_block blkno recs)
         /\ P (ZSUndoPageOpaque.next (as_ZSUndoPageOpaque page)).

(** *** The chunks of an attribute stream *)

(** The steps a decoder makes until [get_attstream_chunk_cont] answers
    false: after each, the advanced decoder and what it handed out.
    [None] when [fuel] steps do not get it there, or when the decoder
    gives up on the way. *)
Fixpoint decoder_steps {dec : AttstreamDecoder} (fuel : nat)
    (decoder : attstream_decoder)
    : option (list (attstream_decoder * (Z * Z * Z * list Z))) :=
  match get_attstream_chunk_cont decoder with
  | DecError _ _ => None
  | DecOk None => Some []
  | DecOk (Some (decoder', chunk)) =>
      match fuel with
      | O => None
      | S fuel' => cons (decoder', chunk) <$> decoder_steps fuel' decoder'
      end
  end.

(** The decoder of a stream as [pg_zs_dump_attstreams] sets it up, if
    [decode_attstream_begin] comes back. *)
Definition stream_decoder {dec : AttstreamDecoder} (attbyval : bool)
    (attlen : Z) (stream : ZSAttStream.t) : Decoded attstream_decoder :=
  decode_attstream_begin (init_attstream_decoder attbyval attlen) stream.

(** The decoder's normal run on [stream]: [decode_attstream_begin] comes
    back with [decoder], which then hands out the chunks of [steps] and
    answers false, within [fuel] steps. *)
Definition stream_chunks {dec : AttstreamDecoder} (fuel : nat)
    (attbyval : bool) (attlen : Z) (stream : ZSAttStream.t)
    (decoder : attstream_decoder)
    (steps : list (attstream_decoder * (Z * Z * Z * list Z))) : Prop :=
  stream_decoder attbyval attlen stream = DecOk decoder
  /\ decoder_steps fuel decoder = Some steps.

(** The steps a decoder makes until it gives up, and the ERROR it leaves
    with.  [None] when it answers false before, or when [fuel] steps do
    not get it there. *)
Fixpoint decoder_gives_up {dec : AttstreamDecoder} (fuel : nat)
    (decoder : attstream_decoder)
    : option (list (attstream_decoder * (Z * Z * Z * list Z))
              * (ErrCode * string)) :=
  match get_attstream_chunk_cont decoder with
  | DecError code msg => Some ([], (code, msg))
  | DecOk None => None
  | DecOk (Some (decoder', chunk)) =>
      match fuel with
      | O => None
      | S fuel' =>
          (fun r => ((decoder', chunk) :: fst r, snd r))
            <$> decoder_gives_up fuel' decoder'
      end
  end.

(** The decoder's run on [stream] ends in an ERROR: in
    [decode_attstream_begin], or after the chunks of [steps]. *)
Definition stream_fails {dec : AttstreamDecoder} (fuel : nat)
    (attbyval : bool) (attlen : Z) (stream : ZSAttStream.t)
    (steps : list (attstream_decoder * (Z * Z * Z * list Z)))
    (code : ErrCode) (msg : string) : Prop :=
  (stream_decoder attbyval attlen stream = DecError code msg /\ steps = [])
  \/ exists decoder,
       stream_decoder attbyval attlen stream = DecOk decoder
       /\ decoder_gives_up fuel decoder = Some (steps, (code, msg)).

(** Whether a leaf page has a lower and an upper stream, as the two [if]s
    on the page header decide it. *)
Definition has_lower_stream {hdr : Headers} (page : Page) : bool :=
  to_size_t (pd_lower page - SizeOfPageHeaderData) >? SizeOfZSAttStreamHeader.

Definition has_upper_stream {hdr : Headers} (page : Page) : bool :=
  to_size_t (pd_special page - pd_upper page) >? SizeOfZSAttStreamHeader.

(** A [values] array of [pg_zs_dump_attstreams]: fourteen entries of which
    the last two are never written, and no NULL. *)
Definition dump_values_shaped (values : HeapTuple) : Prop :=
  exists cols,
    length cols = 12%nat
    /\ values = mkTuple (cols ++ [DInt 0; DInt 0]) (replicate 14 false).

(** The leaf page of a real attribute that [pg_zs_dump_attstreams] goes
    on to decode. *)
Definition is_attribute_leaf {hdr : Headers} (page : Page) : Prop :=
  PageGetSpecialSize page = MAXALIGN_sizeof_ZSBtreePageOpaque
  /\ ZSBtreePageOpaque.zs_page_id (as_ZSBtreePageOpaque page)
     = ZS_BTREE_PAGE_ID
  /\ ZSBtreePageOpaque.zs_attno (as_ZSBtreePageOpaque page)
     <> ZS_META_ATTRIBUTE_NUM
  /\ ZSBtreePageOpaque.zs_level (as_ZSBtreePageOpaque page) = 0.

(** The integer a column holds. *)
Definition column_int (t : HeapTuple) (i : nat) : option Z :=
  match column t i with
  | Some (DInt z) => Some z
  | _ => None
  end.

(** The row stored for one chunk, and the rows stored for the chunks of
    one stream, with [chunkno] and [chunk_start] as the loop carries them
    along. *)
Definition chunk_row {hdr : Headers} {dec : AttstreamDecoder}
    (stream : ZSAttStream.t) (i : Z) (upperstream : bool) (attno : Z)
    (attbyval : bool) (attlen chunkno chunk_start : Z)
    (step : attstream_decoder * (Z * Z * Z * list Z)) : HeapTuple :=
  let '(decoder, (prevtid, firsttid, lasttid, chunk)) := step in
  mkTuple
    [ Int16GetDatum attno;
      Int32GetDatum chunkno;
      BoolGetDatum ((if upperstream then 1 else 0) =? i);
      BoolGetDatum
        (negb (Z.land (ZSAttStream.t_flags stream) ATTSTREAM_COMPRESSED =? 0));
      BoolGetDatum attbyval;
      Int16GetDatum attlen;
      Int32GetDatum chunk_start;
      Int32GetDatum (decoder_pos decoder - chunk_start);
      ZSTidGetDatum prevtid;
      ZSTidGetDatum firsttid;
      ZSTidGetDatum lasttid;
      PointerGetDatum chunk;
      DInt 0; DInt 0 ]
    (replicate 14 false).

Fixpoint chunk_rows {hdr : Headers} {dec : AttstreamDecoder}
    (stream : ZSAttStream.t) (i : Z) (upperstream : bool) (attno : Z)
    (attbyval : bool) (attlen : Z)
    (steps : list (attstream_decoder * (Z * Z * Z * list Z)))
    (chunkno chunk_start : Z) : list HeapTuple :=
  match steps with
  | [] => []
  | step :: steps' =>
      chunk_row stream i upperstream attno attbyval attlen chunkno
        chunk_start step
      :: chunk_rows stream i upperstream attno attbyval attlen steps'
           (to_int32 (chunkno + 1)) (to_int32 (decoder_pos (fst step)))
  end.

(** The position of the decoder before its [k]-th step (counted from 0):
    where [decode_attstream_begin] left it, or where the step before
    did. *)
Definition position_before {dec : AttstreamDecoder}
    (decoder : attstream_decoder)
    (steps : list (attstream_decoder * (Z * Z * Z * list Z))) (k : nat) : Z :=
  match k with
  | O => decoder_pos decoder
  | S k' => from_option (fun step => decoder_pos (fst step)) 0 (steps !! k')
  end.

(** [rows] are the rows of the chunks that a stream's decoder hands out in
    [steps]: one row per chunk, in order, numbered from 0, each with the
    chunk, its three row ids, the 32-bit position where the chunk begins
    and the length the decoder advanced by. *)
Definition rows_of_chunks {dec : AttstreamDecoder}
    (decoder : attstream_decoder)
    (steps : list (attstream_decoder * (Z * Z * Z * list Z)))
    (rows : list HeapTuple) : Prop :=
  length rows = length steps
  /\ forall (k : nat) decoder' prevtid firsttid lasttid chunk,
       steps !! k = Some (decoder', (prevtid, firsttid, lasttid, chunk)) ->
       exists row,
         rows !! k = Some row
         /\ column_int row 1 = Some (Z.of_nat k)
         /\ column_int row 6
            = Some (to_int32 (position_before decoder steps k))
         /\ column_int row 7
            = Some (to_int32
                      (decoder_pos decoder'
                       - to_int32 (position_before decoder steps k)))
         /\ column row 8 = Some (ZSTidGetDatum prevtid)
         /\ column row 9 = Some (ZSTidGetDatum firsttid)
         /\ column row 10 = Some (ZSTidGetDatum lasttid)
         /\ column row 11 = Some (DBytea chunk).

(** The chunks of [rows] lie one after the other: each row after the first
    begins, in 32-bit arithmetic, where the row before it ends. *)
Definition cursors_contiguous (rows : list HeapTuple) : Prop :=
  forall (k : nat) row row' cursor len,
    rows !! k = Some row ->
    rows !! S k = Some row' ->
    column_int row 6 = Some cursor ->
    column_int row 7 = Some len ->
    column_int row' 6 = Some (to_int32 (cursor + len)).

(** A leaf page of attribute 1 with a lower stream only. *)
Definition lower_only_leaf : Page :=
  mkPage 124 8160 8160 (8192 + 4) 61572
    (ZSMetaPageOpaque.mk 0 0 0 ZSUndoRecPtr.zero 0 0 61572)
    (ZSUndoPageOpaque.mk 0 61572)
    (ZSBtreePageOpaque.mk 1 0 4294967295 1 1000 61572)
    (ZSToastPageOpaque.mk 0 0 0 0 0 0 false 61572)
    (fun _ => no_undorec)
    (fun off =>
       if off =? 24 then ZSAttStream.mk 100 1 400 [7; 8]
       else no_attstream)
    (fun _ => no_item).

(** A leaf page of attribute 1 whose lower stream goes wrong after its
    first chunk. *)
Definition corrupt_leaf : Page :=
  mkPage 124 8160 8160 (8192 + 4) 61572
    (ZSMetaPageOpaque.mk 0 0 0 ZSUndoRecPtr.zero 0 0 61572)
    (ZSUndoPageOpaque.mk 0 61572)
    (ZSBtreePageOpaque.mk 1 0 4294967295 1 1000 61572)
    (ZSToastPageOpaque.mk 0 0 0 0 0 0 false 61572)
    (fun _ => no_undorec)
    (fun off =>
       if off =? 24 then ZSAttStream.mk 100 0 0 [9; 0; 3]
       else no_attstream)
    (fun _ => no_item).

(** Relation 16391: a leaf with both streams at block 1, a leaf with a
    lower stream only at block 2, a toast page without an owning row id at
    block 3, a leaf with a corrupt lower stream at block 4. *)
Definition leaf_rel : Relation :=
  mkRel 16391 false
    [ sample_metapage 4294967295 4294967295;
      sample_btree_page 1 0 4294967295;
      lower_only_leaf;
      sample_toast_page 0 4294967295;
      corrupt_leaf ]
    sample_attrs.

Definition leaf_catalog (relid : Z) : option Relation :=
  if relid =? 16391 then Some leaf_rel else extended_catalog relid.

(** Superusers on [leaf_catalog] whose uninitialised stack [bool] holds
    false and true. *)
Definition leaf_backend : Backend :=
  mkBackend true leaf_catalog (fun _ => false) true false.

Definition dirty_stack_backend : Backend :=
  mkBackend true leaf_catalog (fun _ => false) true true.

(** [bytewise_decoder] on the streams of the sample leaves: the decoder
    that [decode_attstream_begin] comes back with. *)
Definition sample_lower_decoder : @attstream_decoder bytewise_decoder :=
  (0, [1; 2; 3]).

Definition sample_upper_decoder : @attstream_decoder bytewise_decoder :=
  (0, [4; 5]).

Definition lower_only_decoder : @attstream_decoder bytewise_decoder :=
  (0, [7; 8]).

(** The steps it makes on them: all of them on the sound streams, the
    one before it gives up on the stream of [corrupt_leaf]. *)
Definition corrupt_steps
    : list (@attstream_decoder bytewise_decoder * (Z * Z * Z * list Z)) :=
  [ ((1, [0; 3]), (0, 1, 1, [9])) ].

Definition sample_lower_steps
    : list (@attstream_decoder bytewise_decoder * (Z * Z * Z * list Z)) :=
  [ ((1, [2; 3]), (0, 1, 1, [1]));
    ((2, [3]), (1, 2, 2, [2]));
    ((3, []), (2, 3, 3, [3])) ].

Definition sample_upper_steps
    : list (@attstream_decoder bytewise_decoder * (Z * Z * Z * list Z)) :=
  [ ((1, [5]), (0, 1, 1, [4])); ((2, []), (1, 2, 2, [5])) ].

Definition lower_only_steps
    : list (@attstream_decoder bytewise_decoder * (Z * Z * Z * list Z)) :=
  [ ((1, [8]), (0, 1, 1, [7])); ((2, []), (1, 2, 2, [8])) ].

(** The buffer locks a trace takes, in order, each with its mode. *)
Definition locks_taken (t : list Event) : list (Z * LockMode) :=
  omap (fun e =>
          match e with EvLockBuffer b mode => Some (b, mode) | _ => None end)
       t.

Definition exclusively (blocks : list Z) : list (Z * LockMode) :=
  map (fun b => (b, BUFFER_LOCK_EXCLUSIVE)) blocks.

(** The five functions that demand a result context of the caller. *)
Definition row_functions {hdr : Headers} {dec : AttstreamDecoder}
    (be : Backend) (fuel : nat) (fcinfo : FunctionCallInfo) (relid pageno : Z)
    : list (M FnResult) :=
  [ pg_zs_undo_pages be fuel fcinfo relid;
    pg_zs_toast_pages be fcinfo relid;
    pg_zs_dump_attstreams be fuel fcinfo relid pageno;
    pg_zs_btree_pages be fcinfo relid;
    pg_zs_meta_page be fcinfo relid ].

(** Callers that cannot take a set, that do not allow materialize mode,
    and whose result type is no row type. *)
Definition scalar_fcinfo : FunctionCallInfo := mkFcinfo None true.

Definition value_per_call_fcinfo : FunctionCallInfo :=
  mkFcinfo (Some (mkRsinfo true 1)) true.

Definition untyped_fcinfo : FunctionCallInfo :=
  mkFcinfo (Some (mkRsinfo true 3)) false.

(** * Properties *)

Section Properties.

Context {hdr : Headers} {dec : AttstreamDecoder}.
Variable be : Backend.

(** ** Running the monad *)

Lemma bind_returned {A B} (m : M A) (f : A -> M B) w a w' :
  m w = (Returned a, w') -> (m ≫= f) w = f a w'.
Proof. intros E. unfold mbind, M_bind. by rewrite E. Qed.

Lemma bind_raised {A B} (m : M A) (f : A -> M B) w code msg w' :
  m w = (Raised code msg, w') -> (m ≫= f) w = (Raised code msg, w').
Proof. intros E. unfold mbind, M_bind. by rewrite E. Qed.

Lemma require_superuser_ok w :
  superuser be = true -> require_superuser be w = (Returned tt, w).
Proof. intros E. unfold require_superuser. by rewrite E. Qed.

Lemma require_superuser_rejects w :
  superuser be = false ->
  require_superuser be w
  = (Raised ERRCODE_INSUFFICIENT_PRIVILEGE
       "must be superuser to use zedstore inspection functions", w).
Proof. intros E. unfold require_superuser. by rewrite E. Qed.

Lemma table_open_ok relid rel w :
  catalog be relid = Some rel ->
  table_open be relid w
  = (Returned rel,
     mkWorld (trace w ++ [EvTableOpen relid]) (tupstore w) (polls w)).
Proof. intros E. unfold table_open. by rewrite E. Qed.

Lemma reject_other_temp_ok rel w :
  is_other_temp rel = false -> reject_other_temp rel w = (Returned tt, w).
Proof. intros E. unfold reject_other_temp. by rewrite E. Qed.

Lemma check_rsinfo_ok fcinfo w :
  srf_context_ok fcinfo -> check_rsinfo fcinfo w = (Returned tt, w).
Proof.
  intros (rsinfo & E1 & E2 & E3 & _). unfold check_rsinfo.
  rewrite E1, E2. simpl. apply Z.eqb_neq in E3. by rewrite E3.
Qed.

Lemma require_composite_result_ok fcinfo w :
  srf_context_ok fcinfo -> require_composite_result fcinfo w = (Returned tt, w).
Proof.
  intros (rsinfo & _ & _ & _ & E). unfold require_composite_result.
  by rewrite E.
Qed.

Lemma ReadBuffer_ok rel blkno page w :
  0 <= blkno ->
  rd_blocks rel !! Z.to_nat blkno = Some page ->
  ReadBuffer rel blkno w
  = (Returned (mkBuffer blkno page),
     mkWorld (trace w ++ [EvReadBuffer blkno]) (tupstore w) (polls w)).
Proof.
  intros Hpos E. unfold ReadBuffer, RelationGetNumberOfBlocks.
  apply lookup_lt_Some in E as Hlt.
  replace (0 <=? blkno) with true by (symmetry; apply Z.leb_le; lia).
  replace (blkno <? Z.of_nat (length (rd_blocks rel))) with true
    by (symmetry; apply Z.ltb_lt; lia).
  simpl. by rewrite E.
Qed.

Lemma CHECK_FOR_INTERRUPTS_ok w :
  QueryCancelPending be (polls w) = false ->
  CHECK_FOR_INTERRUPTS be w
  = (Returned tt,
     mkWorld (trace w ++ [EvCheckForInterrupts]) (tupstore w) (S (polls w))).
Proof. intros E. unfold CHECK_FOR_INTERRUPTS. by rewrite E. Qed.

(** Unfolds the monadic plumbing of a goal. *)
Ltac mrun :=
  unfold mbind, M_bind, mret, M_ret, emit, elog_WARNING, elog_ERROR,
    ereport_ERROR, out_of_fuel, LockBuffer, UnlockReleaseBuffer, table_close,
    tuplestore_begin_heap, tuplestore_putvalues; simpl.

(** ** Traces *)

Lemma pages_read_app t1 t2 :
  pages_read (t1 ++ t2) = (pages_read t1 ++ pages_read t2)%list.
Proof. apply omap_app. Qed.

Lemma warnings_app t1 t2 :
  warnings (t1 ++ t2) = (warnings t1 ++ warnings t2)%list.
Proof. apply omap_app. Qed.

(** ** Page ids *)

Lemma page_ids_pairwise :
  ZS_META_PAGE_ID <> ZS_BTREE_PAGE_ID /\ ZS_META_PAGE_ID <> ZS_UNDO_PAGE_ID
  /\ ZS_META_PAGE_ID <> ZS_TOAST_PAGE_ID /\ ZS_META_PAGE_ID <> ZS_FREE_PAGE_ID
  /\ ZS_BTREE_PAGE_ID <> ZS_UNDO_PAGE_ID /\ ZS_BTREE_PAGE_ID <> ZS_TOAST_PAGE_ID
  /\ ZS_BTREE_PAGE_ID <> ZS_FREE_PAGE_ID /\ ZS_UNDO_PAGE_ID <> ZS_TOAST_PAGE_ID
  /\ ZS_UNDO_PAGE_ID <> ZS_FREE_PAGE_ID /\ ZS_TOAST_PAGE_ID <> ZS_FREE_PAGE_ID.
Proof.
  pose proof page_ids_distinct as H.
  repeat (apply NoDup_cons in H as [? H]).
  repeat match goal with
         | H : _ ∉ _ :: _ |- _ => apply not_elem_of_cons in H as [? ?]
         end.
  repeat split; assumption.
Qed.

Lemma page_type_name_unknown tag :
  tag <> ZS_META_PAGE_ID -> tag <> ZS_BTREE_PAGE_ID ->
  tag <> ZS_UNDO_PAGE_ID -> tag <> ZS_TOAST_PAGE_ID ->
  tag <> ZS_FREE_PAGE_ID ->
  page_type_name tag = "UNKNOWN 0x" +:+ format_04x tag.
Proof.
  intros H1 H2 H3 H4 H5. unfold page_type_name.
  apply Z.eqb_neq in H1, H2, H3, H4, H5.
  by rewrite H1, H2, H3, H4, H5.
Qed.

(** Which branch of the [switch] a tag takes. *)
Lemma page_type_name_cases tag :
  (tag = ZS_META_PAGE_ID /\ page_type_name tag = "META")
  \/ (tag = ZS_BTREE_PAGE_ID /\ page_type_name tag = "BTREE")
  \/ (tag = ZS_UNDO_PAGE_ID /\ page_type_name tag = "UNDO")
  \/ (tag = ZS_TOAST_PAGE_ID /\ page_type_name tag = "TOAST")
  \/ (tag = ZS_FREE_PAGE_ID /\ page_type_name tag = "FREE")
  \/ (tag <> ZS_META_PAGE_ID /\ tag <> ZS_BTREE_PAGE_ID
      /\ tag <> ZS_UNDO_PAGE_ID /\ tag <> ZS_TOAST_PAGE_ID
      /\ tag <> ZS_FREE_PAGE_ID
      /\ page_type_name tag = "UNKNOWN 0x" +:+ format_04x tag).
Proof.
  unfold page_type_name.
  destruct (Z.eqb_spec tag ZS_META_PAGE_ID); [tauto|].
  destruct (Z.eqb_spec tag ZS_BTREE_PAGE_ID); [tauto|].
  destruct (Z.eqb_spec tag ZS_UNDO_PAGE_ID); [tauto|].
  destruct (Z.eqb_spec tag ZS_TOAST_PAGE_ID); [tauto|].
  destruct (Z.eqb_spec tag ZS_FREE_PAGE_ID); [tauto|].
  do 5 right. tauto.
Qed.

Lemma hex_digit_inj d1 d2 :
  0 <= d1 < 16 -> 0 <= d2 < 16 -> hex_digit d1 = hex_digit d2 -> d1 = d2.
Proof.
  intros H1 H2.
  assert (d1 = 0 \/ d1 = 1 \/ d1 = 2 \/ d1 = 3 \/ d1 = 4 \/ d1 = 5 \/ d1 = 6
          \/ d1 = 7 \/ d1 = 8 \/ d1 = 9 \/ d1 = 10 \/ d1 = 11 \/ d1 = 12
          \/ d1 = 13 \/ d1 = 14 \/ d1 = 15) as C1 by lia.
  assert (d2 = 0 \/ d2 = 1 \/ d2 = 2 \/ d2 = 3 \/ d2 = 4 \/ d2 = 5 \/ d2 = 6
          \/ d2 = 7 \/ d2 = 8 \/ d2 = 9 \/ d2 = 10 \/ d2 = 11 \/ d2 = 12
          \/ d2 = 13 \/ d2 = 14 \/ d2 = 15) as C2 by lia.
  repeat destruct C1 as [C1|C1]; subst d1;
    repeat destruct C2 as [C2|C2]; subst d2; intros E;
    first [reflexivity | discriminate E].
Qed.

(** Four hexadecimal digits determine a 16-bit value. *)
Lemma format_04x_inj x y :
  0 <= x < 2 ^ 16 -> 0 <= y < 2 ^ 16 -> format_04x x = format_04x y -> x = y.
Proof.
  intros Hx Hy E. unfold format_04x in E. injection E as E1 E2 E3 E4.
  apply hex_digit_inj in E1, E2, E3, E4;
    try (apply Z.mod_pos_bound; lia).
  change (2 ^ 16) with 65536 in *.
  Z.div_mod_to_equations. lia.
Qed.

(** The name tells the 16-bit page id. *)
Lemma page_type_name_inj tag1 tag2 :
  0 <= tag1 < 2 ^ 16 -> 0 <= tag2 < 2 ^ 16 ->
  page_type_name tag1 = page_type_name tag2 -> tag1 = tag2.
Proof.
  intros H1 H2 E.
  destruct (page_type_name_cases tag1)
    as [[E1 N1]|[[E1 N1]|[[E1 N1]|[[E1 N1]|[[E1 N1]|(_&_&_&_&_&N1)]]]]];
    destruct (page_type_name_cases tag2)
      as [[E2 N2]|[[E2 N2]|[[E2 N2]|[[E2 N2]|[[E2 N2]|(_&_&_&_&_&N2)]]]]];
    rewrite N1, N2 in E;
    remember (format_04x tag1) as f1 eqn:F1;
    remember (format_04x tag2) as f2 eqn:F2;
    simpl in E; try discriminate E; try congruence.
  injection E as E. subst f1 f2. by apply format_04x_inj.
Qed.

Lemma pg_zs_page_type_run relid pageno rel page w :
  superuser be = true ->
  catalog be relid = Some rel ->
  is_other_temp rel = false ->
  0 <= pageno < 2 ^ 32 ->
  rd_blocks rel !! Z.to_nat pageno = Some page ->
  pg_zs_page_type be relid pageno w
  = (Returned (RetText (page_type_name (page_id_at_end page))),
     mkWorld
       (trace w ++ [EvTableOpen relid; EvReadBuffer pageno;
                    EvLockBuffer pageno BUFFER_LOCK_SHARE;
                    EvUnlockReleaseBuffer pageno; EvTableClose (rd_id rel)])
       (tupstore w) (polls w)).
Proof.
  intros Hsu Hcat Htemp Hrange Hpage. unfold pg_zs_page_type.
  assert (to_uint32 (wrap_unsigned 64 pageno) = pageno) as ->.
  { unfold to_uint32, wrap_unsigned.
    rewrite (Z.mod_small pageno (2 ^ 64)) by lia. apply Z.mod_small; lia. }
  erewrite bind_returned by (by apply require_superuser_ok).
  erewrite bind_returned by (by apply table_open_ok).
  erewrite bind_returned by (by apply reject_other_temp_ok).
  erewrite bind_returned by (apply ReadBuffer_ok; [lia | done]).
  mrun. by rewrite <- !app_assoc.
Qed.

(** ** pg_zs_page_type *)

(** C1.  For a page of the relation, [pg_zs_page_type] answers with the
    name the [switch] gives to the 16-bit page id stored at the end of the
    page.  The name is "META", "BTREE", "UNDO", "TOAST" or "FREE" exactly
    when the id is the constant of that kind, and "UNKNOWN 0x" followed by
    the id in hexadecimal for every other id; since the five names and the
    UNKNOWN texts differ from each other, no id has two names, and the name
    of a 16-bit id tells the id. *)
Theorem page_type_classification relid pageno rel page w :
  superuser be = true ->
  catalog be relid = Some rel ->
  is_other_temp rel = false ->
  0 <= pageno < 2 ^ 32 ->
  rd_blocks rel !! Z.to_nat pageno = Some page ->
  let tag := page_id_at_end page in
  fst (pg_zs_page_type be relid pageno w)
    = Returned (RetText (page_type_name tag))
  /\ (forall tag',
        0 <= tag < 2 ^ 16 -> 0 <= tag' < 2 ^ 16 ->
        page_type_name tag' = page_type_name tag -> tag' = tag)
  /\ (page_type_name tag = "META" <-> tag = ZS_META_PAGE_ID)
  /\ (page_type_name tag = "BTREE" <-> tag = ZS_BTREE_PAGE_ID)
  /\ (page_type_name tag = "UNDO" <-> tag = ZS_UNDO_PAGE_ID)
  /\ (page_type_name tag = "TOAST" <-> tag = ZS_TOAST_PAGE_ID)
  /\ (page_type_name tag = "FREE" <-> tag = ZS_FREE_PAGE_ID)
  /\ (page_type_name tag = "UNKNOWN 0x" +:+ format_04x tag
      <-> tag <> ZS_META_PAGE_ID /\ tag <> ZS_BTREE_PAGE_ID
          /\ tag <> ZS_UNDO_PAGE_ID /\ tag <> ZS_TOAST_PAGE_ID
          /\ tag <> ZS_FREE_PAGE_ID).
Proof.
  intros Hsu Hcat Htemp Hrange Hpage tag.
  split.
  { by erewrite pg_zs_page_type_run. }
  split.
  { intros tag' H1 H2. by apply page_type_name_inj. }
  pose proof page_ids_pairwise as (? & ? & ? & ? & ? & ? & ? & ? & ? & ?).
  destruct (page_type_name_cases tag)
    as [[E N]|[[E N]|[[E N]|[[E N]|[[E N]|(?&?&?&?&?&N)]]]]];
    rewrite N; simpl; repeat split; intros;
    try discriminate; try done; intuition congruence.
Qed.

(** ** Rejected calls *)

Lemma rejected_unread_here {A} w code msg :
  rejected_unread (A := A) w (Raised code msg, w).
Proof. split; [do 2 eexists; reflexivity | done]. Qed.

Lemma rejected_unread_after {A} w code msg e :
  pages_read [e] = [] ->
  rejected_unread (A := A) w
    (Raised code msg, mkWorld (trace w ++ [e]) (tupstore w) (polls w)).
Proof.
  intros E. split; [do 2 eexists; reflexivity |]. simpl.
  rewrite pages_read_app, E. apply app_nil_r.
Qed.

(** Steps through the checks that open every inspection function. *)
Ltac reject_prologue Hwhy :=
  destruct Hwhy as [Hsu | (rel & Hcat & Htemp)];
  [ unfold require_superuser; rewrite Hsu; mrun;
    split; [do 2 eexists; reflexivity | done]
  | unfold require_superuser, check_rsinfo, require_composite_result,
      table_open, reject_other_temp, CHECK_FOR_INTERRUPTS;
    rewrite ?Hcat; mrun;
    repeat first
      [ progress (rewrite Htemp; simpl)
      | match goal with
        | |- context [if ?b then _ else _] => destruct b; simpl
        | |- context [match ?o with Some _ => _ | None => _ end] =>
            destruct o; simpl
        end ];
    (split; [do 2 eexists; reflexivity
            | simpl; rewrite ?pages_read_app; simpl; by rewrite ?app_nil_r]) ].

(** C2.  Each of the six inspection functions, called by someone who is not
    superuser or on a temporary relation of another session, raises an
    ERROR, and up to that point has read no page. *)
Theorem rejected_before_any_page_is_read fuel fcinfo relid pageno w :
  superuser be = false
  \/ (exists rel, catalog be relid = Some rel /\ is_other_temp rel = true) ->
  rejected_unread w (pg_zs_page_type be relid pageno w)
  /\ rejected_unread w (pg_zs_undo_pages be fuel fcinfo relid w)
  /\ rejected_unread w (pg_zs_btree_pages be fcinfo relid w)
  /\ rejected_unread w (pg_zs_toast_pages be fcinfo relid w)
  /\ rejected_unread w (pg_zs_dump_attstreams be fuel fcinfo relid pageno w)
  /\ rejected_unread w (pg_zs_meta_page be fcinfo relid w).
Proof.
  intros Hwhy.
  refine (conj _ (conj _ (conj _ (conj _ (conj _ _))))).
  - unfold pg_zs_page_type. reject_prologue Hwhy.
  - unfold pg_zs_undo_pages. reject_prologue Hwhy.
  - unfold pg_zs_btree_pages. reject_prologue Hwhy.
  - unfold pg_zs_toast_pages. reject_prologue Hwhy.
  - unfold pg_zs_dump_attstreams. reject_prologue Hwhy.
  - unfold pg_zs_meta_page. reject_prologue Hwhy.
Qed.

(** ** The polling discipline *)

Lemma scan_run_snoc s t e :
  scan_run s (t ++ [e]) = scan_run s t ≫= fun s' => scan_step s' e.
Proof. unfold scan_run. by rewrite foldl_app. Qed.

Lemma scan_run_app s t1 t2 :
  scan_run s (t1 ++ t2) = scan_run s t1 ≫= fun s' => scan_run s' t2.
Proof.
  revert t1. induction t2 as [|e t2 IH] using rev_ind; intros t1.
  - rewrite app_nil_r. by destruct (scan_run s t1).
  - rewrite app_assoc, scan_run_snoc, IH.
    destruct (scan_run s t1) as [s'|]; simpl; [|done].
    by rewrite scan_run_snoc.
Qed.

(** Case analysis on the condition of the first [if] of the goal. *)
Ltac split_if :=
  match goal with
  | |- context [if ?b then _ else _] => destruct b
  end.

(** Closes a goal about the automaton after a known sequence of events. *)
Ltac discipline H :=
  simpl; rewrite ?scan_run_snoc, H; simpl;
  repeat (rewrite Z.eqb_refl; simpl); eauto.

Lemma toast_iteration_discipline s0 rel blkno w :
  between_pages s0 w ->
  between_pages s0 (snd (toast_pages_iteration be rel blkno w)).
Proof.
  intros [p H]. unfold between_pages, toast_pages_iteration,
    CHECK_FOR_INTERRUPTS, ReadBuffer.
  mrun. destruct (QueryCancelPending be (polls w)); [discipline H|].
  split_if; [|discipline H].
  destruct (rd_blocks rel !! _); [|discipline H].
  mrun. split_if; [discipline H|].
  split_if; discipline H.
Qed.

Lemma btree_iteration_discipline s0 rel blkno w :
  between_pages s0 w ->
  between_pages s0 (snd (btree_pages_iteration be rel blkno w)).
Proof.
  intros [p H]. unfold between_pages, btree_pages_iteration,
    CHECK_FOR_INTERRUPTS, ReadBuffer.
  mrun. destruct (QueryCancelPending be (polls w)); [discipline H|].
  split_if; [|discipline H].
  destruct (rd_blocks rel !! _); [|discipline H].
  mrun. split_if; [discipline H|].
  split_if; discipline H.
Qed.

Lemma for_blocks_discipline s0 (body : Z -> M unit) :
  (forall blkno w, between_pages s0 w ->
                   between_pages s0 (snd (body blkno w))) ->
  forall count blkno w,
    between_pages s0 w ->
    between_pages s0 (snd (for_blocks body blkno count w)).
Proof.
  intros Hbody. induction count as [|count IH]; intros blkno w Hw; [done|].
  simpl. specialize (Hbody blkno w Hw). unfold mbind, M_bind.
  destruct (body blkno w) as [[[]| | |] w1]; simpl in *; auto.
Qed.

Lemma undo_page_records_world fuel page blkno endptr ptr n firstptr lastptr w :
  snd (undo_page_records be fuel page blkno endptr ptr n firstptr lastptr w)
  = w.
Proof.
  revert ptr n firstptr lastptr.
  induction fuel as [|fuel IH]; intros ptr n firstptr lastptr; simpl;
    destruct (ptr <? endptr); try done.
  unfold Assert, mbind, M_bind.
  destruct (USE_ASSERT_CHECKING be && negb _); [done|].
  simpl. specialize (IH (ptr + ZSUndoRec.size (undorec_at page ptr))
                        (to_int32 (n + 1))
                        (if n =? 0
                         then ZSUndoRec.undorecptr (undorec_at page ptr)
                         else firstptr)
                        (ZSUndoRec.undorecptr (undorec_at page ptr))).
  destruct (undo_page_records _ _ _ _ _ _ _ _ _ _) as [[] ?]; by simpl in *.
Qed.

Lemma undo_walk_discipline s0 rel fuel rec_fuel blkno w :
  between_pages s0 w ->
  is_Some (scan_run s0 (trace (snd (undo_walk be fuel rec_fuel rel blkno w)))).
Proof.
  revert blkno w. induction fuel as [|fuel IH]; intros blkno w [p H]; simpl.
  - destruct (blkno =? InvalidBlockNumber); mrun; rewrite H; eauto.
  - destruct (blkno =? InvalidBlockNumber); [mrun; rewrite H; eauto|].
    unfold CHECK_FOR_INTERRUPTS, ReadBuffer. mrun.
    destruct (QueryCancelPending be (polls w)); [discipline H|].
    split_if; [|discipline H].
    destruct (rd_blocks rel !! _) as [page|]; [|discipline H].
    mrun. split_if; [discipline H|].
    match goal with
    | |- context [undo_page_records be ?f ?pg ?b ?e ?p0 ?n ?fp ?lp ?w0] =>
        pose proof (undo_page_records_world f pg b e p0 n fp lp w0) as Hw;
        destruct (undo_page_records be f pg b e p0 n fp lp w0) as [[[[]]| | |] w1]
    end; simpl in Hw; subst w1; simpl; try discipline H.
    apply IH. exists false. discipline H.
Qed.

Lemma CHECK_FOR_INTERRUPTS_cancels w :
  QueryCancelPending be (polls w) = true ->
  CHECK_FOR_INTERRUPTS be w
  = (Raised ERRCODE_QUERY_CANCELED "canceling statement due to user request",
     mkWorld (trace w ++ [EvCheckForInterrupts]) (tupstore w) (S (polls w))).
Proof. intros E. unfold CHECK_FOR_INTERRUPTS. by rewrite E. Qed.

(** A cancel request that is pending when an iteration begins ends the scan
    at the poll: the page of the iteration is not read. *)
Lemma iteration_cancelled rel blkno w :
  QueryCancelPending be (polls w) = true ->
  let cancelled :=
    (Raised ERRCODE_QUERY_CANCELED "canceling statement due to user request",
     mkWorld (trace w ++ [EvCheckForInterrupts]) (tupstore w) (S (polls w))) in
  btree_pages_iteration be rel blkno w = cancelled
  /\ toast_pages_iteration be rel blkno w = cancelled
  /\ forall fuel rec_fuel,
       blkno <> InvalidBlockNumber ->
       undo_walk be (S fuel) rec_fuel rel blkno w = cancelled.
Proof.
  intros E cancelled. repeat split.
  - unfold btree_pages_iteration.
    by erewrite bind_raised by (by apply CHECK_FOR_INTERRUPTS_cancels).
  - unfold toast_pages_iteration.
    by erewrite bind_raised by (by apply CHECK_FOR_INTERRUPTS_cancels).
  - intros fuel rec_fuel Hvalid. simpl.
    apply Z.eqb_neq in Hvalid. rewrite Hvalid.
    by erewrite bind_raised by (by apply CHECK_FOR_INTERRUPTS_cancels).
Qed.

(** C7.  In the full-relation scans of [pg_zs_btree_pages] and
    [pg_zs_toast_pages] and in the undo-chain walk of [pg_zs_undo_pages],
    whatever the caller, the relation and the pending interrupts are, the
    trace obeys the scan discipline: every page read of the loop comes
    right after a poll of [CHECK_FOR_INTERRUPTS], and every poll happens
    while no buffer is pinned or locked.  (The one page read outside the
    loops, of the metapage by [pg_zs_undo_pages], is the prelude.)  The two
    physical scans moreover end with no buffer locked. *)
Theorem scans_poll_between_pages fuel fcinfo relid :
  between_pages (Unlocked false)
    (snd (pg_zs_btree_pages be fcinfo relid initial_world))
  /\ between_pages (Unlocked false)
       (snd (pg_zs_toast_pages be fcinfo relid initial_world))
  /\ is_Some (scan_run Prelude
                (trace (snd (pg_zs_undo_pages be fuel fcinfo relid
                               initial_world)))).
Proof.
  refine (conj _ (conj _ _)).
  - unfold pg_zs_btree_pages, require_superuser, check_rsinfo,
      require_composite_result, table_open, reject_other_temp.
    mrun.
    repeat match goal with
           | |- context [if ?b then _ else _] => destruct b; simpl
           | |- context [match ?o with Some _ => _ | None => _ end] =>
               destruct o; simpl
           end; try (by exists false).
    match goal with
    | |- context [for_blocks ?body ?b ?c ?w] =>
        pose proof (for_blocks_discipline (Unlocked false) body
                      (btree_iteration_discipline _ _) c b w) as Hloop;
        destruct (for_blocks body b c w) as [[[]| | |] w1]
    end; simpl in *;
      destruct Hloop as [p Hp]; try (by exists false);
      exists p; discipline Hp.
  - unfold pg_zs_toast_pages, require_superuser, check_rsinfo,
      require_composite_result, table_open, reject_other_temp.
    mrun.
    repeat match goal with
           | |- context [if ?b then _ else _] => destruct b; simpl
           | |- context [match ?o with Some _ => _ | None => _ end] =>
               destruct o; simpl
           end; try (by exists false).
    match goal with
    | |- context [for_blocks ?body ?b ?c ?w] =>
        pose proof (for_blocks_discipline (Unlocked false) body
                      (toast_iteration_discipline _ _) c b w) as Hloop;
        destruct (for_blocks body b c w) as [[[]| | |] w1]
    end; simpl in *;
      destruct Hloop as [p Hp]; try (by exists false);
      exists p; discipline Hp.
  - unfold pg_zs_undo_pages, require_superuser, check_rsinfo,
      require_composite_result, table_open, reject_other_temp, ReadBuffer.
    mrun.
    repeat match goal with
           | |- context [if ?b then _ else _] => destruct b; simpl
           | |- context [match ?o with Some _ => _ | None => _ end] =>
               destruct o; simpl
           end; try (by eexists).
    match goal with
    | |- context [undo_walk be ?f ?rf ?r ?b ?w] =>
        assert (between_pages Prelude w) as Hw;
        [exists false; unfold scan_run; simpl;
         repeat (rewrite Z.eqb_refl; simpl); done|];
        pose proof (undo_walk_discipline Prelude r f rf b w Hw) as [s Hs];
        destruct (undo_walk be f rf r b w) as [[[]| | |] w1]
    end; simpl in *; try (by eexists).
    exists s. discipline Hs.
Qed.

(** ** The physical scans *)

Lemma to_int64_small x : - 2 ^ 63 <= x < 2 ^ 63 -> to_int64 x = x.
Proof.
  intros H. unfold to_int64, wrap_signed.
  change (2 ^ (64 - 1)) with (2 ^ 63). rewrite Z.mod_small; lia.
Qed.

Lemma to_int32_small x : - 2 ^ 31 <= x < 2 ^ 31 -> to_int32 x = x.
Proof.
  intros H. unfold to_int32, wrap_signed.
  change (2 ^ (32 - 1)) with (2 ^ 31). rewrite Z.mod_small; lia.
Qed.

Lemma btree_page_row_blkno blkno page :
  column (btree_page_row blkno page) 0 = Some (Int64GetDatum blkno).
Proof.
  unfold btree_page_row.
  destruct (btree_page_stats page) as [[[nitems ncompressed] totalsz] uncsz].
  by destruct (ZSBtreePageOpaque.zs_level (as_ZSBtreePageOpaque page) =? 0).
Qed.

Lemma toast_page_row_blkno blkno page :
  column (toast_page_row blkno page) 0 = Some (Int64GetDatum blkno).
Proof. done. Qed.

Lemma btree_iteration_run rel blkno page w :
  QueryCancelPending be (polls w) = false ->
  0 <= blkno ->
  rd_blocks rel !! Z.to_nat blkno = Some page ->
  btree_pages_iteration be rel blkno w
  = (Returned tt,
     mkWorld (trace w ++ page_visit blkno)
       (tupstore w
        ++ if is_btree_page page then [btree_page_row blkno page] else [])
       (S (polls w))).
Proof.
  intros Hpoll Hpos Hpage. unfold btree_pages_iteration.
  erewrite bind_returned by (by apply CHECK_FOR_INTERRUPTS_ok).
  erewrite bind_returned by (by apply ReadBuffer_ok).
  unfold is_btree_page. mrun.
  destruct (PageGetSpecialSize page =? _); simpl;
    [destruct (ZSBtreePageOpaque.zs_page_id _ =? _); simpl|];
    mrun; by rewrite <- !app_assoc, ?app_nil_r.
Qed.

Lemma toast_iteration_run rel blkno page w :
  QueryCancelPending be (polls w) = false ->
  0 <= blkno ->
  rd_blocks rel !! Z.to_nat blkno = Some page ->
  toast_pages_iteration be rel blkno w
  = (Returned tt,
     mkWorld (trace w ++ page_visit blkno)
       (tupstore w
        ++ if is_toast_page page then [toast_page_row blkno page] else [])
       (S (polls w))).
Proof.
  intros Hpoll Hpos Hpage. unfold toast_pages_iteration.
  erewrite bind_returned by (by apply CHECK_FOR_INTERRUPTS_ok).
  erewrite bind_returned by (by apply ReadBuffer_ok).
  unfold is_toast_page, toast_page_row. mrun.
  destruct (PageGetSpecialSize page =? _); simpl;
    [destruct (ZSToastPageOpaque.zs_page_id _ =? _); simpl|];
    mrun; rewrite <- !app_assoc, ?app_nil_r; try done.
  by destruct (ZSToastPageOpaque.zs_tid _ =? 0).
Qed.

(** A loop whose body visits one page and stores the row of a wanted page
    visits the pages in order and stores the rows of [scan_rows]. *)
Lemma for_blocks_run rel (body : Z -> M unit) (wanted : Page -> bool)
    (row : Z -> Page -> HeapTuple) :
  (forall blkno page w,
      0 <= blkno ->
      rd_blocks rel !! Z.to_nat blkno = Some page ->
      body blkno w
      = (Returned tt,
         mkWorld (trace w ++ page_visit blkno)
           (tupstore w ++ if wanted page then [row blkno page] else [])
           (S (polls w)))) ->
  forall pages before w,
    rd_blocks rel = (before ++ pages)%list ->
    for_blocks body (Z.of_nat (length before)) (length pages) w
    = (Returned tt,
       mkWorld
         (trace w ++ scan_events (Z.of_nat (length before)) (length pages))
         (tupstore w
          ++ scan_rows wanted row (Z.of_nat (length before)) pages)
         (polls w + length pages)%nat).
Proof.
  intros Hbody.
  induction pages as [|page pages IH]; intros before w Hblocks; simpl.
  - mrun. rewrite !app_nil_r, Nat.add_0_r. by destruct w.
  - erewrite bind_returned; cycle 1.
    { apply (Hbody _ page); [lia|].
      rewrite Nat2Z.id, Hblocks. by apply list_lookup_middle. }
    specialize (IH (before ++ [page])%list).
    rewrite length_app, Nat2Z.inj_add in IH. simpl in IH.
    rewrite IH by (by rewrite <- app_assoc). simpl.
    f_equal. f_equal; [by rewrite <- !app_assoc | by rewrite <- !app_assoc | lia].
Qed.

Lemma pages_read_scan_events blkno count :
  pages_read (scan_events blkno count) = seqZ blkno (Z.of_nat count).
Proof.
  revert blkno. induction count as [|count IH]; intros blkno; [done|].
  rewrite seqZ_cons by lia. simpl. rewrite IH. f_equal. f_equal; lia.
Qed.

Lemma warnings_scan_events blkno count : warnings (scan_events blkno count) = [].
Proof. revert blkno. induction count; intros; simpl; auto. Qed.

Lemma scan_rows_blocks (wanted : Page -> bool) (row : Z -> Page -> HeapTuple) :
  (forall blkno page, column (row blkno page) 0 = Some (Int64GetDatum blkno)) ->
  forall pages blkno,
    1 <= blkno ->
    blkno + Z.of_nat (length pages) <= 2 ^ 32 ->
    Forall (fun t => exists b, column t 0 = Some (DInt b) /\ 1 <= b)
           (scan_rows wanted row blkno pages).
Proof.
  intros Hrow. induction pages as [|page pages IH]; intros blkno H1 H2;
    simpl in *; [constructor|].
  apply Forall_app. split; [|apply IH; lia].
  destruct (wanted page); constructor; [|constructor].
  exists blkno. rewrite Hrow. unfold Int64GetDatum.
  rewrite to_int64_small by lia. done.
Qed.

(** The physical scan of an accepted call, for either kind of page. *)
Lemma physical_scan_run (iteration : Relation -> Z -> M unit)
    (wanted : Page -> bool) (row : Z -> Page -> HeapTuple) fcinfo relid rel :
  (forall blkno page w,
      QueryCancelPending be (polls w) = false ->
      0 <= blkno ->
      rd_blocks rel !! Z.to_nat blkno = Some page ->
      iteration rel blkno w
      = (Returned tt,
         mkWorld (trace w ++ page_visit blkno)
           (tupstore w ++ if wanted page then [row blkno page] else [])
           (S (polls w)))) ->
  call_accepted be relid rel ->
  srf_context_ok fcinfo ->
  (require_superuser be ;;
   check_rsinfo fcinfo ;;
   require_composite_result fcinfo ;;
   tuplestore_begin_heap ;;
   rel ← table_open be relid;
   reject_other_temp rel ;;
   let nblocks := RelationGetNumberOfBlocks rel in
   for_blocks (iteration rel) 1 (Z.to_nat (nblocks - 1)) ;;
   table_close rel ;;
   mret RetSet) initial_world
  = (Returned RetSet,
     mkWorld
       (EvTableOpen relid
        :: scan_events 1 (length (drop 1 (rd_blocks rel)))
        ++ [EvTableClose (rd_id rel)])
       (scan_rows wanted row 1 (drop 1 (rd_blocks rel)))
       (length (drop 1 (rd_blocks rel)))).
Proof.
  intros Hbody (Hsu & Hcat & Htemp & Hpoll) Hctx.
  erewrite bind_returned by (by apply require_superuser_ok).
  erewrite bind_returned by (by apply check_rsinfo_ok).
  erewrite bind_returned by (by apply require_composite_result_ok).
  erewrite bind_returned by reflexivity.
  erewrite bind_returned by (by apply table_open_ok).
  erewrite bind_returned by (by apply reject_other_temp_ok).
  simpl. unfold RelationGetNumberOfBlocks.
  destruct (rd_blocks rel) as [|page0 pages] eqn:Hblocks.
  - simpl. by mrun.
  - replace (Z.to_nat (Z.of_nat (length (page0 :: pages)) - 1))
      with (length pages) by (simpl; lia).
    erewrite bind_returned; cycle 1.
    { apply (for_blocks_run rel _ wanted row) with (before := [page0]);
        [|done].
      intros. apply Hbody; auto. by rewrite <- Hblocks. }
    simpl. mrun. by rewrite drop_0.
Qed.

(** C9.  For a call that is accepted, each of the two full-relation scans
    returns normally and stores exactly one row for every page after
    block 0 that has the special size and the page id of the wanted kind,
    in block order.  Every stored row carries a block number of at least 1
    (block 0 is never visited), and the pages of another size or id leave
    nothing behind: no row, no WARNING, no ERROR. *)
Theorem physical_scans_skip_other_pages fcinfo relid rel :
  call_accepted be relid rel ->
  srf_context_ok fcinfo ->
  Z.of_nat (length (rd_blocks rel)) < 2 ^ 32 ->
  let rb := pg_zs_btree_pages be fcinfo relid initial_world in
  let rt := pg_zs_toast_pages be fcinfo relid initial_world in
  (fst rb = Returned RetSet
   /\ tupstore (snd rb)
      = scan_rows is_btree_page btree_page_row 1 (drop 1 (rd_blocks rel))
   /\ pages_read (trace (snd rb))
      = seqZ 1 (Z.of_nat (length (drop 1 (rd_blocks rel))))
   /\ warnings (trace (snd rb)) = []
   /\ Forall (fun t => exists b, column t 0 = Some (DInt b) /\ 1 <= b)
        (tupstore (snd rb)))
  /\ (fst rt = Returned RetSet
      /\ tupstore (snd rt)
         = scan_rows is_toast_page toast_page_row 1 (drop 1 (rd_blocks rel))
      /\ pages_read (trace (snd rt))
         = seqZ 1 (Z.of_nat (length (drop 1 (rd_blocks rel))))
      /\ warnings (trace (snd rt)) = []
      /\ Forall (fun t => exists b, column t 0 = Some (DInt b) /\ 1 <= b)
           (tupstore (snd rt))).
Proof.
  intros Hcall Hctx Hsize rb rt.
  assert (1 + Z.of_nat (length (drop 1 (rd_blocks rel))) <= 2 ^ 32) as Hlen.
  { rewrite length_drop. lia. }
  split.
  - subst rb. unfold pg_zs_btree_pages.
    rewrite (physical_scan_run (btree_pages_iteration be) is_btree_page
               btree_page_row fcinfo relid rel) by
      (try done; intros; by apply btree_iteration_run).
    simpl. repeat split.
    + by rewrite pages_read_app, app_nil_r, pages_read_scan_events.
    + by rewrite warnings_app, warnings_scan_events.
    + apply scan_rows_blocks; [apply btree_page_row_blkno | lia | done].
  - subst rt. unfold pg_zs_toast_pages.
    rewrite (physical_scan_run (toast_pages_iteration be) is_toast_page
               toast_page_row fcinfo relid rel) by
      (try done; intros; by apply toast_iteration_run).
    simpl. repeat split.
    + by rewrite pages_read_app, app_nil_r, pages_read_scan_events.
    + by rewrite warnings_app, warnings_scan_events.
    + apply scan_rows_blocks; [apply toast_page_row_blkno | lia | done].
Qed.

(** ** The row of a B-tree page *)

Lemma scan_rows_length (wanted : Page -> bool) (row : Z -> Page -> HeapTuple)
    pages blkno :
  length (scan_rows wanted row blkno pages)
  = length (List.filter wanted pages).
Proof.
  revert blkno. induction pages as [|page pages IH]; intros blkno; [done|].
  simpl. rewrite length_app, IH. by destruct (wanted page).
Qed.

Lemma scan_rows_lookup (wanted : Page -> bool) (row : Z -> Page -> HeapTuple)
    pages blkno (i : nat) page :
  pages !! i = Some page ->
  wanted page = true ->
  row (blkno + Z.of_nat i) page ∈ scan_rows wanted row blkno pages.
Proof.
  revert blkno i. induction pages as [|page0 pages IH]; intros blkno i Hi Hw;
    [done|].
  simpl. apply elem_of_app. destruct i as [|i]; simpl in Hi.
  - left. injection Hi as ->. rewrite Hw, Z.add_0_r. apply list_elem_of_here.
  - right. replace (blkno + Z.of_nat (S i)) with (blkno + 1 + Z.of_nat i)
      by lia.
    by apply IH.
Qed.

(** The columns of the row built for a B-tree page. *)
Lemma btree_page_row_columns blkno page :
  let opaque := as_ZSBtreePageOpaque page in
  let row := btree_page_row blkno page in
  let '(nitems, ncompressed, totalsz, uncompressedsz) :=
    btree_page_stats page in
  length (t_values row) = 11%nat
  /\ column row 0 = Some (Int64GetDatum blkno)
  /\ column row 1 = Some (Int64GetDatum (ZSBtreePageOpaque.zs_next opaque))
  /\ column row 2 = Some (Int32GetDatum (ZSBtreePageOpaque.zs_attno opaque))
  /\ column row 3 = Some (Int32GetDatum (ZSBtreePageOpaque.zs_level opaque))
  /\ column row 4 = Some (Int64GetDatum (ZSBtreePageOpaque.zs_lokey opaque))
  /\ column row 5 = Some (Int64GetDatum (ZSBtreePageOpaque.zs_hikey opaque))
  /\ column row 6 = Some (Int32GetDatum nitems)
  /\ column row 10 = Some (Int32GetDatum (PageGetExactFreeSpace page))
  /\ (ZSBtreePageOpaque.zs_level opaque = 0 ->
      column row 7 = Some (Int32GetDatum ncompressed)
      /\ column row 8 = Some (Int32GetDatum totalsz)
      /\ column row 9 = Some (Int32GetDatum uncompressedsz))
  /\ (ZSBtreePageOpaque.zs_level opaque <> 0 ->
      column row 7 = None /\ column row 8 = None /\ column row 9 = None).
Proof.
  intros opaque row. subst row. unfold btree_page_row. fold opaque.
  destruct (btree_page_stats page) as [[[nitems ncompressed] totalsz] uncsz].
  destruct (Z.eqb_spec (ZSBtreePageOpaque.zs_level opaque) 0) as [E|E];
    unfold column; simpl; repeat split; intros; done.
Qed.

(** *** The statistics loops against the page itself *)

Lemma to_int32_add_l a b : to_int32 (to_int32 a + b) = to_int32 (a + b).
Proof.
  unfold to_int32, wrap_signed. change (2 ^ (32 - 1)) with (2 ^ 31).
  f_equal.
  replace ((a + 2 ^ 31) mod 2 ^ 32 - 2 ^ 31 + b + 2 ^ 31)
    with ((a + 2 ^ 31) mod 2 ^ 32 + b) by lia.
  rewrite Zplus_mod_idemp_l. f_equal. lia.
Qed.

(** On a page with a sane header the two tests that [pg_zs_btree_pages]
    makes in [size_t] arithmetic find exactly the streams the header
    shows. *)
Lemma leaf_streams_present page :
  page_header_sane page -> leaf_streams page = streams_present page.
Proof.
  intros (Hhdr & Hlower & Hupper & Hspecial).
  unfold leaf_streams, streams_present, lower_stream_present,
    upper_stream_present, to_size_t, wrap_unsigned.
  rewrite (Z.mod_small (pd_lower page - SizeOfPageHeaderData)) by lia.
  rewrite (Z.mod_small (pd_special page - pd_upper page)) by lia.
  destruct (Z.gtb_spec (pd_lower page - SizeOfPageHeaderData)
              SizeOfZSAttStreamHeader),
    (Z.ltb_spec (SizeOfPageHeaderData + SizeOfZSAttStreamHeader)
       (pd_lower page)); try lia;
    destruct (Z.gtb_spec (pd_special page - pd_upper page)
                SizeOfZSAttStreamHeader),
      (Z.ltb_spec (pd_upper page + SizeOfZSAttStreamHeader)
         (pd_special page)); try lia; reflexivity.
Qed.

(** The stream loop: its four accumulators hold, in 32-bit arithmetic, the
    number of the streams, the number of the compressed ones, and the sums
    of their encoded and of their decoded sizes. *)
Lemma attribute_leaf_streams_sums streams :
  forall n c t u,
    let r := attribute_leaf_streams streams n c t u in
    to_int32 r.1.1.1 = to_int32 (n + Z.of_nat (length streams))
    /\ to_int32 r.1.1.2
       = to_int32 (c + Z.of_nat (length (List.filter stream_is_compressed
                                           streams)))
    /\ to_int32 r.1.2
       = to_int32 (t + sumZ (map ZSAttStream.t_size streams))
    /\ to_int32 r.2
       = to_int32
           (u + sumZ (map (fun stream =>
                             if stream_is_compressed stream
                             then ZSAttStream.t_decompressed_size stream
                             else ZSAttStream.t_size stream)
                        streams)).
Proof.
  induction streams as [|stream streams IH]; intros n c t u.
  { simpl. by rewrite !Z.add_0_r. }
  cbn [attribute_leaf_streams List.filter map length sumZ foldr]. cbv zeta.
  change (negb (Z.land (ZSAttStream.t_flags stream) ATTSTREAM_COMPRESSED
                =? 0)) with (stream_is_compressed stream).
  destruct (stream_is_compressed stream); cbn [length].
  - destruct (IH (to_int32 (n + 1)) (to_int32 (c + 1))
                (to_int32 (t + ZSAttStream.t_size stream))
                (to_int32 (u + ZSAttStream.t_decompressed_size stream)))
      as (Hn & Hc & Ht & Hu).
    rewrite Hn, Hc, Ht, Hu, !to_int32_add_l. cbn [length].
    unfold sumZ. repeat split; f_equal; lia.
  - destruct (IH (to_int32 (n + 1)) c
                (to_int32 (t + ZSAttStream.t_size stream))
                (to_int32 (u + ZSAttStream.t_size stream)))
      as (Hn & Hc & Ht & Hu).
    rewrite Hn, Hc, Ht, Hu, !to_int32_add_l.
    unfold sumZ. repeat split; f_equal; lia.
Qed.

(** The item loop: the number of the items and, twice, the sum of their
    sizes. *)
Lemma meta_leaf_items_sums page count :
  forall off n t u,
    let r := meta_leaf_items page off count n t u in
    let sizes :=
      sumZ (map ZSTidArrayItem.t_size
              (map (item_at page) (seqZ off (Z.of_nat count)))) in
    to_int32 r.1.1 = to_int32 (n + Z.of_nat count)
    /\ to_int32 r.1.2 = to_int32 (t + sizes)
    /\ to_int32 r.2 = to_int32 (u + sizes).
Proof.
  induction count as [|count IH]; intros off n t u.
  { simpl. by rewrite !Z.add_0_r. }
  cbn [meta_leaf_items]. cbv zeta.
  rewrite (seqZ_cons off) by lia.
  replace (Z.pred (Z.of_nat (S count))) with (Z.of_nat count) by lia.
  replace (Z.succ off) with (off + 1) by lia.
  cbn [map sumZ foldr].
  fold (sumZ (map ZSTidArrayItem.t_size
                (map (item_at page) (seqZ (off + 1) (Z.of_nat count))))).
  destruct (IH (off + 1) (to_int32 (n + 1))
              (to_int32 (t + ZSTidArrayItem.t_size (item_at page off)))
              (to_int32 (u + ZSTidArrayItem.t_size (item_at page off))))
    as (Hn & Ht & Hu).
  rewrite Hn, Ht, Hu, !to_int32_add_l.
  repeat split; f_equal; lia.
Qed.

Lemma items_present_length page :
  length (items_present page)
  = Z.to_nat (PageGetMaxOffsetNumber page - FirstOffsetNumber + 1).
Proof. unfold items_present. by rewrite length_map, length_seqZ. Qed.

(** What the [if (opaque->zs_level == 0) ... else ...] computes is, in
    32-bit arithmetic, what the page holds. *)
Lemma btree_page_stats_contents page :
  let opaque := as_ZSBtreePageOpaque page in
  (ZSBtreePageOpaque.zs_level opaque = 0 ->
   ZSBtreePageOpaque.zs_attno opaque <> ZS_META_ATTRIBUTE_NUM ->
   page_header_sane page) ->
  let '(nitems, ncompressed, totalsz, uncompressedsz) :=
    btree_page_stats page in
  to_int32 nitems = to_int32 (page_item_count page)
  /\ (ZSBtreePageOpaque.zs_level opaque = 0 ->
      to_int32 ncompressed = to_int32 (leaf_compressed_count page)
      /\ to_int32 totalsz = to_int32 (leaf_encoded_size page)
      /\ to_int32 uncompressedsz = to_int32 (leaf_decoded_size page)).
Proof.
  intros opaque Hsane.
  unfold btree_page_stats, page_item_count, leaf_compressed_count,
    leaf_encoded_size, leaf_decoded_size, is_meta_tree.
  fold opaque.
  destruct (Z.eqb_spec (ZSBtreePageOpaque.zs_level opaque) 0) as [E|E].
  - destruct (Z.eqb_spec (ZSBtreePageOpaque.zs_attno opaque)
                ZS_META_ATTRIBUTE_NUM) as [A|A].
    + pose proof (meta_leaf_items_sums page
                    (Z.to_nat (PageGetMaxOffsetNumber page
                               - FirstOffsetNumber + 1))
                    FirstOffsetNumber 0 0 0) as H.
      destruct (meta_leaf_items _ _ _ _ _ _) as [[n t] u].
      cbv zeta in H. simpl in H. destruct H as (Hn & Ht & Hu).
      rewrite items_present_length. unfold items_present, seqZ.
      unfold seqZ in Ht, Hu. rewrite Nat2Z.id in Ht, Hu.
      rewrite Hn, Ht, Hu. done.
    + rewrite (leaf_streams_present page) by auto.
      pose proof (attribute_leaf_streams_sums (streams_present page)
                    0 0 0 0) as H.
      destruct (attribute_leaf_streams _ _ _ _ _) as [[[n c] t] u].
      cbv zeta in H. simpl in H. destruct H as (Hn & Hc & Ht & Hu).
      rewrite Hn, Hc, Ht, Hu. done.
  - split; [|done].
    pose proof (to_int32_add_l (ZSBtreeInternalPageGetNumItems page) 0) as H.
    by rewrite !Z.add_0_r in H.
Qed.

(** C5.  An accepted call of [pg_zs_btree_pages] stores as many rows as
    there are B-tree pages after block 0, and for each such page the row
    built from it.  Columns 0 to 5 and 10 of that row hold the block
    number, the successor block, the attribute number, the level, the low
    key, the high key and the free space.  Column 6 holds the item count of
    the page itself: the number of entries of an internal page, of items of
    a meta leaf, of streams that the page header shows on an attribute
    leaf.  Columns 7, 8 and 9 hold the leaf's statistics (how many of its
    streams are compressed, the sum of the encoded sizes, the sum of the
    decoded sizes) when the page is a leaf and are SQL NULL when it is
    not: they are populated exactly when the level is 0.  The counts and
    sums are reported as 32-bit integers.  The page header of an attribute
    leaf is taken to be sane. *)
Theorem btree_row_columns fcinfo relid rel blkno page :
  call_accepted be relid rel ->
  srf_context_ok fcinfo ->
  1 <= blkno ->
  rd_blocks rel !! Z.to_nat blkno = Some page ->
  is_btree_page page = true ->
  let opaque := as_ZSBtreePageOpaque page in
  (ZSBtreePageOpaque.zs_level opaque = 0 ->
   ZSBtreePageOpaque.zs_attno opaque <> ZS_META_ATTRIBUTE_NUM ->
   page_header_sane page) ->
  let rows :=
    tupstore (snd (pg_zs_btree_pages be fcinfo relid initial_world)) in
  length rows = length (List.filter is_btree_page (drop 1 (rd_blocks rel)))
  /\ exists row,
       row ∈ rows
       /\ length (t_values row) = 11%nat
       /\ column row 0 = Some (Int64GetDatum blkno)
       /\ column row 1 = Some (Int64GetDatum (ZSBtreePageOpaque.zs_next opaque))
       /\ column row 2
          = Some (Int32GetDatum (ZSBtreePageOpaque.zs_attno opaque))
       /\ column row 3
          = Some (Int32GetDatum (ZSBtreePageOpaque.zs_level opaque))
       /\ column row 4
          = Some (Int64GetDatum (ZSBtreePageOpaque.zs_lokey opaque))
       /\ column row 5
          = Some (Int64GetDatum (ZSBtreePageOpaque.zs_hikey opaque))
       /\ column row 6 = Some (Int32GetDatum (page_item_count page))
       /\ column row 10 = Some (Int32GetDatum (PageGetExactFreeSpace page))
       /\ (ZSBtreePageOpaque.zs_level opaque = 0 ->
           column row 7 = Some (Int32GetDatum (leaf_compressed_count page))
           /\ column row 8 = Some (Int32GetDatum (leaf_encoded_size page))
           /\ column row 9 = Some (Int32GetDatum (leaf_decoded_size page)))
       /\ (ZSBtreePageOpaque.zs_level opaque <> 0 ->
           column row 7 = None /\ column row 8 = None /\ column row 9 = None)
       /\ (is_Some (column row 7) <-> ZSBtreePageOpaque.zs_level opaque = 0)
       /\ (is_Some (column row 8) <-> ZSBtreePageOpaque.zs_level opaque = 0)
       /\ (is_Some (column row 9) <-> ZSBtreePageOpaque.zs_level opaque = 0).
Proof.
  intros Hcall Hctx Hpos Hpage Hkind opaque Hsane rows. subst rows.
  unfold pg_zs_btree_pages.
  rewrite (physical_scan_run (btree_pages_iteration be) is_btree_page
             btree_page_row fcinfo relid rel) by
    (try done; intros; by apply btree_iteration_run).
  simpl tupstore.
  pose proof (btree_page_row_columns blkno page) as Hcols.
  pose proof (btree_page_stats_contents page Hsane) as Hstats.
  simpl in Hcols. fold opaque in Hcols, Hstats.
  destruct (btree_page_stats page) as [[[nitems ncompressed] totalsz] uncsz].
  destruct Hstats as [Hn Hleaf].
  split; [apply scan_rows_length|].
  exists (btree_page_row blkno page).
  destruct Hcols as (C & C0 & C1 & C2 & C3 & C4 & C5 & C6 & C10 & Cl & Cn).
  unfold Int32GetDatum in C6 |- *. rewrite Hn in C6.
  split.
  { replace blkno with (1 + Z.of_nat (Z.to_nat blkno - 1)) at 1 by lia.
    apply scan_rows_lookup; [|done].
    rewrite lookup_drop. by replace (1 + (Z.to_nat blkno - 1))%nat
      with (Z.to_nat blkno) by lia. }
  repeat (split; [assumption|]).
  destruct (Z.eq_dec (ZSBtreePageOpaque.zs_level opaque) 0) as [E|E].
  - destruct (Cl E) as (C7 & C8 & C9).
    destruct (Hleaf E) as (Hc & Ht & Hu).
    unfold Int32GetDatum in C7, C8, C9. rewrite Hc in C7. rewrite Ht in C8.
    rewrite Hu in C9. rewrite C7, C8, C9.
    repeat split; intros; try done; by eexists.
  - destruct (Cn E) as (-> & -> & ->).
    repeat split; intros; try done;
      match goal with H : is_Some None |- _ => by destruct H end.
Qed.

(** ** The item count of a leaf *)



Lemma leaf_streams_length page : (length (leaf_streams page) <= 2)%nat.
Proof. unfold leaf_streams. do 2 split_if; simpl; lia. Qed.


(** ** The undo walk *)

(** On a page whose records are packed, the record loop returns their
    number and the pointers of the first and the last of them. *)
Lemma undo_page_records_run page blkno recs :
  forall fuel ptr n firstptr lastptr w,
    packed_records page ptr recs ->
    (USE_ASSERT_CHECKING be = true -> records_on_block blkno recs) ->
    (length recs <= fuel)%nat ->
    0 <= n ->
    n + Z.of_nat (length recs) < 2 ^ 31 ->
    undo_page_records be fuel page blkno (pd_lower page) ptr n firstptr
      lastptr w
    = (Returned
         (n + Z.of_nat (length recs),
          if n =? 0 then from_option ZSUndoRec.undorecptr firstptr (head recs)
          else firstptr,
          from_option ZSUndoRec.undorecptr lastptr (last recs)),
       w).
Proof.
  induction recs as [|r recs IH];
    intros fuel ptr n firstptr lastptr w Hpacked Hblk Hfuel Hn Hmax;
    inversion Hpacked as [? Hptr | ? ? Hptr Hsize Hrest]; subst; simpl in *.
  - apply Z.ltb_ge in Hptr.
    destruct fuel; simpl; rewrite Hptr; mrun;
      rewrite Z.add_0_r; by destruct (n =? 0).
  - destruct fuel as [|fuel]; [lia|]. simpl.
    apply Z.ltb_lt in Hptr. rewrite Hptr.
    assert (Assert be
              (ZSUndoRecPtr.blkno
                 (ZSUndoRec.undorecptr (undorec_at page ptr)) =? blkno) w
            = (Returned tt, w)) as HA.
    { unfold Assert. destruct (USE_ASSERT_CHECKING be); [|done].
      specialize (Hblk eq_refl). apply Forall_cons in Hblk as [Hr _].
      rewrite Hr, Z.eqb_refl. done. }
    erewrite bind_returned by exact HA.
    rewrite to_int32_small by lia.
    rewrite IH; try done; try lia.
    + replace (n + 1 =? 0) with false by (symmetry; apply Z.eqb_neq; lia).
      replace (n + 1 + Z.of_nat (length recs))
        with (n + Z.of_nat (S (length recs))) by lia.
      do 3 f_equal. destruct recs as [|r' recs']; [done|].
      change (last (undorec_at page ptr :: r' :: recs'))
        with (last (r' :: recs')).
      destruct (last (r' :: recs')) eqn:E; [done|].
      by apply last_None in E.
    + intros HU. specialize (Hblk HU). by apply Forall_cons in Hblk as [_ ?].
Qed.

Lemma packed_records_length page ptr recs :
  packed_records page ptr recs ->
  ptr + Z.of_nat (length recs) <= Z.max ptr (pd_lower page).
Proof.
  induction 1 as [ptr H | ptr recs Hlt Hsize Hrest IH]; simpl; lia.
Qed.

(** The walk over a chain: what it returns and what it leaves behind. *)
Lemma undo_walk_run rel :
  (forall n, QueryCancelPending be n = false) ->
  forall blkno chain stop,
    undo_chain be rel blkno chain stop ->
    forall fuel rec_fuel w,
      (length chain < fuel)%nat ->
      Forall (fun '(_, _, recs) => (length recs <= rec_fuel)%nat) chain ->
      undo_walk be fuel rec_fuel rel blkno w
      = (Returned tt,
         mkWorld (trace w ++ undo_walk_events chain stop)
           (tupstore w ++ undo_chain_rows chain)
           (polls w + length chain
            + match stop with Some _ => 1 | None => 0 end)%nat).
Proof.
  intros Hpoll blkno chain stop Hchain.
  induction Hchain as
    [ | blkno page Hvalid Hpos Hpage Hid
      | blkno page recs rest stop Hvalid Hpos Hpage Hid Hlower Hhdr Hpacked
          Hblk Hrest IH ];
    intros fuel rec_fuel w Hfuel Hrec.
  - destruct fuel; simpl; rewrite Z.eqb_refl; mrun;
      rewrite !app_nil_r, !Nat.add_0_r; by destruct w.
  - destruct fuel as [|fuel]; [simpl in Hfuel; lia|]. simpl.
    apply Z.eqb_neq in Hvalid, Hid. rewrite Hvalid.
    erewrite bind_returned by (by apply CHECK_FOR_INTERRUPTS_ok).
    erewrite bind_returned by (by apply ReadBuffer_ok).
    mrun. rewrite Hid. simpl. mrun.
    f_equal. f_equal; [by rewrite <- !app_assoc | by rewrite app_nil_r | lia].
  - destruct fuel as [|fuel]; [simpl in Hfuel; lia|]. simpl.
    apply Z.eqb_neq in Hvalid. apply Z.eqb_eq in Hid. rewrite Hvalid.
    erewrite bind_returned by (by apply CHECK_FOR_INTERRUPTS_ok).
    erewrite bind_returned by (by apply ReadBuffer_ok).
    erewrite bind_returned by reflexivity. simpl. rewrite Hid. simpl.
    inversion Hrec as [|? ? Hlen Hrec']; subst.
    pose proof (packed_records_length _ _ _ Hpacked).
    erewrite bind_returned; cycle 1.
    { apply undo_page_records_run with (recs := recs); try done; lia. }
    simpl. erewrite bind_returned by reflexivity.
    erewrite bind_returned by reflexivity.
    rewrite IH by (simpl in *; try done; lia). simpl.
    unfold undo_walk_events, undo_page_row, set_value, zeroed. simpl.
    f_equal. f_equal.
    + by rewrite <- !app_assoc.
    + rewrite <- !app_assoc. simpl. do 2 f_equal.
      rewrite Z.add_0_l. unfold record_counter.
      by destruct (head recs), (last recs).
    + lia.
Qed.

Lemma pages_read_undo_walk_events chain stop :
  pages_read (undo_walk_events chain stop)
  = (chain_blocks chain ++ match stop with Some b => [b] | None => [] end)%list.
Proof.
  unfold undo_walk_events. rewrite pages_read_app. f_equal.
  - induction chain as [|[[blkno page] recs] chain IH]; simpl; [done|].
    by rewrite IH.
  - by destruct stop.
Qed.

Lemma warnings_undo_walk_events chain stop :
  warnings (undo_walk_events chain stop)
  = match stop with
    | Some b => ["unexpected page id on UNDO page " +:+ pretty b]
    | None => []
    end.
Proof.
  unfold undo_walk_events. rewrite warnings_app.
  replace (warnings (flat_map _ chain)) with (@nil string).
  - by destruct stop.
  - induction chain as [|[[blkno page] recs] chain IH]; simpl; done.
Qed.

Lemma chain_fuel_records chain fuel :
  (chain_fuel chain <= fuel)%nat ->
  Forall (fun '(_, _, recs) => (length recs <= fuel)%nat) chain.
Proof.
  unfold chain_fuel. revert fuel.
  induction chain as [|[[blkno page] recs] chain IH]; intros fuel H;
    constructor; simpl in *; [lia|].
  apply IH. lia.
Qed.

(** An accepted call of [pg_zs_undo_pages] on a relation whose undo chain
    from the metapage's [zs_undo_head] is [chain], ended by [stop]. *)
Lemma pg_zs_undo_pages_run fcinfo relid rel metapage chain stop fuel :
  call_accepted be relid rel ->
  srf_context_ok fcinfo ->
  0 <= ZS_META_BLK ->
  rd_blocks rel !! Z.to_nat ZS_META_BLK = Some metapage ->
  undo_chain be rel
    (ZSMetaPageOpaque.zs_undo_head (as_ZSMetaPageOpaque metapage)) chain stop ->
  (chain_fuel chain <= fuel)%nat ->
  pg_zs_undo_pages be fuel fcinfo relid initial_world
  = (Returned RetSet,
     mkWorld
       ([ EvTableOpen relid; EvReadBuffer ZS_META_BLK;
          EvLockBuffer ZS_META_BLK BUFFER_LOCK_SHARE;
          EvUnlockReleaseBuffer ZS_META_BLK ]
        ++ undo_walk_events chain stop ++ [EvTableClose (rd_id rel)])
       (undo_chain_rows chain)
       (length chain + match stop with Some _ => 1 | None => 0 end)).
Proof.
  intros (Hsu & Hcat & Htemp & Hpoll) Hctx Hmeta Hpage Hchain Hfuel.
  unfold pg_zs_undo_pages.
  erewrite bind_returned by (by apply require_superuser_ok).
  erewrite bind_returned by (by apply check_rsinfo_ok).
  erewrite bind_returned by (by apply require_composite_result_ok).
  erewrite bind_returned by reflexivity.
  erewrite bind_returned by (by apply table_open_ok).
  erewrite bind_returned by (by apply reject_other_temp_ok).
  erewrite bind_returned by (by apply ReadBuffer_ok).
  erewrite bind_returned by reflexivity.
  erewrite bind_returned by reflexivity.
  erewrite bind_returned; cycle 1.
  { apply undo_walk_run with (chain := chain) (stop := stop); try done.
    - unfold chain_fuel in Hfuel. lia.
    - by apply chain_fuel_records. }
  mrun. by rewrite <- ?app_assoc.
Qed.

(** C4.  On a relation whose undo chain is well formed (from the
    metapage's undo head, each page carries the UNDO page id and packed
    records, and the successor pointers lead to [InvalidBlockNumber]), an
    accepted call of [pg_zs_undo_pages] with enough fuel returns; it reads
    the metapage and then exactly the pages of the chain, in chain order;
    and it stores one row per page of the chain, holding the block number,
    the number of records packed between the page header and [pd_lower],
    the free space, and the counters of the first and of the last of
    those records. *)
Theorem undo_pages_rows fcinfo relid rel metapage chain fuel :
  call_accepted be relid rel ->
  srf_context_ok fcinfo ->
  0 <= ZS_META_BLK ->
  rd_blocks rel !! Z.to_nat ZS_META_BLK = Some metapage ->
  undo_chain be rel
    (ZSMetaPageOpaque.zs_undo_head (as_ZSMetaPageOpaque metapage)) chain None ->
  (chain_fuel chain <= fuel)%nat ->
  let r := pg_zs_undo_pages be fuel fcinfo relid initial_world in
  fst r = Returned RetSet
  /\ pages_read (trace (snd r)) = ZS_META_BLK :: chain_blocks chain
  /\ tupstore (snd r) = undo_chain_rows chain
  /\ warnings (trace (snd r)) = [].
Proof.
  intros Hcall Hctx Hmeta Hpage Hchain Hfuel r. subst r.
  erewrite pg_zs_undo_pages_run by done. simpl. repeat split.
  - by rewrite pages_read_app, pages_read_undo_walk_events, !app_nil_r.
  - by rewrite warnings_app, warnings_undo_walk_events.
Qed.

(** C3, as the code has it.  When the walk of [pg_zs_undo_pages] reaches a
    page whose page id is not [ZS_UNDO_PAGE_ID], it reports it by a WARNING
    that names the block and ends the walk there: that page is the last
    one read and gets no row, the rows of the pages before it are kept, and
    the call returns normally.  No ERROR is raised. *)
Theorem undo_walk_stops_with_warning fcinfo relid rel metapage chain blkno fuel :
  call_accepted be relid rel ->
  srf_context_ok fcinfo ->
  0 <= ZS_META_BLK ->
  rd_blocks rel !! Z.to_nat ZS_META_BLK = Some metapage ->
  undo_chain be rel
    (ZSMetaPageOpaque.zs_undo_head (as_ZSMetaPageOpaque metapage)) chain
    (Some blkno) ->
  (chain_fuel chain <= fuel)%nat ->
  let r := pg_zs_undo_pages be fuel fcinfo relid initial_world in
  fst r = Returned RetSet
  /\ warnings (trace (snd r))
     = ["unexpected page id on UNDO page " +:+ pretty blkno]
  /\ pages_read (trace (snd r))
     = (ZS_META_BLK :: chain_blocks chain ++ [blkno])%list
  /\ tupstore (snd r) = undo_chain_rows chain.
Proof.
  intros Hcall Hctx Hmeta Hpage Hchain Hfuel r. subst r.
  erewrite pg_zs_undo_pages_run by done. simpl. repeat split.
  - by rewrite warnings_app, warnings_undo_walk_events.
  - by rewrite pages_read_app, pages_read_undo_walk_events, !app_nil_r.
Qed.

(** ** pg_zs_meta_page *)

Lemma prefix_refl s : String.prefix s s = true.
Proof.
  induction s as [|a s IH]; simpl; [done|].
  by destruct (ascii_dec a a).
Qed.

Lemma occurs_in_append pre needle : occurs_in needle (pre +:+ needle) = true.
Proof.
  induction pre as [|a pre IH]; simpl.
  - destruct needle; simpl; [done|]. rewrite prefix_refl.
    by destruct (ascii_dec _ _).
  - rewrite IH. apply orb_true_r.
Qed.

(** The events of [pg_zs_meta_page] up to the release of the metapage. *)
Lemma pg_zs_meta_page_run fcinfo relid rel page :
  call_accepted be relid rel ->
  srf_context_ok fcinfo ->
  0 <= ZS_META_BLK ->
  rd_blocks rel !! Z.to_nat ZS_META_BLK = Some page ->
  let opaque := as_ZSMetaPageOpaque page in
  let released :=
    [ EvCheckForInterrupts; EvTableOpen relid; EvReadBuffer ZS_META_BLK;
      EvLockBuffer ZS_META_BLK BUFFER_LOCK_EXCLUSIVE;
      EvUnlockReleaseBuffer ZS_META_BLK ] in
  pg_zs_meta_page be fcinfo relid initial_world
  = if negb (PageGetSpecialSize page =? MAXALIGN_sizeof_ZSMetaPageOpaque) then
      (Raised ERRCODE_INTERNAL_ERROR "Bad page special size",
       mkWorld released [] 1)
    else if negb (ZSMetaPageOpaque.zs_page_id opaque =? ZS_META_PAGE_ID) then
      (Raised ERRCODE_INTERNAL_ERROR
         ("The zs_page_id does not match ZS_META_PAGE_ID. Got: "
          +:+ pretty (ZSMetaPageOpaque.zs_page_id opaque)),
       mkWorld released [] 1)
    else
      (Returned (RetTuple (meta_page_row opaque)),
       mkWorld (released ++ [EvTableClose (rd_id rel)]) [] 1).
Proof.
  intros (Hsu & Hcat & Htemp & Hpoll) Hctx Hmeta Hpage opaque released.
  unfold pg_zs_meta_page.
  erewrite bind_returned by (by apply require_superuser_ok).
  erewrite bind_returned by (by apply check_rsinfo_ok).
  erewrite bind_returned by (by apply require_composite_result_ok).
  erewrite bind_returned by (by apply CHECK_FOR_INTERRUPTS_ok).
  erewrite bind_returned by (by apply table_open_ok).
  erewrite bind_returned by (by apply reject_other_temp_ok).
  erewrite bind_returned by (by apply ReadBuffer_ok).
  erewrite bind_returned by reflexivity. simpl. fold opaque.
  destruct (negb (PageGetSpecialSize page =? _)); [done|].
  destruct (negb (ZSMetaPageOpaque.zs_page_id opaque =? _)); done.
Qed.

(** C6, as the code has it.  An accepted call of [pg_zs_meta_page] reads
    block 0 only.  If the page has the special size and the page id of a
    metapage, the call returns the tuple of the nine metapage fields.  If
    the special size differs, it raises the ERROR "Bad page special size",
    which does not say which page id was found.  If the size is right and
    the page id differs, it raises an ERROR that reports the page id
    found. *)
Theorem meta_page_snapshot fcinfo relid rel page :
  call_accepted be relid rel ->
  srf_context_ok fcinfo ->
  0 <= ZS_META_BLK ->
  rd_blocks rel !! Z.to_nat ZS_META_BLK = Some page ->
  let opaque := as_ZSMetaPageOpaque page in
  let tag := ZSMetaPageOpaque.zs_page_id opaque in
  let r := pg_zs_meta_page be fcinfo relid initial_world in
  pages_read (trace (snd r)) = [ZS_META_BLK]
  /\ (PageGetSpecialSize page = MAXALIGN_sizeof_ZSMetaPageOpaque ->
      tag = ZS_META_PAGE_ID ->
      fst r = Returned (RetTuple (meta_page_row opaque)))
  /\ (PageGetSpecialSize page <> MAXALIGN_sizeof_ZSMetaPageOpaque ->
      fst r = Raised ERRCODE_INTERNAL_ERROR "Bad page special size")
  /\ (PageGetSpecialSize page = MAXALIGN_sizeof_ZSMetaPageOpaque ->
      tag <> ZS_META_PAGE_ID ->
      exists msg,
        fst r = Raised ERRCODE_INTERNAL_ERROR msg /\ reports_tag msg tag).
Proof.
  intros Hcall Hctx Hmeta Hpage opaque tag r. subst r.
  rewrite (pg_zs_meta_page_run fcinfo relid rel page) by done.
  fold opaque. fold tag.
  destruct (Z.eqb_spec (PageGetSpecialSize page)
              MAXALIGN_sizeof_ZSMetaPageOpaque) as [Hs|Hs];
    [destruct (Z.eqb_spec tag ZS_META_PAGE_ID) as [Ht|Ht]|]; simpl;
    (split; [done|]); repeat split; intros; try done.
  eexists. split; [done|]. apply occurs_in_append.
Qed.

(** ** pg_zs_dump_attstreams *)

(** C10.  An accepted call of [pg_zs_dump_attstreams] on a block that is
    not a leaf page of a real attribute's B-tree (the special size is not
    that of a B-tree page, or the page id is not [ZS_BTREE_PAGE_ID], or the
    attribute is the meta attribute, or the level is not 0) returns SQL
    NULL.  Before returning it has released the buffer and closed the
    relation; it stores no row and raises no ERROR. *)
Theorem dump_attstreams_null fuel fcinfo relid rel blkno page :
  call_accepted be relid rel ->
  srf_context_ok fcinfo ->
  0 <= blkno < 2 ^ 32 ->
  rd_blocks rel !! Z.to_nat blkno = Some page ->
  PageGetSpecialSize page <> MAXALIGN_sizeof_ZSBtreePageOpaque
  \/ ZSBtreePageOpaque.zs_page_id (as_ZSBtreePageOpaque page)
       <> ZS_BTREE_PAGE_ID
  \/ ZSBtreePageOpaque.zs_attno (as_ZSBtreePageOpaque page)
       = ZS_META_ATTRIBUTE_NUM
  \/ ZSBtreePageOpaque.zs_level (as_ZSBtreePageOpaque page) <> 0 ->
  pg_zs_dump_attstreams be fuel fcinfo relid blkno initial_world
  = (Returned RetNull,
     mkWorld
       [ EvTableOpen relid; EvCheckForInterrupts; EvReadBuffer blkno;
         EvLockBuffer blkno BUFFER_LOCK_EXCLUSIVE;
         EvUnlockReleaseBuffer blkno; EvTableClose (rd_id rel) ]
       [] 1).
Proof.
  intros (Hsu & Hcat & Htemp & Hpoll) Hctx Hrange Hpage Hkind.
  unfold pg_zs_dump_attstreams.
  assert (to_uint32 blkno = blkno) as ->
    by (apply Z.mod_small; lia).
  erewrite bind_returned by (by apply require_superuser_ok).
  erewrite bind_returned by (by apply check_rsinfo_ok).
  erewrite bind_returned by (by apply require_composite_result_ok).
  erewrite bind_returned by reflexivity.
  erewrite bind_returned by (by apply table_open_ok).
  erewrite bind_returned by (by apply reject_other_temp_ok).
  erewrite bind_returned by (by apply CHECK_FOR_INTERRUPTS_ok).
  erewrite bind_returned by (apply ReadBuffer_ok; [lia | done]).
  erewrite bind_returned by reflexivity. simpl.
  destruct (Z.eqb_spec (PageGetSpecialSize page)
              MAXALIGN_sizeof_ZSBtreePageOpaque) as [Hs|Hs]; simpl; [|done].
  destruct (Z.eqb_spec
              (ZSBtreePageOpaque.zs_page_id (as_ZSBtreePageOpaque page))
              ZS_BTREE_PAGE_ID) as [Hi|Hi]; simpl; [|done].
  destruct (Z.eqb_spec
              (ZSBtreePageOpaque.zs_attno (as_ZSBtreePageOpaque page))
              ZS_META_ATTRIBUTE_NUM) as [Ha|Ha]; simpl; [done|].
  destruct (Z.eqb_spec
              (ZSBtreePageOpaque.zs_level (as_ZSBtreePageOpaque page))
              0) as [Hl|Hl]; simpl; [|done].
  exfalso. tauto.
Qed.

(** ** Buffers that are kept and buffers that are released *)

Lemma scan_run_visits p (chain : list (Z * Page * list ZSUndoRec.t)) :
  scan_run (Unlocked p)
    (flat_map (fun '(blkno, _, _) => page_visit blkno) chain)
  = Some (Unlocked (if chain is [] then p else false)).
Proof.
  revert p. induction chain as [|[[blkno page] recs] chain IH]; intros p;
    [done|].
  cbn [flat_map]. rewrite scan_run_app.
  replace (scan_run (Unlocked p) (page_visit blkno))
    with (Some (Unlocked false))
    by (unfold scan_run; simpl; repeat (rewrite Z.eqb_refl; simpl); done).
  simpl. rewrite IH. by destruct chain.
Qed.

(** X1.  When the walk of an accepted call of [pg_zs_undo_pages] ends at a
    page with an unexpected page id, the [break] leaves the loop without
    [UnlockReleaseBuffer]: the exclusive lock taken on that page is still
    held when the relation is closed and the call returns. *)
Theorem undo_walk_keeps_unexpected_page_locked fcinfo relid rel metapage
    chain blkno fuel :
  call_accepted be relid rel ->
  srf_context_ok fcinfo ->
  0 <= ZS_META_BLK ->
  rd_blocks rel !! Z.to_nat ZS_META_BLK = Some metapage ->
  undo_chain be rel
    (ZSMetaPageOpaque.zs_undo_head (as_ZSMetaPageOpaque metapage)) chain
    (Some blkno) ->
  (chain_fuel chain <= fuel)%nat ->
  let r := pg_zs_undo_pages be fuel fcinfo relid initial_world in
  fst r = Returned RetSet
  /\ scan_run Prelude (trace (snd r)) = Some (Locked blkno)
  /\ exists before,
       trace (snd r)
       = (before
          ++ [ EvLockBuffer blkno BUFFER_LOCK_EXCLUSIVE;
               EvWarning ("unexpected page id on UNDO page " +:+ pretty blkno);
               EvTableClose (rd_id rel) ])%list.
Proof.
  intros Hcall Hctx Hmeta Hpage Hchain Hfuel r. subst r.
  erewrite pg_zs_undo_pages_run by done. simpl. split; [done|]. split.
  - change (EvTableOpen relid :: EvReadBuffer ZS_META_BLK
            :: EvLockBuffer ZS_META_BLK BUFFER_LOCK_SHARE
            :: EvUnlockReleaseBuffer ZS_META_BLK
            :: undo_walk_events chain (Some blkno)
            ++ [EvTableClose (rd_id rel)])
      with ([ EvTableOpen relid; EvReadBuffer ZS_META_BLK;
              EvLockBuffer ZS_META_BLK BUFFER_LOCK_SHARE;
              EvUnlockReleaseBuffer ZS_META_BLK ]
            ++ undo_walk_events chain (Some blkno)
            ++ [EvTableClose (rd_id rel)])%list.
    rewrite scan_run_app.
    replace (scan_run Prelude _) with (Some (Unlocked false))
      by (unfold scan_run; simpl; repeat (rewrite Z.eqb_refl; simpl); done).
    simpl. unfold undo_walk_events.
    rewrite !scan_run_app, scan_run_visits. simpl.
    unfold scan_run. simpl. by rewrite Z.eqb_refl.
  - unfold undo_walk_events.
    eexists (_ :: _ :: _ :: _ :: flat_map _ chain ++ [_; _])%list.
    simpl. do 4 f_equal. by rewrite <- !app_assoc.
Qed.

Lemma dump_stream_chunks_effect fuel :
  forall decoder stream i upperstream attno byval len chunkno chunk_start
         values w,
    let r := dump_stream_chunks fuel decoder stream i upperstream attno byval
               len chunkno chunk_start values w in
    trace (snd r) = trace w
    /\ polls (snd r) = polls w
    /\ (fst r = Diverged \/ raised (fst r) \/ exists v, fst r = Returned v).
Proof.
  induction fuel as [|fuel IH];
    intros decoder stream i upperstream attno byval len chunkno chunk_start
           values w; simpl; unfold decoded;
    destruct (get_attstream_chunk_cont decoder)
      as [[[decoder' [[[prevtid firsttid] lasttid] chunk]]|]|code msg];
    try (by (repeat split; eauto));
    try (by (repeat split; try done; right; left; do 2 eexists)).
  mrun.
  match goal with
  | |- context [dump_stream_chunks fuel ?d ?s ?i ?u ?a ?b ?l ?cn ?cs ?v ?w1] =>
      pose proof (IH d s i u a b l cn cs v w1) as H; simpl in H; exact H
  end.
Qed.

Lemma dump_streams_effect fuel streams :
  forall i upperstream attno byval len values w,
    let r := dump_streams fuel streams i upperstream attno byval len values w in
    trace (snd r) = trace w
    /\ polls (snd r) = polls w
    /\ (fst r = Diverged \/ raised (fst r) \/ fst r = Returned tt).
Proof.
  induction streams as [|stream streams IH];
    intros i upperstream attno byval len values w; simpl;
    [by repeat split; eauto|].
  unfold decoded.
  destruct (decode_attstream_begin _ stream) as [decoder|code msg];
    [|by (repeat split; try done; right; left; do 2 eexists)].
  unfold mbind, M_bind. simpl.
  match goal with
  | |- context [dump_stream_chunks ?f ?d ?s ?i ?u ?a ?b ?l ?cn ?cs ?v ?w] =>
      pose proof (dump_stream_chunks_effect f d s i u a b l cn cs v w)
        as (Ht & Hp & Ho);
      destruct (dump_stream_chunks f d s i u a b l cn cs v w) as [o w1]
  end.
  simpl in *.
  destruct Ho as [-> | [(code & msg & ->) | [v ->]]];
    [by repeat split; eauto
    |by (repeat split; try done; right; left; do 2 eexists)|].
  specialize (IH (i + 1) upperstream attno byval len v w1).
  simpl in IH. destruct IH as (Ht' & Hp' & Ho').
  repeat split; congruence.
Qed.

(** Closes [ends_unlocked] of a world whose trace is known. *)
Ltac unlocked :=
  first
    [ left; unfold scan_run; simpl; repeat (rewrite Z.eqb_refl; simpl);
      reflexivity
    | right; eexists; unfold scan_run; simpl;
      repeat (rewrite Z.eqb_refl; simpl); reflexivity ].

#[local] Opaque dump_streams.

(** X2.  [pg_zs_page_type], [pg_zs_meta_page] and [pg_zs_dump_attstreams]
    let go of the buffer they lock on every way out of their own, for
    every caller, relation and page: when they return and when they raise
    one of their ERRORs (the two ERRORs of [pg_zs_meta_page] come after
    [UnlockReleaseBuffer]), nothing is pinned or locked.  The one place
    where [pg_zs_dump_attstreams] can be left with the page still locked is
    inside its decoding loops, between [LockBuffer] and
    [UnlockReleaseBuffer]: when the decoder never stops handing out chunks,
    and when the decoder leaves with an ERROR, which the function does not
    catch. *)
Theorem single_page_functions_release_the_buffer fuel fcinfo relid pageno :
  ends_unlocked (snd (pg_zs_page_type be relid pageno initial_world))
  /\ ends_unlocked (snd (pg_zs_meta_page be fcinfo relid initial_world))
  /\ (let r := pg_zs_dump_attstreams be fuel fcinfo relid pageno
                 initial_world in
      ends_unlocked (snd r)
      \/ ((fst r = Diverged \/ raised (fst r))
          /\ trace (snd r)
             = [ EvTableOpen relid; EvCheckForInterrupts;
                 EvReadBuffer (to_uint32 pageno);
                 EvLockBuffer (to_uint32 pageno) BUFFER_LOCK_EXCLUSIVE ]
          /\ scan_run Prelude (trace (snd r))
             = Some (Locked (to_uint32 pageno)))).
Proof.
  refine (conj _ (conj _ _)).
  - unfold pg_zs_page_type, require_superuser, table_open,
      reject_other_temp, ReadBuffer.
    mrun.
    repeat match goal with
           | |- context [if ?b then _ else _] => destruct b; simpl
           | |- context [match ?o with Some _ => _ | None => _ end] =>
               destruct o; simpl
           end; unlocked.
  - unfold pg_zs_meta_page, require_superuser, check_rsinfo,
      require_composite_result, CHECK_FOR_INTERRUPTS, table_open,
      reject_other_temp, ReadBuffer.
    mrun.
    repeat match goal with
           | |- context [if ?b then _ else _] => destruct b; simpl
           | |- context [match ?o with Some _ => _ | None => _ end] =>
               destruct o; simpl
           end; unlocked.
  - unfold pg_zs_dump_attstreams, require_superuser, check_rsinfo,
      require_composite_result, CHECK_FOR_INTERRUPTS, table_open,
      reject_other_temp, ReadBuffer.
    cbv zeta. mrun.
    repeat match goal with
           | |- context [if ?b then _ else _] => destruct b; simpl
           | |- context [match ?o with Some _ => _ | None => _ end] =>
               destruct o; simpl
           end;
      first
        [ left; unlocked
        | match goal with
          | |- context [dump_streams ?f ?s ?i ?u ?a ?b ?l ?v ?w] =>
              pose proof (dump_streams_effect f s i u a b l v w)
                as (Ht & _ & Ho);
              destruct (dump_streams f s i u a b l v w) as [o w1]
          end; simpl in *;
          destruct Ho as [-> | [(code & msg & ->) | ->]];
          [ right; split; [by left|]; simpl; rewrite Ht; split; [done|];
            unfold scan_run; simpl; repeat (rewrite Z.eqb_refl; simpl);
            reflexivity
          | right; split; [right; by do 2 eexists|]; simpl; rewrite Ht;
            split; [done|];
            unfold scan_run; simpl; repeat (rewrite Z.eqb_refl; simpl);
            reflexivity
          | left; right; eexists; simpl; rewrite !scan_run_snoc, Ht;
            unfold scan_run; simpl; repeat (rewrite Z.eqb_refl; simpl);
            reflexivity ] ].
Qed.

#[local] Transparent dump_streams.

(** ** Cancellation *)

(** A loop over consecutive blocks whose [length pages + 1]-th poll finds
    a cancel request: the pages before are visited, the poll raises. *)
Lemma for_blocks_cancelled rel (body : Z -> M unit) (wanted : Page -> bool)
    (row : Z -> Page -> HeapTuple) :
  (forall blkno page w,
      QueryCancelPending be (polls w) = false ->
      0 <= blkno ->
      rd_blocks rel !! Z.to_nat blkno = Some page ->
      body blkno w
      = (Returned tt,
         mkWorld (trace w ++ page_visit blkno)
           (tupstore w ++ if wanted page then [row blkno page] else [])
           (S (polls w)))) ->
  (forall blkno w,
      QueryCancelPending be (polls w) = true ->
      body blkno w
      = (Raised ERRCODE_QUERY_CANCELED
           "canceling statement due to user request",
         mkWorld (trace w ++ [EvCheckForInterrupts]) (tupstore w)
           (S (polls w)))) ->
  forall pages before more extra w,
    rd_blocks rel = (before ++ pages ++ more)%list ->
    (forall n, (polls w <= n < polls w + length pages)%nat ->
               QueryCancelPending be n = false) ->
    QueryCancelPending be (polls w + length pages) = true ->
    for_blocks body (Z.of_nat (length before)) (length pages + S extra) w
    = (Raised ERRCODE_QUERY_CANCELED
         "canceling statement due to user request",
       mkWorld
         (trace w ++ scan_events (Z.of_nat (length before)) (length pages)
          ++ [EvCheckForInterrupts])
         (tupstore w
          ++ scan_rows wanted row (Z.of_nat (length before)) pages)
         (S (polls w + length pages))).
Proof.
  intros Hbody Hcancel.
  induction pages as [|page pages IH];
    intros before more extra w Hblocks Hquiet Hpending; simpl in *.
  - rewrite Nat.add_0_r in Hpending.
    erewrite bind_raised by (by apply Hcancel).
    by rewrite app_nil_r, Nat.add_0_r.
  - erewrite bind_returned; cycle 1.
    { apply (Hbody _ page); [apply Hquiet; lia | lia |].
      rewrite Nat2Z.id, Hblocks. by apply list_lookup_middle. }
    specialize (IH (before ++ [page])%list more extra).
    rewrite length_app, Nat2Z.inj_add in IH. simpl in IH.
    rewrite IH.
    + simpl. f_equal. f_equal; [by rewrite <- !app_assoc
                               | by rewrite <- !app_assoc | lia].
    + by rewrite <- app_assoc.
    + simpl. intros n Hn. apply Hquiet. lia.
    + simpl. rewrite <- Hpending. f_equal. lia.
Qed.

Lemma physical_scan_cancelled (iteration : Relation -> Z -> M unit)
    (wanted : Page -> bool) (row : Z -> Page -> HeapTuple) fcinfo relid rel
    (k : nat) :
  (forall blkno page w,
      QueryCancelPending be (polls w) = false ->
      0 <= blkno ->
      rd_blocks rel !! Z.to_nat blkno = Some page ->
      iteration rel blkno w
      = (Returned tt,
         mkWorld (trace w ++ page_visit blkno)
           (tupstore w ++ if wanted page then [row blkno page] else [])
           (S (polls w)))) ->
  (forall blkno w,
      QueryCancelPending be (polls w) = true ->
      iteration rel blkno w
      = (Raised ERRCODE_QUERY_CANCELED
           "canceling statement due to user request",
         mkWorld (trace w ++ [EvCheckForInterrupts]) (tupstore w)
           (S (polls w)))) ->
  superuser be = true ->
  catalog be relid = Some rel ->
  is_other_temp rel = false ->
  srf_context_ok fcinfo ->
  (k < length (drop 1 (rd_blocks rel)))%nat ->
  (forall n, (n < k)%nat -> QueryCancelPending be n = false) ->
  QueryCancelPending be k = true ->
  (require_superuser be ;;
   check_rsinfo fcinfo ;;
   require_composite_result fcinfo ;;
   tuplestore_begin_heap ;;
   rel ← table_open be relid;
   reject_other_temp rel ;;
   let nblocks := RelationGetNumberOfBlocks rel in
   for_blocks (iteration rel) 1 (Z.to_nat (nblocks - 1)) ;;
   table_close rel ;;
   mret RetSet) initial_world
  = (Raised ERRCODE_QUERY_CANCELED "canceling statement due to user request",
     mkWorld
       (EvTableOpen relid :: scan_events 1 k ++ [EvCheckForInterrupts])
       (scan_rows wanted row 1 (take k (drop 1 (rd_blocks rel))))
       (S k)).
Proof.
  intros Hbody Hcancel Hsu Hcat Htemp Hctx Hk Hquiet Hpending.
  erewrite bind_returned by (by apply require_superuser_ok).
  erewrite bind_returned by (by apply check_rsinfo_ok).
  erewrite bind_returned by (by apply require_composite_result_ok).
  erewrite bind_returned by reflexivity.
  erewrite bind_returned by (by apply table_open_ok).
  erewrite bind_returned by (by apply reject_other_temp_ok).
  simpl. unfold RelationGetNumberOfBlocks.
  destruct (rd_blocks rel) as [|page0 pages] eqn:Hblocks;
    [simpl in Hk; lia|].
  simpl in Hk. rewrite drop_0 in Hk. simpl drop. rewrite ?drop_0.
  replace (Z.to_nat (Z.of_nat (length (page0 :: pages)) - 1))
    with (length (take k pages) + S (length pages - S k))%nat
    by (rewrite length_take; simpl; lia).
  erewrite bind_raised; cycle 1.
  { apply (for_blocks_cancelled rel _ wanted row)
      with (before := [page0]) (more := drop k pages).
    - intros. apply Hbody; auto. by rewrite <- Hblocks.
    - intros. by apply Hcancel.
    - by rewrite Hblocks, take_drop.
    - simpl. intros n Hn. apply Hquiet. rewrite length_take in Hn. lia.
    - simpl. rewrite length_take. by replace (k `min` length pages)%nat
        with k by lia. }
  simpl. rewrite length_take.
  by replace (k `min` length pages)%nat with k by lia.
Qed.

(** X3.  A cancel request that the [k]+1-th poll of a full-relation scan
    finds pending stops [pg_zs_btree_pages] and [pg_zs_toast_pages] there:
    the call raises the query-cancel ERROR after reading exactly the blocks
    1 to [k], and the block whose turn it was is not read. *)
Theorem physical_scans_stop_at_cancel fcinfo relid rel (k : nat) :
  superuser be = true ->
  catalog be relid = Some rel ->
  is_other_temp rel = false ->
  srf_context_ok fcinfo ->
  (k < length (drop 1 (rd_blocks rel)))%nat ->
  (forall n, (n < k)%nat -> QueryCancelPending be n = false) ->
  QueryCancelPending be k = true ->
  let rb := pg_zs_btree_pages be fcinfo relid initial_world in
  let rt := pg_zs_toast_pages be fcinfo relid initial_world in
  (fst rb = Raised ERRCODE_QUERY_CANCELED
              "canceling statement due to user request"
   /\ pages_read (trace (snd rb)) = seqZ 1 (Z.of_nat k)
   /\ last (trace (snd rb)) = Some EvCheckForInterrupts)
  /\ (fst rt = Raised ERRCODE_QUERY_CANCELED
                 "canceling statement due to user request"
      /\ pages_read (trace (snd rt)) = seqZ 1 (Z.of_nat k)
      /\ last (trace (snd rt)) = Some EvCheckForInterrupts).
Proof.
  intros Hsu Hcat Htemp Hctx Hk Hquiet Hpending rb rt. subst rb rt. split.
  - unfold pg_zs_btree_pages.
    rewrite (physical_scan_cancelled (btree_pages_iteration be) is_btree_page
               btree_page_row fcinfo relid rel k); try done.
    + simpl. repeat split.
      * by rewrite pages_read_app, app_nil_r, pages_read_scan_events.
      * rewrite app_comm_cons. apply last_snoc.
    + intros. by apply btree_iteration_run.
    + intros. by apply iteration_cancelled.
  - unfold pg_zs_toast_pages.
    rewrite (physical_scan_cancelled (toast_pages_iteration be) is_toast_page
               toast_page_row fcinfo relid rel k); try done.
    + simpl. repeat split.
      * by rewrite pages_read_app, app_nil_r, pages_read_scan_events.
      * rewrite app_comm_cons. apply last_snoc.
    + intros. by apply toast_iteration_run.
    + intros. by apply iteration_cancelled.
Qed.

(** ** Undo chains and records that are not well formed *)

Lemma Assert_ok cond w :
  (USE_ASSERT_CHECKING be = true -> cond = true) ->
  Assert be cond w = (Returned tt, w).
Proof.
  intros H. unfold Assert.
  destruct (USE_ASSERT_CHECKING be); [|done]. by rewrite H.
Qed.

(** On packed records the record loop returns or runs out of fuel; it does
    not fail. *)
Lemma undo_page_records_outcome page blkno ptr recs :
  packed_records page ptr recs ->
  (USE_ASSERT_CHECKING be = true -> records_on_block blkno recs) ->
  forall fuel n firstptr lastptr w,
    let o := fst (undo_page_records be fuel page blkno (pd_lower page) ptr n
                    firstptr lastptr w) in
    o = Diverged \/ exists v, o = Returned v.
Proof.
  induction 1 as [ptr Hptr | ptr recs Hptr Hsize Hrest IH];
    intros Hblk fuel n firstptr lastptr w.
  - apply Z.ltb_ge in Hptr. right.
    destruct fuel; simpl; rewrite Hptr; by eexists.
  - apply Z.ltb_lt in Hptr.
    destruct fuel as [|fuel]; simpl; rewrite Hptr; [by left|].
    erewrite bind_returned; cycle 1.
    { apply Assert_ok. intros HU. specialize (Hblk HU).
      apply Forall_cons in Hblk as [-> _]. apply Z.eqb_refl. }
    apply IH. intros HU. specialize (Hblk HU).
    by apply Forall_cons in Hblk as [_ ?].
Qed.

Lemma undo_walk_in_closed_set rel (P : Z -> Prop) :
  (forall n, QueryCancelPending be n = false) ->
  undo_closed be rel P ->
  forall fuel rec_fuel blkno w,
    P blkno ->
    fst (undo_walk be fuel rec_fuel rel blkno w) = Diverged.
Proof.
  intros Hpoll Hclosed.
  induction fuel as [|fuel IH]; intros rec_fuel blkno w HP;
    destruct (Hclosed blkno HP)
      as (Hvalid & Hpos & page & recs & Hpage & Hid & Hpacked & Hblk & Hnext);
    apply Z.eqb_neq in Hvalid; apply Z.eqb_eq in Hid; simpl; rewrite Hvalid;
    [done|].
  erewrite bind_returned by (by apply CHECK_FOR_INTERRUPTS_ok).
  erewrite bind_returned by (by apply ReadBuffer_ok).
  erewrite bind_returned by reflexivity. simpl. rewrite Hid. simpl.
  unfold mbind at 1. unfold M_bind at 1.
  match goal with
  | |- context [undo_page_records be ?f ?pg ?b ?e ?p0 ?n ?fp ?lp ?w0] =>
      pose proof (undo_page_records_outcome pg b p0 recs Hpacked Hblk
                    f n fp lp w0) as Ho;
      destruct (undo_page_records be f pg b e p0 n fp lp w0) as [o w1]
  end.
  simpl in Ho. destruct Ho as [-> | [[[nrecords firstptr] lastptr] ->]];
    [done|].
  erewrite bind_returned by reflexivity.
  erewrite bind_returned by reflexivity.
  by apply IH.
Qed.


(** X4.  [pg_zs_undo_pages] keeps no record of the pages it has visited:
    on an undo chain that leads back into itself (every page reached from
    the undo head is a well-formed undo page whose successor is such a page
    again) an accepted call never finishes its walk, whatever fuel it is
    given. *)
Theorem undo_walk_never_leaves_a_circle fcinfo relid rel metapage
    (P : Z -> Prop) fuel :
  call_accepted be relid rel ->
  srf_context_ok fcinfo ->
  0 <= ZS_META_BLK ->
  rd_blocks rel !! Z.to_nat ZS_META_BLK = Some metapage ->
  undo_closed be rel P ->
  P (ZSMetaPageOpaque.zs_undo_head (as_ZSMetaPageOpaque metapage)) ->
  fst (pg_zs_undo_pages be fuel fcinfo relid initial_world) = Diverged.
Proof.
  intros (Hsu & Hcat & Htemp & Hpoll) Hctx Hmeta Hpage Hclosed Hhead.
  unfold pg_zs_undo_pages.
  erewrite bind_returned by (by apply require_superuser_ok).
  erewrite bind_returned by (by apply check_rsinfo_ok).
  erewrite bind_returned by (by apply require_composite_result_ok).
  erewrite bind_returned by reflexivity.
  erewrite bind_returned by (by apply table_open_ok).
  erewrite bind_returned by (by apply reject_other_temp_ok).
  erewrite bind_returned by (by apply ReadBuffer_ok).
  erewrite bind_returned by reflexivity.
  erewrite bind_returned by reflexivity.
  unfold mbind, M_bind.
  match goal with
  | |- context [undo_walk be ?f ?rf ?r ?b ?w] =>
      pose proof (undo_walk_in_closed_set r P Hpoll Hclosed f rf b w Hhead)
        as Hw;
      destruct (undo_walk be f rf r b w) as [o w1]
  end.
  simpl in Hw. by subst o.
Qed.

(** A record that states the size 0 below [pd_lower] keeps the record loop
    on itself. *)
Lemma undo_page_records_stuck page blkno endptr ptr :
  ptr < endptr ->
  ZSUndoRec.size (undorec_at page ptr) = 0 ->
  (USE_ASSERT_CHECKING be = true ->
   ZSUndoRecPtr.blkno (ZSUndoRec.undorecptr (undorec_at page ptr)) = blkno) ->
  forall fuel n firstptr lastptr w,
    undo_page_records be fuel page blkno endptr ptr n firstptr lastptr w
    = (Diverged, w).
Proof.
  intros Hptr Hsize Hblk. apply Z.ltb_lt in Hptr.
  induction fuel as [|fuel IH]; intros n firstptr lastptr w; simpl;
    rewrite Hptr; [done|].
  erewrite bind_returned; cycle 1.
  { apply Assert_ok. intros HU. rewrite (Hblk HU). apply Z.eqb_refl. }
  rewrite Hsize, Z.add_0_r. apply IH.
Qed.

#[local] Opaque undo_page_records.

(** X5.  The record loop of [pg_zs_undo_pages] advances by the size each
    record states and polls for nothing.  If the first undo page starts
    with a record of size 0, a call that got past its first poll never
    comes back, whatever fuel it is given: it has polled once, it holds the
    exclusive lock on the page, and a cancel request that arrives later is
    not looked for. *)
Theorem zero_size_record_hangs_the_walk fcinfo relid rel metapage page fuel :
  superuser be = true ->
  catalog be relid = Some rel ->
  is_other_temp rel = false ->
  QueryCancelPending be 0 = false ->
  srf_context_ok fcinfo ->
  0 <= ZS_META_BLK ->
  rd_blocks rel !! Z.to_nat ZS_META_BLK = Some metapage ->
  let blkno := ZSMetaPageOpaque.zs_undo_head (as_ZSMetaPageOpaque metapage) in
  blkno <> InvalidBlockNumber ->
  0 <= blkno ->
  rd_blocks rel !! Z.to_nat blkno = Some page ->
  ZSUndoPageOpaque.zs_page_id (as_ZSUndoPageOpaque page) = ZS_UNDO_PAGE_ID ->
  SizeOfPageHeaderData < pd_lower page ->
  ZSUndoRec.size (undorec_at page SizeOfPageHeaderData) = 0 ->
  (USE_ASSERT_CHECKING be = true ->
   ZSUndoRecPtr.blkno
     (ZSUndoRec.undorecptr (undorec_at page SizeOfPageHeaderData)) = blkno) ->
  let r := pg_zs_undo_pages be (S fuel) fcinfo relid initial_world in
  fst r = Diverged
  /\ polls (snd r) = 1%nat
  /\ scan_run Prelude (trace (snd r)) = Some (Locked blkno).
Proof.
  intros Hsu Hcat Htemp Hpoll Hctx Hmeta Hmetapage blkno Hvalid Hpos Hpage
    Hid Hlower Hsize Hblk r. subst r.
  assert (pg_zs_undo_pages be (S fuel) fcinfo relid initial_world
          = (Diverged,
             mkWorld
               [ EvTableOpen relid; EvReadBuffer ZS_META_BLK;
                 EvLockBuffer ZS_META_BLK BUFFER_LOCK_SHARE;
                 EvUnlockReleaseBuffer ZS_META_BLK; EvCheckForInterrupts;
                 EvReadBuffer blkno;
                 EvLockBuffer blkno BUFFER_LOCK_EXCLUSIVE ]
               [] 1)) as ->.
  { subst blkno. unfold pg_zs_undo_pages.
    erewrite bind_returned by (by apply require_superuser_ok).
    erewrite bind_returned by (by apply check_rsinfo_ok).
    erewrite bind_returned by (by apply require_composite_result_ok).
    erewrite bind_returned by reflexivity.
    erewrite bind_returned by (by apply table_open_ok).
    erewrite bind_returned by (by apply reject_other_temp_ok).
    erewrite bind_returned by (by apply ReadBuffer_ok).
    erewrite bind_returned by reflexivity.
    erewrite bind_returned by reflexivity.
    simpl undo_walk.
    apply Z.eqb_neq in Hvalid. apply Z.eqb_eq in Hid. rewrite Hvalid.
    unfold mbind at 1. unfold M_bind at 1.
    erewrite bind_returned by (by apply CHECK_FOR_INTERRUPTS_ok).
    erewrite bind_returned by (by apply ReadBuffer_ok).
    erewrite bind_returned by reflexivity. simpl. rewrite Hid. simpl.
    unfold mbind, M_bind.
    by rewrite undo_page_records_stuck by done. }
  simpl. repeat split. unfold scan_run. simpl.
  repeat (rewrite Z.eqb_refl; simpl). done.
Qed.

#[local] Transparent undo_page_records.

(** X6.  In a build with assertions, the first record of the first undo
    page whose own pointer names another block stops the call at the
    [Assert]: nothing is stored for the page, and the walk goes no
    further. *)
Theorem misfiled_record_trips_the_assertion fcinfo relid rel metapage page
    fuel :
  call_accepted be relid rel ->
  srf_context_ok fcinfo ->
  USE_ASSERT_CHECKING be = true ->
  0 <= ZS_META_BLK ->
  rd_blocks rel !! Z.to_nat ZS_META_BLK = Some metapage ->
  let blkno := ZSMetaPageOpaque.zs_undo_head (as_ZSMetaPageOpaque metapage) in
  blkno <> InvalidBlockNumber ->
  0 <= blkno ->
  rd_blocks rel !! Z.to_nat blkno = Some page ->
  ZSUndoPageOpaque.zs_page_id (as_ZSUndoPageOpaque page) = ZS_UNDO_PAGE_ID ->
  SizeOfPageHeaderData < pd_lower page ->
  ZSUndoRecPtr.blkno
    (ZSUndoRec.undorecptr (undorec_at page SizeOfPageHeaderData)) <> blkno ->
  let r := pg_zs_undo_pages be (S fuel) fcinfo relid initial_world in
  fst r = Trapped
  /\ tupstore (snd r) = []
  /\ pages_read (trace (snd r)) = [ZS_META_BLK; blkno].
Proof.
  intros (Hsu & Hcat & Htemp & Hpoll) Hctx Hassert Hmeta Hmetapage blkno
    Hvalid Hpos Hpage Hid Hlower Hblk r. subst r.
  assert (pg_zs_undo_pages be (S fuel) fcinfo relid initial_world
          = (Trapped,
             mkWorld
               [ EvTableOpen relid; EvReadBuffer ZS_META_BLK;
                 EvLockBuffer ZS_META_BLK BUFFER_LOCK_SHARE;
                 EvUnlockReleaseBuffer ZS_META_BLK; EvCheckForInterrupts;
                 EvReadBuffer blkno;
                 EvLockBuffer blkno BUFFER_LOCK_EXCLUSIVE ]
               [] 1)) as ->.
  { subst blkno. unfold pg_zs_undo_pages.
    erewrite bind_returned by (by apply require_superuser_ok).
    erewrite bind_returned by (by apply check_rsinfo_ok).
    erewrite bind_returned by (by apply require_composite_result_ok).
    erewrite bind_returned by reflexivity.
    erewrite bind_returned by (by apply table_open_ok).
    erewrite bind_returned by (by apply reject_other_temp_ok).
    erewrite bind_returned by (by apply ReadBuffer_ok).
    erewrite bind_returned by reflexivity.
    erewrite bind_returned by reflexivity.
    simpl undo_walk.
    apply Z.eqb_neq in Hvalid, Hblk. apply Z.eqb_eq in Hid.
    apply Z.ltb_lt in Hlower. rewrite Hvalid.
    unfold mbind at 1. unfold M_bind at 1.
    erewrite bind_returned by (by apply CHECK_FOR_INTERRUPTS_ok).
    erewrite bind_returned by (by apply ReadBuffer_ok).
    erewrite bind_returned by reflexivity. simpl. rewrite Hid. simpl.
    rewrite Hlower. unfold Assert. rewrite Hassert, Hblk. simpl.
    unfold mbind, M_bind. by simpl. }
  done.
Qed.

(** ** The rows of pg_zs_dump_attstreams *)

Lemma zeroed_14_shaped : dump_values_shaped (zeroed 14).
Proof. exists (replicate 12 (DInt 0)). by split. Qed.

Lemma decoder_steps_cons fuel decoder decoder' chunk steps :
  get_attstream_chunk_cont decoder = DecOk (Some (decoder', chunk)) ->
  decoder_steps fuel decoder = Some steps ->
  exists fuel' steps',
    fuel = S fuel' /\ steps = (decoder', chunk) :: steps'
    /\ decoder_steps fuel' decoder' = Some steps'.
Proof.
  intros Hget Hsteps. destruct fuel as [|fuel']; simpl in Hsteps;
    rewrite Hget in Hsteps; [done|].
  apply fmap_Some in Hsteps as (steps' & Hsteps' & ->). by eexists _, _.
Qed.

(** The chunk loop on a decoder that stops within the fuel. *)
Lemma dump_stream_chunks_run stream i upperstream attno byval len :
  forall fuel decoder steps chunkno chunk_start values w,
    decoder_steps fuel decoder = Some steps ->
    dump_values_shaped values ->
    exists values',
      dump_values_shaped values'
      /\ dump_stream_chunks fuel decoder stream i upperstream attno byval len
           chunkno chunk_start values w
         = (Returned values',
            mkWorld (trace w)
              (tupstore w
               ++ chunk_rows stream i upperstream attno byval len steps
                    chunkno chunk_start)
              (polls w)).
Proof.
  induction fuel as [|fuel IH];
    intros decoder steps chunkno chunk_start values w Hsteps Hshape;
    destruct (get_attstream_chunk_cont decoder)
      as [[[decoder' [[[prevtid firsttid] lasttid] chunk]]|]|code msg]
      eqn:Hget;
    try (by (simpl in Hsteps; rewrite Hget in Hsteps)).
  - simpl in *. rewrite Hget in *. injection Hsteps as <-.
    exists values. split; [done|]. mrun. rewrite app_nil_r. by destruct w.
  - destruct (decoder_steps_cons _ _ _ _ _ Hget Hsteps)
      as (fuel' & steps' & [= <-] & -> & Hsteps').
    simpl. rewrite Hget. unfold decoded.
    erewrite bind_returned by reflexivity.
    destruct Hshape as (cols & Hlen & ->).
    do 13 (destruct cols as [|? cols]; try discriminate Hlen).
    erewrite bind_returned by reflexivity.
    match goal with
    | |- context [dump_stream_chunks fuel decoder' _ _ _ _ _ _ ?cn ?cs ?v ?w1] =>
        destruct (IH decoder' steps' cn cs v w1 Hsteps')
          as (values' & Hshape' & ->)
    end.
    { eexists [_; _; _; _; _; _; _; _; _; _; _; _].
      split; [reflexivity|]. unfold set_value. simpl. reflexivity. }
    exists values'. split; [done|]. simpl. by rewrite <- app_assoc.
  - simpl in *. rewrite Hget in *. injection Hsteps as <-.
    exists values. split; [done|]. mrun. rewrite app_nil_r. by destruct w.
Qed.

Lemma to_int32_range x : - 2 ^ 31 <= to_int32 x < 2 ^ 31.
Proof.
  unfold to_int32, wrap_signed. change (2 ^ (32 - 1)) with (2 ^ 31).
  pose proof (Z.mod_pos_bound (x + 2 ^ 31) (2 ^ 32)). lia.
Qed.

Lemma to_int32_idem x : to_int32 (to_int32 x) = to_int32 x.
Proof. apply to_int32_small, to_int32_range. Qed.

Lemma chunk_rows_length stream i upperstream attno byval len steps :
  forall chunkno chunk_start,
    length (chunk_rows stream i upperstream attno byval len steps chunkno
              chunk_start)
    = length steps.
Proof. induction steps as [|step steps IH]; intros; simpl; auto. Qed.

Lemma chunk_rows_lookup stream i upperstream attno byval len :
  forall steps chunkno chunk_start (k : nat) step,
    0 <= chunkno ->
    chunkno + Z.of_nat (length steps) < 2 ^ 31 ->
    steps !! k = Some step ->
    chunk_rows stream i upperstream attno byval len steps chunkno chunk_start
      !! k
    = Some
        (chunk_row stream i upperstream attno byval len
           (chunkno + Z.of_nat k)
           (match k with
            | O => chunk_start
            | S k' =>
                to_int32
                  (from_option (fun s => decoder_pos (fst s)) 0 (steps !! k'))
            end)
           step).
Proof.
  induction steps as [|step0 steps IH];
    intros chunkno chunk_start k step H0 Hmax Hk; [done|].
  destruct k as [|k]; simpl in *.
  - injection Hk as ->. by rewrite Z.add_0_r.
  - rewrite (to_int32_small (chunkno + 1)) by lia.
    rewrite (IH _ _ k step) by (try done; lia).
    replace (chunkno + 1 + Z.of_nat k) with (chunkno + Z.pos (Pos.of_succ_nat k))
      by lia.
    by destruct k.
Qed.

(** The rows that the chunk loop stores for a stream are the rows of its
    chunks. *)
Lemma chunk_rows_of_chunks stream i upperstream attno byval len decoder steps :
  Z.of_nat (length steps) < 2 ^ 31 ->
  rows_of_chunks decoder steps
    (chunk_rows stream i upperstream attno byval len steps 0
       (to_int32 (decoder_pos decoder))).
Proof.
  intros Hmax. split; [apply chunk_rows_length|].
  intros k decoder' prevtid firsttid lasttid chunk Hk.
  eexists. split; [by apply chunk_rows_lookup|].
  unfold column_int, column, chunk_row. simpl.
  unfold Int32GetDatum. rewrite to_int32_small.
  - repeat split; destruct k; simpl; by rewrite ?to_int32_idem.
  - apply lookup_lt_Some in Hk. lia.
Qed.

Lemma chunk_rows_upperstream stream i (upperstream : bool) attno byval len
    steps :
  forall chunkno chunk_start,
    Forall (fun row =>
              column row 2
              = Some (BoolGetDatum ((if upperstream then 1 else 0) =? i)))
      (chunk_rows stream i upperstream attno byval len steps chunkno
         chunk_start).
Proof.
  induction steps as [|[decoder [[[prevtid firsttid] lasttid] chunk]] steps IH];
    intros; constructor; [done | apply IH].
Qed.

(** An accepted call of [pg_zs_dump_attstreams] on a leaf page of a real
    attribute, with decoders that stop within the fuel. *)
Lemma pg_zs_dump_attstreams_run fuel fcinfo relid rel blkno page d_lo d_up
    steps_lo steps_up :
  call_accepted be relid rel ->
  srf_context_ok fcinfo ->
  0 <= blkno < 2 ^ 32 ->
  rd_blocks rel !! Z.to_nat blkno = Some page ->
  is_attribute_leaf page ->
  let attno := ZSBtreePageOpaque.zs_attno (as_ZSBtreePageOpaque page) in
  let byval := attbyval (rd_att rel (attno - 1)) in
  let len := attlen (rd_att rel (attno - 1)) in
  let lower := attstream_at page SizeOfPageHeaderData in
  let upper := attstream_at page (pd_upper page) in
  (has_lower_stream page = true ->
   stream_chunks fuel byval len lower d_lo steps_lo) ->
  (has_upper_stream page = true ->
   stream_chunks fuel byval len upper d_up steps_up) ->
  let upperstream :=
    if has_upper_stream page then has_lower_stream page
    else uninitialized_bool be in
  pg_zs_dump_attstreams be fuel fcinfo relid blkno initial_world
  = (Returned RetSet,
     mkWorld
       [ EvTableOpen relid; EvCheckForInterrupts; EvReadBuffer blkno;
         EvLockBuffer blkno BUFFER_LOCK_EXCLUSIVE;
         EvUnlockReleaseBuffer blkno; EvTableClose (rd_id rel) ]
       ((if has_lower_stream page then
           chunk_rows lower 0 upperstream attno byval len steps_lo 0
             (to_int32 (decoder_pos d_lo))
         else [])
        ++ (if has_upper_stream page then
              chunk_rows upper (if has_lower_stream page then 1 else 0)
                upperstream attno byval len steps_up 0
                (to_int32 (decoder_pos d_up))
            else []))
       1).
Proof.
  intros (Hsu & Hcat & Htemp & Hpoll) Hctx Hrange Hpage
    (Hsize & Hid & Hattr & Hlevel) attno byval len lower upper Hlo Hup
    upperstream.
  unfold pg_zs_dump_attstreams.
  assert (to_uint32 blkno = blkno) as -> by (apply Z.mod_small; lia).
  erewrite bind_returned by (by apply require_superuser_ok).
  erewrite bind_returned by (by apply check_rsinfo_ok).
  erewrite bind_returned by (by apply require_composite_result_ok).
  erewrite bind_returned by reflexivity.
  erewrite bind_returned by (by apply table_open_ok).
  erewrite bind_returned by (by apply reject_other_temp_ok).
  erewrite bind_returned by (by apply CHECK_FOR_INTERRUPTS_ok).
  erewrite bind_returned by (apply ReadBuffer_ok; [lia | done]).
  erewrite bind_returned by reflexivity.
  cbn [BufferGetPage].
  apply Z.eqb_eq in Hsize, Hid, Hlevel. apply Z.eqb_neq in Hattr.
  rewrite Hsize, Hid, Hattr, Hlevel. cbn [negb orb].
  fold attno byval len lower upper.
  change (to_size_t (pd_lower page - SizeOfPageHeaderData)
          >? SizeOfZSAttStreamHeader) with (has_lower_stream page).
  change (to_size_t (pd_special page - pd_upper page)
          >? SizeOfZSAttStreamHeader) with (has_upper_stream page).
  subst upperstream. unfold stream_chunks, stream_decoder in Hlo, Hup.
  destruct (has_lower_stream page), (has_upper_stream page);
    cbn [app Z.add Z.eqb negb Pos.add].
  - destruct (Hlo eq_refl) as [Blo Slo]. destruct (Hup eq_refl) as [Bup Sup].
    cbn [dump_streams]. rewrite Blo, Bup. unfold decoded.
    edestruct (dump_stream_chunks_run lower 0 true attno byval len)
      as (v1 & Hv1 & E1); [exact Slo | exact zeroed_14_shaped |].
    erewrite bind_returned; cycle 1.
    { erewrite bind_returned by reflexivity.
      erewrite bind_returned by (apply E1).
      erewrite bind_returned by reflexivity.
      edestruct (dump_stream_chunks_run upper (0 + 1) true attno byval len)
        as (v2 & Hv2 & E2); [exact Sup | exact Hv1 |].
      erewrite bind_returned by (apply E2). reflexivity. }
    by mrun.
  - destruct (Hlo eq_refl) as [Blo Slo]. cbn [dump_streams].
    rewrite Blo. unfold decoded.
    edestruct (dump_stream_chunks_run lower 0 (uninitialized_bool be) attno
                 byval len)
      as (v1 & Hv1 & E1); [exact Slo | exact zeroed_14_shaped |].
    erewrite bind_returned; cycle 1.
    { erewrite bind_returned by reflexivity.
      erewrite bind_returned by (apply E1). reflexivity. }
    mrun. by rewrite app_nil_r.
  - destruct (Hup eq_refl) as [Bup Sup]. cbn [dump_streams].
    rewrite Bup. unfold decoded.
    edestruct (dump_stream_chunks_run upper 0 false attno byval len)
      as (v1 & Hv1 & E1); [exact Sup | exact zeroed_14_shaped |].
    erewrite bind_returned; cycle 1.
    { erewrite bind_returned by reflexivity.
      erewrite bind_returned by (apply E1). reflexivity. }
    by mrun.
  - cbn [dump_streams]. by mrun.
Qed.

Lemma to_int32_add_r a b : to_int32 (a + to_int32 b) = to_int32 (a + b).
Proof.
  unfold to_int32, wrap_signed. change (2 ^ (32 - 1)) with (2 ^ 31).
  f_equal.
  replace (a + ((b + 2 ^ 31) mod 2 ^ 32 - 2 ^ 31) + 2 ^ 31)
    with (a + (b + 2 ^ 31) mod 2 ^ 32) by lia.
  rewrite Zplus_mod_idemp_r. f_equal. lia.
Qed.

Lemma rows_of_chunks_contiguous decoder steps rows :
  rows_of_chunks decoder steps rows -> cursors_contiguous rows.
Proof.
  intros [Hlen Hrows] k row row' cursor len Hk Hk' Hc Hl.
  assert (is_Some (steps !! k)) as [[d [[[p f] l] c]] Hs].
  { apply lookup_lt_is_Some. rewrite <- Hlen. by eapply lookup_lt_Some. }
  assert (is_Some (steps !! S k)) as [[d' [[[p' f'] l'] c']] Hs'].
  { apply lookup_lt_is_Some. rewrite <- Hlen. by eapply lookup_lt_Some. }
  destruct (Hrows _ _ _ _ _ _ Hs) as (r & Hr & _ & H6 & H7 & _).
  destruct (Hrows _ _ _ _ _ _ Hs') as (r' & Hr' & _ & H6' & _).
  assert (r = row) as -> by congruence.
  assert (r' = row') as -> by congruence.
  rewrite H6'. f_equal. simpl. rewrite Hs. simpl.
  rewrite H6 in Hc. rewrite H7 in Hl.
  injection Hc as <-. injection Hl as <-.
  rewrite to_int32_add_r. f_equal. lia.
Qed.

(** X7.  An accepted call of [pg_zs_dump_attstreams] on a leaf page of a
    real attribute on whose streams the decoder runs normally (it comes
    back from [decode_attstream_begin] and its chunks come to an end)
    returns the set of its chunk rows:
    first one row for every chunk of the lower stream, then one for every
    chunk of the upper stream, a stream that the page header does not show
    contributing none.  Within a stream the rows are numbered from 0, carry
    the chunk and its row ids as the decoder handed them out, and lie one
    after the other: each begins where the one before ends.  The buffer is
    released and only the one block is read. *)
Theorem dump_attstreams_chunk_rows fuel fcinfo relid rel blkno page lower
    upper steps_lo steps_up :
  call_accepted be relid rel ->
  srf_context_ok fcinfo ->
  0 <= blkno < 2 ^ 32 ->
  rd_blocks rel !! Z.to_nat blkno = Some page ->
  is_attribute_leaf page ->
  let attno := ZSBtreePageOpaque.zs_attno (as_ZSBtreePageOpaque page) in
  let byval := attbyval (rd_att rel (attno - 1)) in
  let len := attlen (rd_att rel (attno - 1)) in
  (has_lower_stream page = true ->
   stream_chunks fuel byval len (attstream_at page SizeOfPageHeaderData)
     lower steps_lo) ->
  (has_upper_stream page = true ->
   stream_chunks fuel byval len (attstream_at page (pd_upper page))
     upper steps_up) ->
  Z.of_nat (length steps_lo) < 2 ^ 31 ->
  Z.of_nat (length steps_up) < 2 ^ 31 ->
  let r := pg_zs_dump_attstreams be fuel fcinfo relid blkno initial_world in
  exists rows_lo rows_up,
    fst r = Returned RetSet
    /\ tupstore (snd r) = (rows_lo ++ rows_up)%list
    /\ (if has_lower_stream page then rows_of_chunks lower steps_lo rows_lo
        else rows_lo = [])
    /\ (if has_upper_stream page then rows_of_chunks upper steps_up rows_up
        else rows_up = [])
    /\ cursors_contiguous rows_lo
    /\ cursors_contiguous rows_up
    /\ pages_read (trace (snd r)) = [blkno]
    /\ ends_unlocked (snd r).
Proof.
  intros Hcall Hctx Hrange Hpage Hleaf attno byval len Hlo Hup
    Hmax_lo Hmax_up r. subst r.
  rewrite (pg_zs_dump_attstreams_run fuel fcinfo relid rel blkno page
             lower upper steps_lo steps_up) by done.
  fold attno byval len. cbn [fst snd tupstore trace].
  eexists _, _. split; [done|]. split; [reflexivity|].
  assert (forall decoder steps rows,
             rows_of_chunks decoder steps rows \/ rows = [] ->
             cursors_contiguous rows) as Hcont.
  { intros decoder steps rows [H | ->];
      [by eapply rows_of_chunks_contiguous|]. by intros k ? ? ? ? ?. }
  repeat split.
  - destruct (has_lower_stream page); [|done].
    by apply chunk_rows_of_chunks.
  - destruct (has_upper_stream page); [|done].
    by apply chunk_rows_of_chunks.
  - destruct (has_lower_stream page);
      [|by apply (Hcont lower steps_lo); right].
    apply (Hcont lower steps_lo). left. by apply chunk_rows_of_chunks.
  - destruct (has_upper_stream page);
      [|by apply (Hcont upper steps_up); right].
    apply (Hcont upper steps_up). left. by apply chunk_rows_of_chunks.
  - right. exists false. unfold scan_run. simpl.
    repeat (rewrite Z.eqb_refl; simpl). done.
Qed.

(** X8.  On a leaf page that has an upper stream, the [upperstream] column
    of [pg_zs_dump_attstreams] tells the two streams apart: it is false on
    every row of the lower stream and true on every row of the upper
    stream, whether or not the page has a lower stream. *)
Theorem dump_attstreams_upperstream_flag fuel fcinfo relid rel blkno page
    lower upper steps_lo steps_up :
  call_accepted be relid rel ->
  srf_context_ok fcinfo ->
  0 <= blkno < 2 ^ 32 ->
  rd_blocks rel !! Z.to_nat blkno = Some page ->
  is_attribute_leaf page ->
  let attno := ZSBtreePageOpaque.zs_attno (as_ZSBtreePageOpaque page) in
  let byval := attbyval (rd_att rel (attno - 1)) in
  let len := attlen (rd_att rel (attno - 1)) in
  (has_lower_stream page = true ->
   stream_chunks fuel byval len (attstream_at page SizeOfPageHeaderData)
     lower steps_lo) ->
  has_upper_stream page = true ->
  stream_chunks fuel byval len (attstream_at page (pd_upper page))
    upper steps_up ->
  let r := pg_zs_dump_attstreams be fuel fcinfo relid blkno initial_world in
  exists rows_lo rows_up,
    tupstore (snd r) = (rows_lo ++ rows_up)%list
    /\ length rows_lo
       = (if has_lower_stream page then length steps_lo else 0%nat)
    /\ length rows_up = length steps_up
    /\ Forall (fun row => column row 2 = Some (BoolGetDatum false)) rows_lo
    /\ Forall (fun row => column row 2 = Some (BoolGetDatum true)) rows_up.
Proof.
  intros Hcall Hctx Hrange Hpage Hleaf attno byval len Hlo Hupper Hup r.
  subst r.
  rewrite (pg_zs_dump_attstreams_run fuel fcinfo relid rel blkno page
             lower upper steps_lo steps_up) by done.
  fold attno byval len. cbn [fst snd tupstore]. rewrite Hupper.
  eexists _, _. split; [reflexivity|].
  destruct (has_lower_stream page); repeat split;
    try apply chunk_rows_length; try done.
  - apply (chunk_rows_upperstream _ 0 true).
  - apply (chunk_rows_upperstream _ 1 true).
  - apply (chunk_rows_upperstream _ 0 false).
Qed.

(** X9.  [upperstream] is assigned only where an upper stream is found.
    On a leaf page with a lower stream and no upper stream the variable is
    read without ever having been written: every row shows the lower
    stream as upper exactly when the uninitialised [bool] happened to be
    false. *)
Theorem dump_attstreams_upperstream_unset fuel fcinfo relid rel blkno page
    lower steps_lo :
  call_accepted be relid rel ->
  srf_context_ok fcinfo ->
  0 <= blkno < 2 ^ 32 ->
  rd_blocks rel !! Z.to_nat blkno = Some page ->
  is_attribute_leaf page ->
  let attno := ZSBtreePageOpaque.zs_attno (as_ZSBtreePageOpaque page) in
  let byval := attbyval (rd_att rel (attno - 1)) in
  let len := attlen (rd_att rel (attno - 1)) in
  has_lower_stream page = true ->
  has_upper_stream page = false ->
  stream_chunks fuel byval len (attstream_at page SizeOfPageHeaderData)
    lower steps_lo ->
  let r := pg_zs_dump_attstreams be fuel fcinfo relid blkno initial_world in
  length (tupstore (snd r)) = length steps_lo
  /\ Forall (fun row =>
               column row 2
               = Some (BoolGetDatum (negb (uninitialized_bool be))))
       (tupstore (snd r)).
Proof.
  intros Hcall Hctx Hrange Hpage Hleaf attno byval len Hlower Hupper
    Hlo r. subst r.
  rewrite (pg_zs_dump_attstreams_run fuel fcinfo relid rel blkno page
             lower lower steps_lo []) by (try done; by rewrite Hupper).
  fold attno byval len. cbn [fst snd tupstore]. rewrite Hlower, Hupper.
  rewrite app_nil_r. split; [apply chunk_rows_length|].
  pose proof (chunk_rows_upperstream
                (attstream_at page SizeOfPageHeaderData) 0
                (uninitialized_bool be) attno byval len steps_lo 0
                (to_int32 (decoder_pos lower))) as H.
  by destruct (uninitialized_bool be).
Qed.

(** ** The row of a toast page *)

(** X10.  An accepted call of [pg_zs_toast_pages] stores as many rows as
    there are toast pages after block 0, and for each such page a row of
    eight columns, none of them NULL: the block number, the owning row id,
    the total size, the slice offset, the predecessor, the successor, the
    decoded size and the compressed flag.  On a page that has no owning row
    id (it is 0) the row id and the total size are both reported as 0,
    whatever total size the page states. *)
Theorem toast_row_columns fcinfo relid rel blkno page :
  call_accepted be relid rel ->
  srf_context_ok fcinfo ->
  1 <= blkno ->
  rd_blocks rel !! Z.to_nat blkno = Some page ->
  is_toast_page page = true ->
  let opaque := as_ZSToastPageOpaque page in
  let rows :=
    tupstore (snd (pg_zs_toast_pages be fcinfo relid initial_world)) in
  length rows = length (List.filter is_toast_page (drop 1 (rd_blocks rel)))
  /\ exists row,
       row ∈ rows
       /\ length (t_values row) = 8%nat
       /\ t_nulls row = replicate 8 false
       /\ column row 0 = Some (Int64GetDatum blkno)
       /\ (ZSToastPageOpaque.zs_tid opaque = 0 ->
           column row 1 = Some (DInt 0) /\ column row 2 = Some (DInt 0))
       /\ (ZSToastPageOpaque.zs_tid opaque <> 0 ->
           column row 1
           = Some (Int64GetDatum (ZSToastPageOpaque.zs_tid opaque))
           /\ column row 2
              = Some (Int64GetDatum
                        (ZSToastPageOpaque.zs_total_size opaque)))
       /\ column row 3
          = Some (Int64GetDatum (ZSToastPageOpaque.zs_slice_offset opaque))
       /\ column row 4
          = Some (Int64GetDatum (ZSToastPageOpaque.zs_prev opaque))
       /\ column row 5
          = Some (Int64GetDatum (ZSToastPageOpaque.zs_next opaque))
       /\ column row 6
          = Some (Int32GetDatum
                    (ZSToastPageOpaque.zs_decompressed_size opaque))
       /\ column row 7
          = Some (BoolGetDatum (ZSToastPageOpaque.zs_is_compressed opaque)).
Proof.
  intros Hcall Hctx Hpos Hpage Hkind opaque rows. subst rows.
  unfold pg_zs_toast_pages.
  rewrite (physical_scan_run (toast_pages_iteration be) is_toast_page
             toast_page_row fcinfo relid rel) by
    (try done; intros; by apply toast_iteration_run).
  simpl tupstore.
  split; [apply scan_rows_length|].
  exists (toast_page_row blkno page).
  split.
  { replace blkno with (1 + Z.of_nat (Z.to_nat blkno - 1)) at 1 by lia.
    apply scan_rows_lookup; [|done].
    rewrite lookup_drop. rewrite <- Hpage. f_equal. lia. }
  unfold toast_page_row, column. fold opaque. simpl.
  do 3 (split; [done|]).
  split; [by intros ->|].
  split; [intros H; apply Z.eqb_neq in H; by rewrite H|].
  done.
Qed.

(** ** The statistics of a leaf page *)

Lemma meta_leaf_items_sizes page count off n t :
  (meta_leaf_items page off count n t t).1.2
  = (meta_leaf_items page off count n t t).2.
Proof.
  revert off n t. induction count as [|count IH]; intros off n t; [done|].
  simpl. apply IH.
Qed.

Lemma attribute_leaf_streams_stats streams :
  forall n c t u,
    0 <= c <= n ->
    n + Z.of_nat (length streams) < 2 ^ 31 ->
    let r := attribute_leaf_streams streams n c t u in
    r.1.1.1 = n + Z.of_nat (length streams)
    /\ c <= r.1.1.2 <= c + Z.of_nat (length streams)
    /\ (t = u -> r.1.1.2 = c -> r.1.2 = r.2).
Proof.
  induction streams as [|stream streams IH]; intros n c t u Hc Hn.
  { simpl. repeat split; lia. }
  cbn [attribute_leaf_streams]. cbv zeta.
  rewrite length_cons in *.
  rewrite (to_int32_small (n + 1)) by lia.
  destruct (negb (Z.land (ZSAttStream.t_flags stream) ATTSTREAM_COMPRESSED
                  =? 0)).
  - rewrite (to_int32_small (c + 1)) by lia.
    destruct (IH (n + 1) (c + 1)
                (to_int32 (t + ZSAttStream.t_size stream))
                (to_int32 (u + ZSAttStream.t_decompressed_size stream)))
      as (H1 & H2 & _); [lia..|].
    repeat split; lia.
  - destruct (IH (n + 1) c
                (to_int32 (t + ZSAttStream.t_size stream))
                (to_int32 (u + ZSAttStream.t_size stream)))
      as (H1 & H2 & H3); [lia..|].
    repeat split; try lia.
    intros -> Hsame. by apply H3.
Qed.

Lemma btree_page_stats_leaf page :
  let opaque := as_ZSBtreePageOpaque page in
  let '(nitems, ncompressed, totalsz, uncompressedsz) :=
    btree_page_stats page in
  ZSBtreePageOpaque.zs_level opaque = 0 ->
  (ZSBtreePageOpaque.zs_attno opaque = ZS_META_ATTRIBUTE_NUM ->
   ncompressed = 0 /\ totalsz = uncompressedsz)
  /\ (ZSBtreePageOpaque.zs_attno opaque <> ZS_META_ATTRIBUTE_NUM ->
      0 <= ncompressed <= nitems /\ nitems <= 2
      /\ (ncompressed = 0 -> totalsz = uncompressedsz)).
Proof.
  intros opaque. unfold btree_page_stats. fold opaque.
  destruct (Z.eqb_spec (ZSBtreePageOpaque.zs_level opaque) 0) as [E|E];
    [|done].
  destruct (Z.eqb_spec (ZSBtreePageOpaque.zs_attno opaque)
              ZS_META_ATTRIBUTE_NUM) as [A|A].
  - pose proof (meta_leaf_items_sizes page
                  (Z.to_nat (PageGetMaxOffsetNumber page
                             - FirstOffsetNumber + 1))
                  FirstOffsetNumber 0 0) as H.
    destruct (meta_leaf_items _ _ _ _ _ _) as [[n t] u]. simpl in H.
    intros _. split; [done|]. intros; done.
  - pose proof (leaf_streams_length page) as Hlen.
    destruct (attribute_leaf_streams_stats (leaf_streams page) 0 0 0 0)
      as (H1 & H2 & H3); [lia..|].
    destruct (attribute_leaf_streams _ _ _ _ _) as [[[n c] t] u].
    simpl in H1, H2, H3.
    intros _. split; [done|]. intros _.
    split; [lia|]. split; [lia|]. intros ->. by apply H3.
Qed.

(** X11.  The statistics [pg_zs_btree_pages] reports for a leaf page hang
    together.  On a leaf of the row-id tree no item counts as compressed and
    the encoded and the decoded size are the same number.  On a leaf of an
    attribute tree at most two streams are counted, the compressed ones are
    among them, and when none is compressed the encoded and the decoded
    size again agree. *)
Theorem leaf_statistics_consistent fcinfo relid rel blkno page :
  call_accepted be relid rel ->
  srf_context_ok fcinfo ->
  1 <= blkno ->
  rd_blocks rel !! Z.to_nat blkno = Some page ->
  is_btree_page page = true ->
  ZSBtreePageOpaque.zs_level (as_ZSBtreePageOpaque page) = 0 ->
  let opaque := as_ZSBtreePageOpaque page in
  let rows :=
    tupstore (snd (pg_zs_btree_pages be fcinfo relid initial_world)) in
  exists row nitems ncompressed totalsz uncompressedsz,
    row ∈ rows
    /\ column row 0 = Some (Int64GetDatum blkno)
    /\ column row 6 = Some (DInt nitems)
    /\ column row 7 = Some (DInt ncompressed)
    /\ column row 8 = Some (DInt totalsz)
    /\ column row 9 = Some (DInt uncompressedsz)
    /\ (ZSBtreePageOpaque.zs_attno opaque = ZS_META_ATTRIBUTE_NUM ->
        ncompressed = 0 /\ totalsz = uncompressedsz)
    /\ (ZSBtreePageOpaque.zs_attno opaque <> ZS_META_ATTRIBUTE_NUM ->
        0 <= ncompressed <= nitems /\ nitems <= 2
        /\ (ncompressed = 0 -> totalsz = uncompressedsz)).
Proof.
  intros Hcall Hctx Hpos Hpage Hkind Hleaf opaque rows. subst rows.
  unfold pg_zs_btree_pages.
  rewrite (physical_scan_run (btree_pages_iteration be) is_btree_page
             btree_page_row fcinfo relid rel) by
    (try done; intros; by apply btree_iteration_run).
  simpl tupstore.
  pose proof (btree_page_row_columns blkno page) as Hcols.
  pose proof (btree_page_stats_leaf page) as Hstats.
  simpl in Hcols, Hstats. fold opaque in Hcols, Hstats.
  destruct (btree_page_stats page) as [[[n c] t] u].
  destruct Hcols as (_ & C0 & _ & _ & _ & _ & _ & C6 & _ & Cl & _).
  destruct (Cl Hleaf) as (C7 & C8 & C9).
  destruct (Hstats Hleaf) as [Hmeta Hattr].
  exists (btree_page_row blkno page), (to_int32 n), (to_int32 c),
    (to_int32 t), (to_int32 u).
  split.
  { replace blkno with (1 + Z.of_nat (Z.to_nat blkno - 1)) at 1 by lia.
    apply scan_rows_lookup; [|done].
    rewrite lookup_drop. rewrite <- Hpage. f_equal. lia. }
  do 5 (split; [done|]).
  split.
  - intros A. destruct (Hmeta A) as [-> ->]. done.
  - intros A. destruct (Hattr A) as (Hc & Hn & Heq).
    rewrite (to_int32_small n), (to_int32_small c) by lia.
    repeat split; try lia. intros ->. by rewrite Heq.
Qed.

(** ** The page-number argument *)

Lemma to_uint32_of_uint64 x k :
  to_uint32 (wrap_unsigned 64 (x + k * 2 ^ 32)) = to_uint32 (wrap_unsigned 64 x).
Proof.
  unfold to_uint32, wrap_unsigned.
  rewrite (Z.mod_eq (x + k * 2 ^ 32) (2 ^ 64)), (Z.mod_eq x (2 ^ 64)) by lia.
  change (2 ^ 64) with (2 ^ 32 * 2 ^ 32).
  set (q1 := (x + k * 2 ^ 32) / (2 ^ 32 * 2 ^ 32)).
  set (q2 := x / (2 ^ 32 * 2 ^ 32)).
  replace (x + k * 2 ^ 32 - 2 ^ 32 * 2 ^ 32 * q1)
    with (x + (k - 2 ^ 32 * q1) * 2 ^ 32) by lia.
  replace (x - 2 ^ 32 * 2 ^ 32 * q2)
    with (x + (- (2 ^ 32 * q2)) * 2 ^ 32) by lia.
  by rewrite !Z_mod_plus_full.
Qed.

(** X12.  The functions that take a page number never check it against
    the width of a block number: [pg_zs_page_type] and
    [pg_zs_dump_attstreams] hand the 64-bit argument to [ReadBuffer] as a
    32-bit block number, so two arguments that differ by a multiple of
    2^32 are the same call, with the same result and the same effects. *)
Theorem page_number_argument_wraps fuel fcinfo relid pageno k w :
  pg_zs_page_type be relid (pageno + k * 2 ^ 32) w
  = pg_zs_page_type be relid pageno w
  /\ pg_zs_dump_attstreams be fuel fcinfo relid (pageno + k * 2 ^ 32) w
     = pg_zs_dump_attstreams be fuel fcinfo relid pageno w.
Proof.
  split.
  - unfold pg_zs_page_type. by rewrite to_uint32_of_uint64.
  - unfold pg_zs_dump_attstreams.
    assert (to_uint32 (pageno + k * 2 ^ 32) = to_uint32 pageno) as ->; [|done].
    unfold to_uint32, wrap_unsigned. apply Z_mod_plus_full.
Qed.

(** ** Cancelling the undo walk *)

Lemma scan_run_page_visit p blkno :
  scan_run (Unlocked p) (page_visit blkno) = Some (Unlocked false).
Proof.
  unfold scan_run. simpl. repeat (rewrite Z.eqb_refl; simpl). done.
Qed.

(** A walk that the [k]+1-th of its polls cancels: the first [k] pages of
    the chain are visited and leave their rows, the next page is not
    read. *)
Lemma undo_walk_cancelled rel :
  forall blkno chain stop,
    undo_chain be rel blkno chain stop ->
    forall (k fuel rec_fuel : nat) w,
      (k < length chain + match stop with Some _ => 1 | None => 0 end)%nat ->
      (k < fuel)%nat ->
      Forall (fun '(_, _, recs) => (length recs <= rec_fuel)%nat) chain ->
      (forall n, (polls w <= n < polls w + k)%nat ->
                 QueryCancelPending be n = false) ->
      QueryCancelPending be (polls w + k) = true ->
      undo_walk be fuel rec_fuel rel blkno w
      = (Raised ERRCODE_QUERY_CANCELED
           "canceling statement due to user request",
         mkWorld
           (trace w
            ++ flat_map (fun '(blkno, _, _) => page_visit blkno) (take k chain)
            ++ [EvCheckForInterrupts])
           (tupstore w ++ undo_chain_rows (take k chain))
           (S (polls w + k))).
Proof.
  intros blkno chain stop Hchain.
  induction Hchain as
    [ | blkno page Hvalid Hpos Hpage Hid
      | blkno page recs rest stop Hvalid Hpos Hpage Hid Hlower Hhdr Hpacked
          Hblk Hrest IH ];
    intros k fuel rec_fuel w Hk Hfuel Hrec Hquiet Hpending.
  - simpl in Hk. lia.
  - assert (k = 0%nat) as -> by (simpl in Hk; lia).
    destruct fuel as [|fuel]; [lia|].
    rewrite Nat.add_0_r in Hpending.
    destruct (iteration_cancelled rel blkno w Hpending) as (_ & _ & Hc).
    rewrite (Hc fuel rec_fuel Hvalid).
    simpl. by rewrite app_nil_r, Nat.add_0_r.
  - destruct fuel as [|fuel]; [lia|].
    destruct k as [|k].
    { rewrite Nat.add_0_r in Hpending.
      destruct (iteration_cancelled rel blkno w Hpending) as (_ & _ & Hc).
      rewrite (Hc fuel rec_fuel Hvalid).
      simpl. by rewrite app_nil_r, Nat.add_0_r. }
    simpl.
    apply Z.eqb_neq in Hvalid. apply Z.eqb_eq in Hid. rewrite Hvalid.
    erewrite bind_returned
      by (apply CHECK_FOR_INTERRUPTS_ok; apply Hquiet; lia).
    erewrite bind_returned by (by apply ReadBuffer_ok).
    erewrite bind_returned by reflexivity. simpl. rewrite Hid. simpl.
    inversion Hrec as [|? ? Hlen Hrec']; subst.
    pose proof (packed_records_length _ _ _ Hpacked).
    erewrite bind_returned; cycle 1.
    { apply undo_page_records_run with (recs := recs); try done; lia. }
    simpl. erewrite bind_returned by reflexivity.
    erewrite bind_returned by reflexivity.
    rewrite (IH k) by
      (simpl in *; try done; try lia;
       try (intros; apply Hquiet; lia);
       rewrite <- Hpending; f_equal; lia).
    simpl.
    unfold undo_page_row, set_value, zeroed. simpl.
    f_equal. f_equal.
    + by rewrite <- !app_assoc.
    + rewrite <- !app_assoc. simpl. do 2 f_equal.
      rewrite Z.add_0_l. unfold record_counter.
      by destruct (head recs), (last recs).
    + lia.
Qed.

(** X13.  A cancel request that the [k]+1-th poll of the undo walk finds
    pending stops [pg_zs_undo_pages] there: the call raises the query-cancel
    ERROR after the metapage and exactly the first [k] pages of the chain
    have been read and have left their rows, with no buffer locked, and the
    page whose turn it was is not read. *)
Theorem undo_walk_stops_at_cancel fcinfo relid rel metapage chain stop
    (k fuel : nat) :
  superuser be = true ->
  catalog be relid = Some rel ->
  is_other_temp rel = false ->
  srf_context_ok fcinfo ->
  0 <= ZS_META_BLK ->
  rd_blocks rel !! Z.to_nat ZS_META_BLK = Some metapage ->
  undo_chain be rel
    (ZSMetaPageOpaque.zs_undo_head (as_ZSMetaPageOpaque metapage)) chain stop ->
  (chain_fuel chain <= fuel)%nat ->
  (k < length chain + match stop with Some _ => 1 | None => 0 end)%nat ->
  (forall n, (n < k)%nat -> QueryCancelPending be n = false) ->
  QueryCancelPending be k = true ->
  let r := pg_zs_undo_pages be fuel fcinfo relid initial_world in
  fst r = Raised ERRCODE_QUERY_CANCELED
            "canceling statement due to user request"
  /\ pages_read (trace (snd r)) = ZS_META_BLK :: chain_blocks (take k chain)
  /\ tupstore (snd r) = undo_chain_rows (take k chain)
  /\ last (trace (snd r)) = Some EvCheckForInterrupts
  /\ ends_unlocked (snd r).
Proof.
  intros Hsu Hcat Htemp Hctx Hmeta Hpage Hchain Hfuel Hk Hquiet Hpending r.
  assert (r = (Raised ERRCODE_QUERY_CANCELED
                 "canceling statement due to user request",
               mkWorld
                 ([ EvTableOpen relid; EvReadBuffer ZS_META_BLK;
                    EvLockBuffer ZS_META_BLK BUFFER_LOCK_SHARE;
                    EvUnlockReleaseBuffer ZS_META_BLK ]
                  ++ flat_map (fun '(blkno, _, _) => page_visit blkno)
                       (take k chain)
                  ++ [EvCheckForInterrupts])
                 (undo_chain_rows (take k chain)) (S k))) as ->.
  { subst r. unfold pg_zs_undo_pages.
    erewrite bind_returned by (by apply require_superuser_ok).
    erewrite bind_returned by (by apply check_rsinfo_ok).
    erewrite bind_returned by (by apply require_composite_result_ok).
    erewrite bind_returned by reflexivity.
    erewrite bind_returned by (by apply table_open_ok).
    erewrite bind_returned by (by apply reject_other_temp_ok).
    erewrite bind_returned by (by apply ReadBuffer_ok).
    erewrite bind_returned by reflexivity.
    erewrite bind_returned by reflexivity.
    erewrite bind_raised; [reflexivity|].
    rewrite (undo_walk_cancelled rel _ chain stop Hchain k); simpl;
      try done.
    - unfold chain_fuel in Hfuel.
      destruct stop; simpl in *; try lia.
    - by apply chain_fuel_records.
    - intros n Hn. apply Hquiet. lia. }
  cbn [fst snd trace tupstore].
  split; [done|]. split.
  { rewrite pages_read_app. simpl. f_equal.
    rewrite pages_read_app. simpl. rewrite app_nil_r.
    induction (take k chain) as [|[[b p] recs] c IH]; simpl; [done|].
    by rewrite IH. }
  split; [done|]. split.
  { rewrite !app_assoc. apply last_snoc. }
  assert (forall c : list (Z * Page * list ZSUndoRec.t),
             scan_run (Unlocked false)
               (flat_map (fun '(blkno, _, _) => page_visit blkno) c)
             = Some (Unlocked false)) as Hvisits.
  { induction c as [|[[b p] recs] c IH]; [done|].
    cbn [flat_map]. rewrite (scan_run_app _ (page_visit b)).
    by rewrite scan_run_page_visit. }
  right. exists true. cbn [trace].
  rewrite app_assoc, scan_run_snoc, scan_run_app.
  unfold scan_run at 2. simpl. repeat (rewrite Z.eqb_refl; simpl).
  by rewrite Hvisits.
Qed.

(** ** Lock modes *)

Lemma locks_taken_app t1 t2 :
  locks_taken (t1 ++ t2) = (locks_taken t1 ++ locks_taken t2)%list.
Proof. apply omap_app. Qed.

Lemma locks_taken_scan_events blkno count :
  locks_taken (scan_events blkno count)
  = exclusively (seqZ blkno (Z.of_nat count)).
Proof.
  revert blkno. induction count as [|count IH]; intros blkno; [done|].
  rewrite seqZ_cons by lia. simpl. rewrite IH. unfold exclusively.
  do 3 f_equal; lia.
Qed.

Lemma locks_taken_undo_walk_events chain stop :
  locks_taken (undo_walk_events chain stop)
  = exclusively
      (chain_blocks chain
       ++ match stop with Some b => [b] | None => [] end).
Proof.
  unfold undo_walk_events, exclusively.
  rewrite locks_taken_app, map_app. f_equal.
  - induction chain as [|[[blkno page] recs] chain IH]; simpl; [done|].
    by rewrite IH.
  - by destruct stop.
Qed.

#[local] Opaque dump_streams.

(** The locks of an accepted call of [pg_zs_dump_attstreams] on a block
    of the relation, however the call ends. *)
Lemma pg_zs_dump_attstreams_locks fuel fcinfo relid rel pageno page :
  call_accepted be relid rel ->
  srf_context_ok fcinfo ->
  0 <= pageno < 2 ^ 32 ->
  rd_blocks rel !! Z.to_nat pageno = Some page ->
  locks_taken
    (trace (snd (pg_zs_dump_attstreams be fuel fcinfo relid pageno
                   initial_world)))
  = exclusively [pageno].
Proof.
  intros (Hsu & Hcat & Htemp & Hpoll) Hctx Hrange Hpage.
  unfold pg_zs_dump_attstreams.
  assert (to_uint32 pageno = pageno) as -> by (apply Z.mod_small; lia).
  erewrite bind_returned by (by apply require_superuser_ok).
  erewrite bind_returned by (by apply check_rsinfo_ok).
  erewrite bind_returned by (by apply require_composite_result_ok).
  erewrite bind_returned by reflexivity.
  erewrite bind_returned by (by apply table_open_ok).
  erewrite bind_returned by (by apply reject_other_temp_ok).
  erewrite bind_returned by (by apply CHECK_FOR_INTERRUPTS_ok).
  erewrite bind_returned by (apply ReadBuffer_ok; [lia | done]).
  erewrite bind_returned by reflexivity.
  cbn [BufferGetPage]. cbv zeta.
  repeat match goal with
         | |- context [if ?b then _ else _] => destruct b; simpl
         end;
    first
      [ by mrun
      | unfold mbind, M_bind;
        match goal with
        | |- context [dump_streams ?f ?s ?i ?u ?a ?b ?l ?v ?w] =>
            pose proof (dump_streams_effect f s i u a b l v w)
              as (Ht & _ & Ho);
            destruct (dump_streams f s i u a b l v w) as [o w1]
        end; simpl in *;
        destruct Ho as [-> | [(code & msg & ->) | ->]]; simpl;
        rewrite ?locks_taken_app, Ht; reflexivity ].
Qed.

#[local] Transparent dump_streams.

(** X14.  The inspection functions only read, yet most of them lock the
    pages they look at in exclusive mode: an accepted call of
    [pg_zs_btree_pages] or [pg_zs_toast_pages] takes the exclusive lock on
    every block after block 0, one after the other; [pg_zs_undo_pages]
    takes it on every page of the undo chain, and on the page that ends
    the walk if one does; [pg_zs_meta_page] takes it on the metapage;
    [pg_zs_dump_attstreams] takes it on the page it is asked for, whatever
    the page holds and however the decoding ends.  Shared locks are taken
    in two places only: by [pg_zs_page_type] on the page it classifies,
    and by [pg_zs_undo_pages] on the metapage, to read the undo head.
    These are all the locks of the six functions. *)
Theorem inspection_lock_modes fcinfo relid rel metapage chain stop fuel
    pageno page :
  call_accepted be relid rel ->
  srf_context_ok fcinfo ->
  0 <= ZS_META_BLK ->
  rd_blocks rel !! Z.to_nat ZS_META_BLK = Some metapage ->
  undo_chain be rel
    (ZSMetaPageOpaque.zs_undo_head (as_ZSMetaPageOpaque metapage)) chain stop ->
  (chain_fuel chain <= fuel)%nat ->
  0 <= pageno < 2 ^ 32 ->
  rd_blocks rel !! Z.to_nat pageno = Some page ->
  let after_block_0 := seqZ 1 (Z.of_nat (length (drop 1 (rd_blocks rel)))) in
  locks_taken
    (trace (snd (pg_zs_btree_pages be fcinfo relid initial_world)))
  = exclusively after_block_0
  /\ locks_taken
       (trace (snd (pg_zs_toast_pages be fcinfo relid initial_world)))
     = exclusively after_block_0
  /\ locks_taken
       (trace (snd (pg_zs_undo_pages be fuel fcinfo relid initial_world)))
     = (ZS_META_BLK, BUFFER_LOCK_SHARE)
       :: exclusively
            (chain_blocks chain
             ++ match stop with Some b => [b] | None => [] end)
  /\ locks_taken
       (trace (snd (pg_zs_meta_page be fcinfo relid initial_world)))
     = exclusively [ZS_META_BLK]
  /\ locks_taken
       (trace (snd (pg_zs_dump_attstreams be fuel fcinfo relid pageno
                      initial_world)))
     = exclusively [pageno]
  /\ locks_taken
       (trace (snd (pg_zs_page_type be relid pageno initial_world)))
     = [(pageno, BUFFER_LOCK_SHARE)].
Proof.
  intros Hcall Hctx Hmeta Hpage Hchain Hfuel Hrange Hblock after_block_0.
  subst after_block_0.
  refine (conj _ (conj _ (conj _ (conj _ (conj _ _))))).
  - unfold pg_zs_btree_pages.
    rewrite (physical_scan_run (btree_pages_iteration be) is_btree_page
               btree_page_row fcinfo relid rel) by
      (try done; intros; by apply btree_iteration_run).
    cbn [snd trace].
    change (EvTableOpen relid :: ?t) with ([EvTableOpen relid] ++ t)%list.
    rewrite !locks_taken_app, locks_taken_scan_events. simpl.
    by rewrite app_nil_r.
  - unfold pg_zs_toast_pages.
    rewrite (physical_scan_run (toast_pages_iteration be) is_toast_page
               toast_page_row fcinfo relid rel) by
      (try done; intros; by apply toast_iteration_run).
    cbn [snd trace].
    change (EvTableOpen relid :: ?t) with ([EvTableOpen relid] ++ t)%list.
    rewrite !locks_taken_app, locks_taken_scan_events. simpl.
    by rewrite app_nil_r.
  - rewrite (pg_zs_undo_pages_run fcinfo relid rel metapage chain stop fuel)
      by done.
    cbn [snd trace].
    rewrite !locks_taken_app, locks_taken_undo_walk_events. simpl.
    by rewrite app_nil_r.
  - pose proof (pg_zs_meta_page_run fcinfo relid rel metapage Hcall Hctx
                  Hmeta Hpage) as Hrun.
    cbv zeta in Hrun. rewrite Hrun.
    by repeat split_if.
  - by apply (pg_zs_dump_attstreams_locks fuel fcinfo relid rel pageno page).
  - destruct Hcall as (Hsu & Hcat & Htemp & _).
    by rewrite (pg_zs_page_type_run relid pageno rel page initial_world).
Qed.

(** ** An ERROR of the decoder *)

Lemma decoder_gives_up_cons fuel decoder decoder' chunk steps e :
  get_attstream_chunk_cont decoder = DecOk (Some (decoder', chunk)) ->
  decoder_gives_up fuel decoder = Some (steps, e) ->
  exists fuel' steps',
    fuel = S fuel' /\ steps = (decoder', chunk) :: steps'
    /\ decoder_gives_up fuel' decoder' = Some (steps', e).
Proof.
  intros Hget Hsteps. destruct fuel as [|fuel']; simpl in Hsteps;
    rewrite Hget in Hsteps; [done|].
  apply fmap_Some in Hsteps as ([steps' e'] & Hsteps' & [= -> ->]).
  by eexists _, _.
Qed.

(** The chunk loop on a decoder that gives up: the rows of the chunks it
    handed out before are stored, and its ERROR ends the loop. *)
Lemma dump_stream_chunks_fails stream i upperstream attno byval len :
  forall fuel decoder steps code msg chunkno chunk_start values w,
    decoder_gives_up fuel decoder = Some (steps, (code, msg)) ->
    dump_values_shaped values ->
    dump_stream_chunks fuel decoder stream i upperstream attno byval len
      chunkno chunk_start values w
    = (Raised code msg,
       mkWorld (trace w)
         (tupstore w
          ++ chunk_rows stream i upperstream attno byval len steps
               chunkno chunk_start)
         (polls w)).
Proof.
  induction fuel as [|fuel IH];
    intros decoder steps code msg chunkno chunk_start values w Hsteps Hshape;
    destruct (get_attstream_chunk_cont decoder)
      as [[[decoder' [[[prevtid firsttid] lasttid] chunk]]|]|code' msg']
      eqn:Hget;
    try (by (simpl in Hsteps; rewrite Hget in Hsteps)).
  - simpl in *. rewrite Hget in *. injection Hsteps as <- <- <-.
    unfold decoded. mrun. rewrite app_nil_r. by destruct w.
  - destruct (decoder_gives_up_cons _ _ _ _ _ _ Hget Hsteps)
      as (fuel' & steps' & [= <-] & -> & Hsteps').
    simpl. rewrite Hget. unfold decoded.
    erewrite bind_returned by reflexivity.
    destruct Hshape as (cols & Hlen & ->).
    do 13 (destruct cols as [|? cols]; try discriminate Hlen).
    erewrite bind_returned by reflexivity.
    match goal with
    | |- context [dump_stream_chunks fuel decoder' _ _ _ _ _ _ ?cn ?cs ?v ?w1] =>
        rewrite (IH decoder' steps' code msg cn cs v w1 Hsteps')
    end.
    { simpl. by rewrite <- app_assoc. }
    eexists [_; _; _; _; _; _; _; _; _; _; _; _].
    split; [reflexivity|]. unfold set_value. simpl. reflexivity.
  - simpl in *. rewrite Hget in *. injection Hsteps as <- <- <-.
    unfold decoded. mrun. rewrite app_nil_r. by destruct w.
Qed.

(** X17.  [pg_zs_dump_attstreams] calls the decoder between [LockBuffer]
    and [UnlockReleaseBuffer] and does not catch what it raises.  When the
    decoder gives up on the lower stream of a leaf page, in
    [decode_attstream_begin] or after some chunks, an accepted call leaves
    with the decoder's ERROR: the rows of the chunks handed out before are
    in the tuplestore, the page is still locked, and neither
    [UnlockReleaseBuffer] nor [table_close] has been reached. *)
Theorem decoder_error_leaves_page_locked fuel fcinfo relid rel blkno page
    steps code msg :
  call_accepted be relid rel ->
  srf_context_ok fcinfo ->
  0 <= blkno < 2 ^ 32 ->
  rd_blocks rel !! Z.to_nat blkno = Some page ->
  is_attribute_leaf page ->
  has_lower_stream page = true ->
  let attno := ZSBtreePageOpaque.zs_attno (as_ZSBtreePageOpaque page) in
  let byval := attbyval (rd_att rel (attno - 1)) in
  let len := attlen (rd_att rel (attno - 1)) in
  stream_fails fuel byval len (attstream_at page SizeOfPageHeaderData) steps
    code msg ->
  let r := pg_zs_dump_attstreams be fuel fcinfo relid blkno initial_world in
  fst r = Raised code msg
  /\ length (tupstore (snd r)) = length steps
  /\ trace (snd r)
     = [ EvTableOpen relid; EvCheckForInterrupts; EvReadBuffer blkno;
         EvLockBuffer blkno BUFFER_LOCK_EXCLUSIVE ]
  /\ scan_run Prelude (trace (snd r)) = Some (Locked blkno).
Proof.
  intros (Hsu & Hcat & Htemp & Hpoll) Hctx Hrange Hpage
    (Hsize & Hid & Hattr & Hlevel) Hlower attno byval len Hfails r.
  assert (exists rows,
             length rows = length steps
             /\ r = (Raised code msg,
                     mkWorld
                       [ EvTableOpen relid; EvCheckForInterrupts;
                         EvReadBuffer blkno;
                         EvLockBuffer blkno BUFFER_LOCK_EXCLUSIVE ]
                       rows 1)) as (rows & Hrows & ->).
  { subst r. unfold pg_zs_dump_attstreams.
    assert (to_uint32 blkno = blkno) as -> by (apply Z.mod_small; lia).
    erewrite bind_returned by (by apply require_superuser_ok).
    erewrite bind_returned by (by apply check_rsinfo_ok).
    erewrite bind_returned by (by apply require_composite_result_ok).
    erewrite bind_returned by reflexivity.
    erewrite bind_returned by (by apply table_open_ok).
    erewrite bind_returned by (by apply reject_other_temp_ok).
    erewrite bind_returned by (by apply CHECK_FOR_INTERRUPTS_ok).
    erewrite bind_returned by (apply ReadBuffer_ok; [lia | done]).
    erewrite bind_returned by reflexivity.
    cbn [BufferGetPage].
    apply Z.eqb_eq in Hsize, Hid, Hlevel. apply Z.eqb_neq in Hattr.
    rewrite Hsize, Hid, Hattr, Hlevel. cbn [negb orb].
    fold attno byval len.
    change (to_size_t (pd_lower page - SizeOfPageHeaderData)
            >? SizeOfZSAttStreamHeader) with (has_lower_stream page).
    rewrite Hlower. cbn [app Z.add].
    unfold stream_fails, stream_decoder in Hfails.
    destruct Hfails as [[Hbegin ->] | (decoder & Hbegin & Hgives)].
    - exists []. split; [done|].
      destruct (to_size_t (pd_special page - pd_upper page)
                >? SizeOfZSAttStreamHeader);
        cbn [dump_streams]; rewrite Hbegin; unfold decoded; by mrun.
    - destruct (to_size_t (pd_special page - pd_upper page)
                >? SizeOfZSAttStreamHeader);
        cbn [dump_streams]; rewrite Hbegin; unfold decoded;
        (eexists; split; cycle 1;
         [ erewrite bind_raised; [reflexivity|];
           erewrite bind_returned by reflexivity;
           erewrite bind_raised; [reflexivity|];
           by apply dump_stream_chunks_fails, zeroed_14_shaped
         | simpl; apply chunk_rows_length ]). }
  cbn [fst snd trace tupstore].
  repeat split; try done.
  unfold scan_run. simpl. repeat (rewrite Z.eqb_refl; simpl). done.
Qed.

(** ** The order of the opening checks *)

(** X15.  The privilege check comes before everything else: for someone
    who is not superuser each of the six functions that look at a relation
    raises the insufficient-privilege ERROR and has done nothing at all by
    then, whatever the call context is and whether or not the relation
    exists: no relation opened, no interrupt polled, no page touched. *)
Theorem privilege_is_checked_first fuel fcinfo relid pageno w :
  superuser be = false ->
  let denied : Outcome FnResult * World :=
    (Raised ERRCODE_INSUFFICIENT_PRIVILEGE
       "must be superuser to use zedstore inspection functions", w) in
  pg_zs_page_type be relid pageno w = denied
  /\ Forall (fun f => f w = denied) (row_functions be fuel fcinfo relid pageno).
Proof.
  intros Hsu denied. subst denied.
  split; [|repeat constructor].
  all: cbv beta;
    unfold pg_zs_page_type, pg_zs_undo_pages, pg_zs_toast_pages,
      pg_zs_dump_attstreams, pg_zs_btree_pages, pg_zs_meta_page;
    cbv zeta.
  all: by erewrite bind_raised by (by apply require_superuser_rejects).
Qed.

(** X16.  The five functions that build their result with a tuple
    descriptor, [pg_zs_meta_page] with its single row among them, reject a
    superuser's call whose context does not fit before they open the
    relation: a caller that cannot accept a set, then a caller that does
    not allow materialize mode, then a result type that is no row type.
    The ERROR is the same for all five, and by then nothing has been
    done: the relation need not even exist. *)
Theorem bad_call_context_is_rejected_unopened fuel fcinfo relid pageno w :
  superuser be = true ->
  ~ srf_context_ok fcinfo ->
  exists code msg,
    Forall (fun f => f w = (Raised code msg, w))
      (row_functions be fuel fcinfo relid pageno)
    /\ (code, msg)
       = match resultinfo fcinfo with
         | None =>
             (ERRCODE_FEATURE_NOT_SUPPORTED,
              "set-valued function called in context that cannot accept a set")
         | Some rsinfo =>
             if negb (IsA_ReturnSetInfo rsinfo) then
               (ERRCODE_FEATURE_NOT_SUPPORTED,
                "set-valued function called in context that cannot accept a set")
             else if Z.land (allowedModes rsinfo) SFRM_Materialize =? 0 then
               (ERRCODE_FEATURE_NOT_SUPPORTED,
                "materialize mode required, but it is not allowed in this context")
             else (ERRCODE_INTERNAL_ERROR, "return type must be a row type")
         end.
Proof.
  intros Hsu Hbad.
  assert (exists code msg,
             (require_superuser be ;; check_rsinfo fcinfo ;;
              require_composite_result fcinfo) w = (Raised code msg, w)
             /\ (code, msg)
                = match resultinfo fcinfo with
                  | None =>
                      (ERRCODE_FEATURE_NOT_SUPPORTED,
                       "set-valued function called in context that cannot accept a set")
                  | Some rsinfo =>
                      if negb (IsA_ReturnSetInfo rsinfo) then
                        (ERRCODE_FEATURE_NOT_SUPPORTED,
                         "set-valued function called in context that cannot accept a set")
                      else if Z.land (allowedModes rsinfo) SFRM_Materialize
                              =? 0 then
                        (ERRCODE_FEATURE_NOT_SUPPORTED,
                         "materialize mode required, but it is not allowed in this context")
                      else
                        (ERRCODE_INTERNAL_ERROR,
                         "return type must be a row type")
                  end) as (code & msg & Hopening & Hwhich).
  { erewrite bind_returned by (by apply require_superuser_ok).
    unfold check_rsinfo, require_composite_result.
    destruct (resultinfo fcinfo) as [rsinfo|] eqn:Hrs;
      [|by do 2 eexists].
    destruct (IsA_ReturnSetInfo rsinfo) eqn:Hisa; simpl;
      [|by do 2 eexists].
    destruct (Z.eqb_spec (Z.land (allowedModes rsinfo) SFRM_Materialize) 0)
      as [Hmode|Hmode]; [by do 2 eexists|].
    destruct (result_type_is_composite fcinfo) eqn:Hcomp;
      [|by do 2 eexists].
    destruct Hbad. by exists rsinfo. }
  exists code, msg. split; [|done].
  assert (forall rest : M FnResult,
             (require_superuser be ;; check_rsinfo fcinfo ;;
              require_composite_result fcinfo ;; rest) w
             = (Raised code msg, w)) as Hall.
  { intros rest. revert Hopening. unfold mbind, M_bind.
    destruct (require_superuser be w) as [[[]| | |] w1]; simpl;
      try (intros H; by simplify_eq).
    destruct (check_rsinfo fcinfo w1) as [[[]| | |] w2]; simpl;
      try (intros H; by simplify_eq).
    destruct (require_composite_result fcinfo w2) as [[[]| | |] w3]; simpl;
      intros H; by simplify_eq. }
  repeat constructor.
  - apply Hall.
  - apply Hall.
  - apply Hall.
  - apply Hall.
  - apply Hall.
Qed.

End Properties.

(** * The theorems at work on the sample relations *)

Section Examples.

#[local] Existing Instance stock_headers.
#[local] Existing Instance bytewise_decoder.

Lemma superuser_backend_accepts_sample_rel :
  call_accepted superuser_backend 16384 sample_rel.
Proof. repeat split. Defined.

Lemma superuser_backend_accepts_recycled_rel :
  call_accepted superuser_backend 16385 recycled_rel.
Proof. repeat split. Defined.

Lemma superuser_backend_accepts_blank_rel :
  call_accepted superuser_backend 16386 blank_rel.
Proof. repeat split. Defined.

Lemma sample_fcinfo_ok : srf_context_ok sample_fcinfo.
Proof. exists (mkRsinfo true 3). repeat split. discriminate. Defined.

Lemma page_type_classification_witness :
  fst (pg_zs_page_type superuser_backend 16384 3 initial_world)
  = Returned (RetText "BTREE").
Proof.
  destruct (page_type_classification superuser_backend 16384 3 sample_rel
              (sample_btree_page 1 0 4294967295) initial_world) as [H _];
    [reflexivity | reflexivity | reflexivity | lia | reflexivity | exact H].
Defined.

Lemma rejected_before_any_page_is_read_witness :
  (* a caller who is not superuser *)
  rejected_unread initial_world
    (pg_zs_btree_pages plain_user_backend sample_fcinfo 16384 initial_world)
  /\ rejected_unread initial_world
       (pg_zs_meta_page plain_user_backend sample_fcinfo 16384 initial_world)
  (* a superuser on the temporary relation of another session *)
  /\ rejected_unread initial_world
       (pg_zs_page_type superuser_backend 16387 0 initial_world)
  /\ rejected_unread initial_world
       (pg_zs_undo_pages superuser_backend 10 sample_fcinfo 16387
          initial_world).
Proof.
  destruct (rejected_before_any_page_is_read plain_user_backend 10
              sample_fcinfo 16384 0 initial_world) as (_ & _ & H1 & _ & _ & H2);
    [left; reflexivity|].
  destruct (rejected_before_any_page_is_read superuser_backend 10
              sample_fcinfo 16387 0 initial_world) as (H3 & H4 & _);
    [right; exists other_temp_rel; split; reflexivity|].
  exact (conj H1 (conj H2 (conj H3 H4))).
Defined.

Lemma undo_walk_stops_with_warning_witness :
  let r := pg_zs_undo_pages superuser_backend 10 sample_fcinfo 16385
             initial_world in
  fst r = Returned RetSet
  /\ warnings (trace (snd r)) = ["unexpected page id on UNDO page 2"]
  /\ pages_read (trace (snd r)) = [0; 1; 2]
  /\ length (tupstore (snd r)) = 1%nat.
Proof.
  destruct (undo_walk_stops_with_warning superuser_backend sample_fcinfo 16385
              recycled_rel (sample_metapage 1 2) recycled_chain 2 10)
    as (H1 & H2 & H3 & H4).
  - exact superuser_backend_accepts_recycled_rel.
  - exact sample_fcinfo_ok.
  - simpl; lia.
  - reflexivity.
  - eapply chain_page;
      [ discriminate | simpl; lia | reflexivity | reflexivity | simpl; lia
      | simpl; lia
      | apply packed_next; [simpl; lia | simpl; lia |];
        apply packed_next; [simpl; lia | simpl; lia |];
        apply packed_end; simpl; lia
      | intros _; repeat constructor
      | eapply chain_stop;
        [discriminate | simpl; lia | reflexivity | discriminate] ].
  - vm_compute. lia.
  - cbv zeta. rewrite H4. exact (conj H1 (conj H2 (conj H3 eq_refl))).
Defined.

Lemma undo_pages_rows_witness :
  let r := pg_zs_undo_pages superuser_backend 10 sample_fcinfo 16384
             initial_world in
  fst r = Returned RetSet
  /\ pages_read (trace (snd r)) = [0; 1; 2]
  /\ tupstore (snd r)
     = [ mkTuple [DInt 1; DInt 2; DInt 8080; DInt 5; DInt 6]
           [false; false; false; false; false];
         mkTuple [DInt 2; DInt 2; DInt 8080; DInt 7; DInt 8]
           [false; false; false; false; false] ].
Proof.
  destruct (undo_pages_rows superuser_backend sample_fcinfo 16384
              sample_rel (sample_metapage 1 2) sample_chain 10)
    as (H1 & H2 & H3 & _).
  - exact superuser_backend_accepts_sample_rel.
  - exact sample_fcinfo_ok.
  - simpl; lia.
  - reflexivity.
  - eapply chain_page;
      [ discriminate | simpl; lia | reflexivity | reflexivity | simpl; lia
      | simpl; lia
      | apply packed_next; [simpl; lia | simpl; lia |];
        apply packed_next; [simpl; lia | simpl; lia |];
        apply packed_end; simpl; lia
      | intros _; repeat constructor
      | ].
    eapply chain_page.
    + discriminate.
    + simpl; lia.
    + reflexivity.
    + reflexivity.
    + simpl; lia.
    + simpl; lia.
    + apply packed_next; [simpl; lia | simpl; lia |];
        apply packed_next; [simpl; lia | simpl; lia |];
        apply packed_end; simpl; lia.
    + intros _; repeat constructor.
    + exact (chain_end superuser_backend sample_rel).
  - vm_compute. lia.
  - exact (conj H1 (conj H2 H3)).
Defined.

(** Relation 16385 at work: the walk reaches block 2, whose page id is
    that of a free page, and the call returns without an ERROR. *)
Lemma undo_walk_unexpected_page_is_no_error :
  let r := pg_zs_undo_pages superuser_backend 10 sample_fcinfo 16385
             initial_world in
  rd_blocks recycled_rel !! 2%nat = Some sample_free_page
  /\ ZSUndoPageOpaque.zs_page_id (as_ZSUndoPageOpaque sample_free_page)
     <> ZS_UNDO_PAGE_ID
  /\ pages_read (trace (snd r)) = [0; 1; 2]
  /\ ~ raised (fst r).
Proof.
  vm_compute. repeat split; try discriminate.
  intros (code & msg & H). discriminate H.
Qed.

Lemma sample_leaf_header_sane :
  page_header_sane (sample_btree_page 1 0 4294967295).
Proof. unfold page_header_sane. simpl. lia. Defined.

Lemma btree_row_columns_witness :
  (* block 4, an internal page with six entries *)
  (exists row,
      row ∈ tupstore (snd (pg_zs_btree_pages superuser_backend sample_fcinfo
                             16384 initial_world))
      /\ column row 0 = Some (DInt 4)
      /\ column row 3 = Some (DInt 1)
      /\ column row 6 = Some (DInt 6)
      /\ column row 7 = None /\ column row 8 = None /\ column row 9 = None)
  (* block 3, a leaf with a compressed stream of 100 bytes (400
     decompressed) and an uncompressed stream of 60 bytes *)
  /\ (exists row,
         row ∈ tupstore (snd (pg_zs_btree_pages superuser_backend
                                sample_fcinfo 16384 initial_world))
         /\ column row 0 = Some (DInt 3)
         /\ column row 3 = Some (DInt 0)
         /\ column row 6 = Some (DInt 2)
         /\ column row 7 = Some (DInt 1)
         /\ column row 8 = Some (DInt 160)
         /\ column row 9 = Some (DInt 460)).
Proof.
  destruct (btree_row_columns superuser_backend sample_fcinfo 16384
              sample_rel 4 (sample_btree_page 1 1 4294967295))
    as (_ & row & Hin & _ & H0 & _ & _ & H3 & _ & _ & H6 & _ & _ & Hnull & _);
    [ exact superuser_backend_accepts_sample_rel | exact sample_fcinfo_ok
    | lia | reflexivity | reflexivity | intros Hlevel; discriminate Hlevel | ].
  destruct (btree_row_columns superuser_backend sample_fcinfo 16384
              sample_rel 3 (sample_btree_page 1 0 4294967295))
    as (_ & row' & Hin' & _ & H0' & _ & _ & H3' & _ & _ & H6' & _ & Hleaf & _);
    [ exact superuser_backend_accepts_sample_rel | exact sample_fcinfo_ok
    | lia | reflexivity | reflexivity
    | intros _ _; exact sample_leaf_header_sane | ].
  destruct Hleaf as (H7' & H8' & H9'); [reflexivity|].
  split.
  - exists row. split; [exact Hin|]. split; [exact H0|]. split; [exact H3|].
    split; [exact H6|]. apply Hnull. discriminate.
  - exists row'.
    exact (conj Hin' (conj H0' (conj H3' (conj H6' (conj H7'
             (conj H8' H9')))))).
Defined.


Lemma physical_scans_skip_other_pages_witness :
  let rb := pg_zs_btree_pages superuser_backend sample_fcinfo 16384
              initial_world in
  let rt := pg_zs_toast_pages superuser_backend sample_fcinfo 16384
              initial_world in
  fst rb = Returned RetSet /\ fst rt = Returned RetSet
  /\ pages_read (trace (snd rb)) = [1; 2; 3; 4; 5; 6]
  /\ length (tupstore (snd rb)) = 3%nat
  /\ length (tupstore (snd rt)) = 1%nat.
Proof.
  destruct (physical_scans_skip_other_pages superuser_backend sample_fcinfo
              16384 sample_rel)
    as [(Hb1 & Hb2 & Hb3 & _) (Ht1 & Ht2 & _)].
  - exact superuser_backend_accepts_sample_rel.
  - exact sample_fcinfo_ok.
  - simpl; lia.
  - cbv zeta. rewrite Hb2, Ht2.
    exact (conj Hb1 (conj Ht1 (conj Hb3 (conj eq_refl eq_refl)))).
Defined.

Lemma meta_page_snapshot_witness :
  fst (pg_zs_meta_page superuser_backend sample_fcinfo 16384 initial_world)
  = Returned
      (RetTuple
         (mkTuple
            [ DInt 0; DInt 1; DInt 2; DInt 7; DInt 5; DInt 1; DInt 24;
              DInt 4294967295; DInt 0 ]
            (replicate 9 false)))
  /\ fst (pg_zs_meta_page superuser_backend sample_fcinfo 16386 initial_world)
     = Raised ERRCODE_INTERNAL_ERROR "Bad page special size".
Proof.
  destruct (meta_page_snapshot superuser_backend sample_fcinfo 16384
              sample_rel (sample_metapage 1 2)) as (_ & Hgood & _).
  { exact superuser_backend_accepts_sample_rel. }
  { exact sample_fcinfo_ok. }
  { simpl; lia. }
  { reflexivity. }
  destruct (meta_page_snapshot superuser_backend sample_fcinfo 16386
              blank_rel zero_page) as (_ & _ & Hsize & _).
  { exact superuser_backend_accepts_blank_rel. }
  { exact sample_fcinfo_ok. }
  { simpl; lia. }
  { reflexivity. }
  split.
  - apply Hgood; reflexivity.
  - apply Hsize. discriminate.
Defined.

(** Relation 16386 at work: block 0 has no special area at all, and the
    ERROR that rejects it does not say which page id was found. *)
Lemma meta_page_size_error_omits_page_id :
  let r := pg_zs_meta_page superuser_backend sample_fcinfo 16386
             initial_world in
  rd_blocks blank_rel !! 0%nat = Some zero_page
  /\ PageGetSpecialSize zero_page <> MAXALIGN_sizeof_ZSMetaPageOpaque
  /\ fst r = Raised ERRCODE_INTERNAL_ERROR "Bad page special size"
  /\ ~ reports_tag "Bad page special size"
         (ZSMetaPageOpaque.zs_page_id (as_ZSMetaPageOpaque zero_page)).
Proof.
  vm_compute. repeat split; discriminate.
Qed.

Lemma dump_attstreams_null_witness :
  pg_zs_dump_attstreams superuser_backend 10 sample_fcinfo 16384 4
    initial_world
  = (Returned RetNull,
     mkWorld
       [ EvTableOpen 16384; EvCheckForInterrupts; EvReadBuffer 4;
         EvLockBuffer 4 BUFFER_LOCK_EXCLUSIVE; EvUnlockReleaseBuffer 4;
         EvTableClose 16384 ]
       [] 1).
Proof.
  apply (dump_attstreams_null superuser_backend 10 sample_fcinfo 16384
           sample_rel 4 (sample_btree_page 1 1 4294967295)).
  - exact superuser_backend_accepts_sample_rel.
  - exact sample_fcinfo_ok.
  - lia.
  - reflexivity.
  - right. right. right. discriminate.
Defined.

(** ** The further properties at work *)

Lemma debug_backend_accepts_cyclic_rel :
  call_accepted debug_backend 16388 cyclic_rel.
Proof. repeat split. Defined.

Lemma debug_backend_accepts_misfiled_rel :
  call_accepted debug_backend 16390 misfiled_rel.
Proof. repeat split. Defined.

Lemma leaf_backend_accepts_leaf_rel :
  call_accepted leaf_backend 16391 leaf_rel.
Proof. repeat split. Defined.

Lemma dirty_stack_backend_accepts_leaf_rel :
  call_accepted dirty_stack_backend 16391 leaf_rel.
Proof. repeat split. Defined.

Lemma sample_leaf_is_attribute_leaf :
  is_attribute_leaf (sample_btree_page 1 0 4294967295).
Proof. repeat split. discriminate. Defined.

Lemma lower_only_leaf_is_attribute_leaf : is_attribute_leaf lower_only_leaf.
Proof. repeat split. discriminate. Defined.

(** Relation 16385: the walk ends on the recycled page at block 2 and the
    call returns with that page still locked. *)
Lemma undo_walk_keeps_unexpected_page_locked_witness :
  let r := pg_zs_undo_pages superuser_backend 10 sample_fcinfo 16385
             initial_world in
  fst r = Returned RetSet
  /\ scan_run Prelude (trace (snd r)) = Some (Locked 2).
Proof.
  destruct (undo_walk_keeps_unexpected_page_locked superuser_backend
              sample_fcinfo 16385 recycled_rel (sample_metapage 1 2)
              recycled_chain 2 10)
    as (H1 & H2 & _).
  - exact superuser_backend_accepts_recycled_rel.
  - exact sample_fcinfo_ok.
  - simpl; lia.
  - reflexivity.
  - eapply chain_page;
      [ discriminate | simpl; lia | reflexivity | reflexivity | simpl; lia
      | simpl; lia
      | apply packed_next; [simpl; lia | simpl; lia |];
        apply packed_next; [simpl; lia | simpl; lia |];
        apply packed_end; simpl; lia
      | intros _; repeat constructor
      | eapply chain_stop;
        [discriminate | simpl; lia | reflexivity | discriminate] ].
  - vm_compute. lia.
  - exact (conj H1 H2).
Defined.

(** Relation 16384 scanned by a backend whose cancel request the second
    poll finds: block 1 is read, block 2 is not. *)
Lemma physical_scans_stop_at_cancel_witness :
  let rb := pg_zs_btree_pages impatient_backend sample_fcinfo 16384
              initial_world in
  let rt := pg_zs_toast_pages impatient_backend sample_fcinfo 16384
              initial_world in
  (fst rb = Raised ERRCODE_QUERY_CANCELED
              "canceling statement due to user request"
   /\ pages_read (trace (snd rb)) = [1])
  /\ (fst rt = Raised ERRCODE_QUERY_CANCELED
                 "canceling statement due to user request"
      /\ pages_read (trace (snd rt)) = [1]).
Proof.
  destruct (physical_scans_stop_at_cancel impatient_backend sample_fcinfo
              16384 sample_rel 1)
    as [(Hb1 & Hb2 & _) (Ht1 & Ht2 & _)].
  - reflexivity.
  - reflexivity.
  - reflexivity.
  - exact sample_fcinfo_ok.
  - simpl; lia.
  - intros n Hn. destruct n; [reflexivity | lia].
  - reflexivity.
  - exact (conj (conj Hb1 Hb2) (conj Ht1 Ht2)).
Defined.

(** Relation 16388: the walk goes round 1 -> 2 -> 1 until the fuel is
    spent. *)
Lemma undo_walk_never_leaves_a_circle_witness :
  fst (pg_zs_undo_pages debug_backend 50 sample_fcinfo 16388 initial_world)
  = Diverged.
Proof.
  apply (undo_walk_never_leaves_a_circle debug_backend sample_fcinfo 16388
           cyclic_rel (sample_metapage 1 2) on_circle 50).
  - exact debug_backend_accepts_cyclic_rel.
  - exact sample_fcinfo_ok.
  - simpl; lia.
  - reflexivity.
  - intros blkno [-> | ->].
    + split; [discriminate|]. split; [lia|].
      exists (sample_undo_page 1 2 5), (two_records (sample_undo_page 1 2 5)).
      split; [reflexivity|]. split; [reflexivity|]. split.
      { apply packed_next; [simpl; lia | simpl; lia |];
          apply packed_next; [simpl; lia | simpl; lia |];
          apply packed_end; simpl; lia. }
      split; [intros _; repeat constructor|]. right. reflexivity.
    + split; [discriminate|]. split; [lia|].
      exists (sample_undo_page 2 1 7), (two_records (sample_undo_page 2 1 7)).
      split; [reflexivity|]. split; [reflexivity|]. split.
      { apply packed_next; [simpl; lia | simpl; lia |];
          apply packed_next; [simpl; lia | simpl; lia |];
          apply packed_end; simpl; lia. }
      split; [intros _; repeat constructor|]. left. reflexivity.
  - left. reflexivity.
Defined.

(** Relation 16389: the record loop of block 1 never moves on, and the
    cancel request that the second poll would find is never seen. *)
Lemma zero_size_record_hangs_the_walk_witness :
  let r := pg_zs_undo_pages impatient_backend 21 sample_fcinfo 16389
             initial_world in
  fst r = Diverged
  /\ polls (snd r) = 1%nat
  /\ scan_run Prelude (trace (snd r)) = Some (Locked 1).
Proof.
  apply (zero_size_record_hangs_the_walk impatient_backend sample_fcinfo
           16389 stuck_rel (sample_metapage 1 1) stuck_undo_page 20).
  - reflexivity.
  - reflexivity.
  - reflexivity.
  - reflexivity.
  - exact sample_fcinfo_ok.
  - simpl; lia.
  - reflexivity.
  - discriminate.
  - simpl; lia.
  - reflexivity.
  - reflexivity.
  - simpl; lia.
  - reflexivity.
  - intros _. reflexivity.
Defined.

(** Relation 16390 in a build with assertions: the first record of block 1
    says it is on block 9. *)
Lemma misfiled_record_trips_the_assertion_witness :
  let r := pg_zs_undo_pages debug_backend 11 sample_fcinfo 16390
             initial_world in
  fst r = Trapped
  /\ tupstore (snd r) = []
  /\ pages_read (trace (snd r)) = [0; 1].
Proof.
  destruct (misfiled_record_trips_the_assertion debug_backend sample_fcinfo
              16390 misfiled_rel (sample_metapage 1 1)
              (sample_undo_page 9 4294967295 5) 10) as (H1 & H2 & H3);
    [| | | | | | | | | | | exact (conj H1 (conj H2 H3))].
  - exact debug_backend_accepts_misfiled_rel.
  - exact sample_fcinfo_ok.
  - reflexivity.
  - simpl; lia.
  - reflexivity.
  - discriminate.
  - simpl; lia.
  - reflexivity.
  - reflexivity.
  - simpl; lia.
  - discriminate.
Defined.

(** Block 1 of relation 16391: three chunks in the lower stream, two in
    the upper stream. *)
Lemma dump_attstreams_chunk_rows_witness :
  let r := pg_zs_dump_attstreams leaf_backend 10 sample_fcinfo 16391 1
             initial_world in
  fst r = Returned RetSet
  /\ length (tupstore (snd r)) = 5%nat
  /\ pages_read (trace (snd r)) = [1].
Proof.
  destruct (dump_attstreams_chunk_rows leaf_backend 10 sample_fcinfo 16391
              leaf_rel 1 (sample_btree_page 1 0 4294967295)
              sample_lower_decoder sample_upper_decoder
              sample_lower_steps sample_upper_steps)
    as (rows_lo & rows_up & H1 & H2 & Hlo & Hup & _ & _ & H3 & _).
  - exact leaf_backend_accepts_leaf_rel.
  - exact sample_fcinfo_ok.
  - lia.
  - reflexivity.
  - exact sample_leaf_is_attribute_leaf.
  - intros _. split; reflexivity.
  - intros _. split; reflexivity.
  - simpl; lia.
  - simpl; lia.
  - destruct Hlo as [Hlo _]. destruct Hup as [Hup _].
    cbv zeta. rewrite H2, length_app, Hlo, Hup.
    exact (conj H1 (conj eq_refl H3)).
Defined.

Lemma dump_attstreams_upperstream_flag_witness :
  let r := pg_zs_dump_attstreams leaf_backend 10 sample_fcinfo 16391 1
             initial_world in
  exists rows_lo rows_up,
    tupstore (snd r) = (rows_lo ++ rows_up)%list
    /\ length rows_lo = 3%nat
    /\ length rows_up = 2%nat
    /\ Forall (fun row => column row 2 = Some (DInt 0)) rows_lo
    /\ Forall (fun row => column row 2 = Some (DInt 1)) rows_up.
Proof.
  destruct (dump_attstreams_upperstream_flag leaf_backend 10 sample_fcinfo
              16391 leaf_rel 1 (sample_btree_page 1 0 4294967295)
              sample_lower_decoder sample_upper_decoder
              sample_lower_steps sample_upper_steps)
    as (rows_lo & rows_up & H1 & H2 & H3 & H4 & H5).
  - exact leaf_backend_accepts_leaf_rel.
  - exact sample_fcinfo_ok.
  - lia.
  - reflexivity.
  - exact sample_leaf_is_attribute_leaf.
  - intros _. split; reflexivity.
  - reflexivity.
  - split; reflexivity.
  - exists rows_lo, rows_up.
    exact (conj H1 (conj H2 (conj H3 (conj H4 H5)))).
Defined.

(** Block 2 of relation 16391 has a lower stream only.  Where the
    unassigned variable holds false its two rows are reported as rows of
    the upper stream; where it holds true they are not. *)
Lemma dump_attstreams_upperstream_unset_witness :
  Forall (fun row => column row 2 = Some (DInt 1))
    (tupstore (snd (pg_zs_dump_attstreams leaf_backend 10 sample_fcinfo
                      16391 2 initial_world)))
  /\ Forall (fun row => column row 2 = Some (DInt 0))
       (tupstore (snd (pg_zs_dump_attstreams dirty_stack_backend 10
                         sample_fcinfo 16391 2 initial_world))).
Proof.
  destruct (dump_attstreams_upperstream_unset leaf_backend 10 sample_fcinfo
              16391 leaf_rel 2 lower_only_leaf lower_only_decoder
              lower_only_steps)
    as [_ Hclean].
  { exact leaf_backend_accepts_leaf_rel. }
  { exact sample_fcinfo_ok. }
  { lia. }
  { reflexivity. }
  { exact lower_only_leaf_is_attribute_leaf. }
  { reflexivity. }
  { reflexivity. }
  { split; reflexivity. }
  destruct (dump_attstreams_upperstream_unset dirty_stack_backend 10
              sample_fcinfo 16391 leaf_rel 2 lower_only_leaf
              lower_only_decoder lower_only_steps)
    as [_ Hdirty].
  { exact dirty_stack_backend_accepts_leaf_rel. }
  { exact sample_fcinfo_ok. }
  { lia. }
  { reflexivity. }
  { exact lower_only_leaf_is_attribute_leaf. }
  { reflexivity. }
  { reflexivity. }
  { split; reflexivity. }
  exact (conj Hclean Hdirty).
Defined.

(** Block 3 of relation 16391: a toast page without an owning row id,
    which states a total size of 20000. *)
Lemma toast_row_columns_witness :
  exists row,
    row ∈ tupstore (snd (pg_zs_toast_pages leaf_backend sample_fcinfo 16391
                           initial_world))
    /\ column row 0 = Some (DInt 3)
    /\ column row 1 = Some (DInt 0)
    /\ column row 2 = Some (DInt 0)
    /\ column row 6 = Some (DInt 8128).
Proof.
  destruct (toast_row_columns leaf_backend sample_fcinfo 16391 leaf_rel 3
              (sample_toast_page 0 4294967295))
    as (_ & row & Hin & _ & _ & H0 & Hzero & _ & _ & _ & _ & H6 & _);
    [ exact leaf_backend_accepts_leaf_rel | exact sample_fcinfo_ok
    | lia | reflexivity | reflexivity | ].
  destruct Hzero as [H1 H2]; [reflexivity|].
  exists row. exact (conj Hin (conj H0 (conj H1 (conj H2 H6)))).
Defined.

(** Blocks 3 and 6 of relation 16384: a leaf of attribute 1 with one
    compressed stream of two, and a leaf of the row-id tree. *)
Lemma leaf_statistics_consistent_witness :
  (exists row nitems ncompressed,
      row ∈ tupstore (snd (pg_zs_btree_pages superuser_backend sample_fcinfo
                             16384 initial_world))
      /\ column row 0 = Some (DInt 3)
      /\ column row 6 = Some (DInt nitems)
      /\ column row 7 = Some (DInt ncompressed)
      /\ 0 <= ncompressed <= nitems /\ nitems <= 2)
  /\ (exists row totalsz,
         row ∈ tupstore (snd (pg_zs_btree_pages superuser_backend
                                sample_fcinfo 16384 initial_world))
         /\ column row 0 = Some (DInt 6)
         /\ column row 7 = Some (DInt 0)
         /\ column row 8 = Some (DInt totalsz)
         /\ column row 9 = Some (DInt totalsz)).
Proof.
  destruct (leaf_statistics_consistent superuser_backend sample_fcinfo 16384
              sample_rel 3 (sample_btree_page 1 0 4294967295))
    as (row & n & c & t & u & Hin & H0 & H6 & H7 & _ & _ & _ & Hattr);
    [ exact superuser_backend_accepts_sample_rel | exact sample_fcinfo_ok
    | lia | reflexivity | reflexivity | reflexivity | ].
  destruct Hattr as (Hc & Hn & _); [discriminate|].
  destruct (leaf_statistics_consistent superuser_backend sample_fcinfo 16384
              sample_rel 6 (sample_btree_page 0 0 4294967295))
    as (row' & n' & c' & t' & u' & Hin' & H0' & _ & H7' & H8' & H9' & Hmeta
        & _);
    [ exact superuser_backend_accepts_sample_rel | exact sample_fcinfo_ok
    | lia | reflexivity | reflexivity | reflexivity | ].
  destruct Hmeta as [Hc' Ht']; [reflexivity|].
  split.
  - exists row, n, c.
    exact (conj Hin (conj H0 (conj H6 (conj H7 (conj Hc Hn))))).
  - exists row', u'. rewrite Hc' in H7'. rewrite Ht' in H8'.
    exact (conj Hin' (conj H0' (conj H7' (conj H8' H9')))).
Defined.

(** Relation 16384 walked by a backend whose cancel request the second
    poll finds: block 1 leaves its row, block 2 is not read. *)
Lemma undo_walk_stops_at_cancel_witness :
  let r := pg_zs_undo_pages impatient_backend 10 sample_fcinfo 16384
             initial_world in
  fst r = Raised ERRCODE_QUERY_CANCELED
            "canceling statement due to user request"
  /\ pages_read (trace (snd r)) = [0; 1]
  /\ tupstore (snd r)
     = [ mkTuple [DInt 1; DInt 2; DInt 8080; DInt 5; DInt 6]
           [false; false; false; false; false] ].
Proof.
  destruct (undo_walk_stops_at_cancel impatient_backend sample_fcinfo 16384
              sample_rel (sample_metapage 1 2) sample_chain None 1 10)
    as (H1 & H2 & H3 & _).
  - reflexivity.
  - reflexivity.
  - reflexivity.
  - exact sample_fcinfo_ok.
  - simpl; lia.
  - reflexivity.
  - eapply chain_page;
      [ discriminate | simpl; lia | reflexivity | reflexivity | simpl; lia
      | simpl; lia
      | apply packed_next; [simpl; lia | simpl; lia |];
        apply packed_next; [simpl; lia | simpl; lia |];
        apply packed_end; simpl; lia
      | intros _; repeat constructor
      | ].
    eapply chain_page.
    + discriminate.
    + simpl; lia.
    + reflexivity.
    + reflexivity.
    + simpl; lia.
    + simpl; lia.
    + apply packed_next; [simpl; lia | simpl; lia |];
        apply packed_next; [simpl; lia | simpl; lia |];
        apply packed_end; simpl; lia.
    + intros _; repeat constructor.
    + exact (chain_end impatient_backend sample_rel).
  - vm_compute. lia.
  - simpl; lia.
  - intros n Hn. destruct n; [reflexivity | lia].
  - reflexivity.
  - exact (conj H1 (conj H2 H3)).
Defined.

(** Relation 16384: six blocks after block 0, an undo chain of two
    pages; block 3 is asked for by number. *)
Lemma inspection_lock_modes_witness :
  locks_taken
    (trace (snd (pg_zs_btree_pages superuser_backend sample_fcinfo 16384
                   initial_world)))
  = [ (1, BUFFER_LOCK_EXCLUSIVE); (2, BUFFER_LOCK_EXCLUSIVE);
      (3, BUFFER_LOCK_EXCLUSIVE); (4, BUFFER_LOCK_EXCLUSIVE);
      (5, BUFFER_LOCK_EXCLUSIVE); (6, BUFFER_LOCK_EXCLUSIVE) ]
  /\ locks_taken
       (trace (snd (pg_zs_undo_pages superuser_backend 10 sample_fcinfo 16384
                      initial_world)))
     = [ (0, BUFFER_LOCK_SHARE); (1, BUFFER_LOCK_EXCLUSIVE);
         (2, BUFFER_LOCK_EXCLUSIVE) ]
  /\ locks_taken
       (trace (snd (pg_zs_dump_attstreams superuser_backend 10 sample_fcinfo
                      16384 3 initial_world)))
     = [ (3, BUFFER_LOCK_EXCLUSIVE) ]
  /\ locks_taken
       (trace (snd (pg_zs_page_type superuser_backend 16384 3 initial_world)))
     = [ (3, BUFFER_LOCK_SHARE) ].
Proof.
  destruct (inspection_lock_modes superuser_backend sample_fcinfo
              16384 sample_rel (sample_metapage 1 2) sample_chain None 10
              3 (sample_btree_page 1 0 4294967295))
    as (H1 & _ & H3 & _ & H5 & H6).
  - exact superuser_backend_accepts_sample_rel.
  - exact sample_fcinfo_ok.
  - simpl; lia.
  - reflexivity.
  - eapply chain_page;
      [ discriminate | simpl; lia | reflexivity | reflexivity | simpl; lia
      | simpl; lia
      | apply packed_next; [simpl; lia | simpl; lia |];
        apply packed_next; [simpl; lia | simpl; lia |];
        apply packed_end; simpl; lia
      | intros _; repeat constructor
      | ].
    eapply chain_page.
    + discriminate.
    + simpl; lia.
    + reflexivity.
    + reflexivity.
    + simpl; lia.
    + simpl; lia.
    + apply packed_next; [simpl; lia | simpl; lia |];
        apply packed_next; [simpl; lia | simpl; lia |];
        apply packed_end; simpl; lia.
    + intros _; repeat constructor.
    + exact (chain_end superuser_backend sample_rel).
  - vm_compute. lia.
  - lia.
  - reflexivity.
  - exact (conj H1 (conj H3 (conj H5 H6))).
Defined.

(** Block 4 of relation 16391: the decoder hands out one chunk of the
    lower stream and gives up on the next. *)
Lemma decoder_error_leaves_page_locked_witness :
  let r := pg_zs_dump_attstreams leaf_backend 10 sample_fcinfo 16391 4
             initial_world in
  fst r = Raised ERRCODE_DATA_CORRUPTED "zero-length chunk"
  /\ length (tupstore (snd r)) = 1%nat
  /\ scan_run Prelude (trace (snd r)) = Some (Locked 4).
Proof.
  destruct (decoder_error_leaves_page_locked leaf_backend 10 sample_fcinfo
              16391 leaf_rel 4 corrupt_leaf corrupt_steps
              ERRCODE_DATA_CORRUPTED "zero-length chunk")
    as (H1 & H2 & _ & H4).
  - exact leaf_backend_accepts_leaf_rel.
  - exact sample_fcinfo_ok.
  - lia.
  - reflexivity.
  - repeat split. discriminate.
  - reflexivity.
  - right. exists (0, [9; 0; 3]). split; reflexivity.
  - exact (conj H1 (conj H2 H4)).
Defined.

(** Someone who is not superuser, calling on a relation that does not
    exist from a context that cannot take a set, is told about the
    privilege. *)
Lemma privilege_is_checked_first_witness :
  pg_zs_page_type plain_user_backend 99999 0 initial_world
  = (Raised ERRCODE_INSUFFICIENT_PRIVILEGE
       "must be superuser to use zedstore inspection functions",
     initial_world)
  /\ pg_zs_meta_page plain_user_backend scalar_fcinfo 99999 initial_world
     = (Raised ERRCODE_INSUFFICIENT_PRIVILEGE
          "must be superuser to use zedstore inspection functions",
        initial_world).
Proof.
  destruct (privilege_is_checked_first plain_user_backend 10 scalar_fcinfo
              99999 0 initial_world) as [Htype Hrows]; [reflexivity|].
  split; [exact Htype|].
  apply Forall_cons in Hrows as [_ Hrows].
  apply Forall_cons in Hrows as [_ Hrows].
  apply Forall_cons in Hrows as [_ Hrows].
  apply Forall_cons in Hrows as [_ Hrows].
  apply Forall_cons in Hrows as [Hmeta _].
  exact Hmeta.
Defined.

(** A superuser calling [pg_zs_meta_page] on a relation that does not
    exist, from a context that does not allow materialize mode. *)
Lemma bad_call_context_is_rejected_unopened_witness :
  pg_zs_meta_page superuser_backend value_per_call_fcinfo 99999 initial_world
  = (Raised ERRCODE_FEATURE_NOT_SUPPORTED
       "materialize mode required, but it is not allowed in this context",
     initial_world).
Proof.
  destruct (bad_call_context_is_rejected_unopened superuser_backend 10
              value_per_call_fcinfo 99999 0 initial_world)
    as (code & msg & Hrows & Hwhich).
  - reflexivity.
  - intros (rsinfo & Hrs & _ & Hmode & _).
    injection Hrs as <-. apply Hmode. reflexivity.
  - injection Hwhich as -> ->.
    apply Forall_cons in Hrows as [_ Hrows].
    apply Forall_cons in Hrows as [_ Hrows].
    apply Forall_cons in Hrows as [_ Hrows].
    apply Forall_cons in Hrows as [_ Hrows].
    apply Forall_cons in Hrows as [Hmeta _].
    exact Hmeta.
Defined.

End Examples.
